(** * HumAIne-chatbot: the profiling and personalization core

    A shallow embedding of the Python sources

    - [src/core/user_profiler.py]        (module [UserProfiler])
    - [src/core/cross_session_learner.py] (module [CrossSessionLearner])
    - [src/core/prompt_manager.py]       (module [PromptManager])
    - [src/utils/sentiment_analyzer.py]  (module [SentimentAnalyzer])
    - [src/utils/language_complexity.py] (module [LanguageComplexityAnalyzer])

    Conventions of the embedding.

    - Python [float] and [int] values that take part in arithmetic are
      exact rationals ([Q]); rounding of binary floating point is not
      modelled.  The counterexamples below use values that are exact in
      binary floating point as well.
    - Text is a [string] of bytes, the UTF-8 form of a Python [str].  In
      [src/utils/sentiment_analyzer.py], whose tables hold characters
      outside ASCII, [str.lower], [str.split] and the regular-expression
      class [\w] follow the Unicode character database, which enters
      through the class [Unicode]; [emoji in text] is containment of byte
      sequences, which for UTF-8 is containment of character sequences.
      The other modules give [str.lower], [str.split], [str.strip] and
      [\w] their ASCII meaning.
    - Dictionaries kept in the histories are finite maps from key strings
      to [PyVal]; the user registry is a finite map from user ids to
      profiles.
    - [datetime] values are integers (microseconds); every call of
      [datetime.utcnow()] made while one event is processed reads the same
      instant [now], which the caller passes in.
    - Writing profiles to disk ([ProfilePersistence]) and [print] are not
      modelled: [save_profile] catches its own errors and has no effect on
      the in-memory state.
    - The natural-language toolkits behind [EnhancedLanguageAnalyzer], the
      platform's local-time conversion and numpy's standard deviation are
      collaborators outside the repository; they enter through the class
      [External]. *)

From Stdlib Require Import ZArith QArith Qminmax Lqa Lia List String Ascii Bool.
From stdpp Require Import gmap strings list fin_maps.

Local Open Scope string_scope.
Local Open Scope Q_scope.

(** ** Python primitives *)

Module Py.

(** [a < b], [a <= b] on numbers, as booleans. *)
Definition ltb (a b : Q) : bool := negb (Qle_bool b a).
Definition leb (a b : Q) : bool := Qle_bool a b.
Definition eqb (a b : Q) : bool := Qeq_bool a b.

(** [min(a, b)] returns [a] unless [b < a]; [max(a, b)] returns [a]
    unless [b > a]. *)
Definition min (a b : Q) : Q := if ltb b a then b else a.
Definition max (a b : Q) : Q := if ltb a b then b else a.

(** [abs(a)]. *)
Definition abs (a : Q) : Q := if ltb a 0 then - a else a.

(** [int(a)]: truncation toward zero. *)
Definition int (a : Q) : Z := Z.quot (Qnum a) (Z.pos (Qden a)).

Definition of_nat (n : nat) : Q := inject_Z (Z.of_nat n).

(** [sum(l)] and [numpy.mean(l)] of a non-empty list; the mean of the
    empty list is NaN, modelled as [None]. *)
Definition sum (l : list Q) : Q := fold_right Qplus 0 l.
Definition mean (l : list Q) : option Q :=
  match l with
  | [] => None
  | _ => Some (sum l / of_nat (length l))
  end.

End Py.

(** ** Text primitives (ASCII) *)

Module Text.

Definition code (c : ascii) : N := N_of_ascii c.

(** [c.isspace()]: tab, line feed, vertical tab, form feed, carriage
    return, the four separators 0x1c-0x1f and the space. *)
Definition isspace (c : ascii) : bool :=
  ((9 <=? code c) && (code c <=? 13) || (28 <=? code c) && (code c <=? 32))%N.

Definition isupper (c : ascii) : bool := ((65 <=? code c) && (code c <=? 90))%N.
Definition islower (c : ascii) : bool := ((97 <=? code c) && (code c <=? 122))%N.
Definition isdigit (c : ascii) : bool := ((48 <=? code c) && (code c <=? 57))%N.

(** The class [\w]: letters, digits and the underscore. *)
Definition isword (c : ascii) : bool :=
  isupper c || islower c || isdigit c || (code c =? 95)%N.

Definition lower_char (c : ascii) : ascii :=
  if isupper c then ascii_of_N (code c + 32) else c.

(** [s.lower()]. *)
Fixpoint lower (s : string) : string :=
  match s with
  | EmptyString => EmptyString
  | String c s' => String (lower_char c) (lower s')
  end.

(** Keep the characters that satisfy [p]; [re.sub(r'[^\w]', '', s)] is
    [keep isword s]. *)
Fixpoint keep (p : ascii -> bool) (s : string) : string :=
  match s with
  | EmptyString => EmptyString
  | String c s' => if p c then String c (keep p s') else keep p s'
  end.

Definition starts_word (p : ascii -> bool) (s : string) : bool :=
  match s with
  | EmptyString => false
  | String c _ => negb (p c)
  end.

Definition cons_head (c : ascii) (l : list string) : list string :=
  match l with
  | [] => [String c EmptyString]
  | w :: ws => String c w :: ws
  end.

(** The maximal runs of characters that are not separators, in order:
    [s.split()] is [fields isspace s]. *)
Fixpoint fields (sep : ascii -> bool) (s : string) : list string :=
  match s with
  | EmptyString => []
  | String c s' =>
      if sep c then fields sep s'
      else if starts_word sep s' then cons_head c (fields sep s')
      else String c EmptyString :: fields sep s'
  end.

Definition split (s : string) : list string := fields isspace s.

(** [rev_string acc s] is the reverse of [s] followed by [acc]. *)
Fixpoint rev_string (acc s : string) : string :=
  match s with
  | EmptyString => acc
  | String c s' => rev_string (String c acc) s'
  end.

Fixpoint drop_while (p : ascii -> bool) (s : string) : string :=
  match s with
  | EmptyString => EmptyString
  | String c s' => if p c then drop_while p s' else s
  end.

(** [re.split(pattern, s)] for a pattern that matches the maximal runs of
    characters of the class [sep], as [[.!?]+] does: the pieces between the
    runs, with the empty pieces before a leading run and after a trailing
    one.  [cur] is the piece being read, reversed. *)
Fixpoint re_split_go (sep : ascii -> bool) (in_run : bool) (cur s : string)
  : list string :=
  match s with
  | EmptyString => [rev_string EmptyString cur]
  | String c s' =>
      if sep c then
        if in_run then re_split_go sep true cur s'
        else rev_string EmptyString cur :: re_split_go sep true EmptyString s'
      else re_split_go sep false (String c cur) s'
  end.

Definition re_split (sep : ascii -> bool) (s : string) : list string :=
  re_split_go sep false EmptyString s.

(** [s.strip()]. *)
Definition strip (s : string) : string :=
  rev_string EmptyString
    (drop_while isspace (rev_string EmptyString (drop_while isspace s))).

(** [sub in s]. *)
Fixpoint contains (sub s : string) : bool :=
  String.prefix sub s ||
  match s with
  | EmptyString => false
  | String _ s' => contains sub s'
  end.

(** [len(set(l))]: the number of distinct strings of [l]. *)
Fixpoint distinct (l : list string) : list string :=
  match l with
  | [] => []
  | w :: ws => if bool_decide (w ∈ ws) then distinct ws else w :: distinct ws
  end.

(** Truth value of a string: non-empty. *)
Definition nonempty (s : string) : bool :=
  match s with EmptyString => false | _ => true end.

End Text.

(** A dictionary display [{k1: v1, k2: v2, ...}]: a later binding of a key
    replaces the earlier one. *)
Definition dict_literal {V} (l : list (string * V)) : gmap string V :=
  fold_left (fun m kv => <[kv.1 := kv.2]> m) l ∅.

(** The same display as the list [d.items()] iterates over: one pair per
    key, at the position of the key's first binding, with the value of its
    last binding. *)
Fixpoint dict_items {V} (seen : list string) (l : list (string * V))
  : list (string * V) :=
  match l with
  | [] => []
  | (k, v) :: l' =>
      if bool_decide (k ∈ seen) then dict_items seen l'
      else (k, default v (dict_literal l' !! k)) :: dict_items (k :: seen) l'
  end.

(** ** The Unicode character database *)

(** The three operations of [analyze_sentiment] whose result on characters
    outside ASCII is fixed by the Unicode character database of the Python
    build, on UTF-8 text. *)
Class Unicode := {
  (** [s.lower()] *)
  str_lower : string -> string;
  (** [s.split()]: the maximal runs of characters that are not white
      space. *)
  str_split : string -> list string;
  (** [re.sub(r'[^\w]', '', s)]: [s] without the characters outside the
      class [\w]. *)
  sub_non_word : string -> string
}.

(** ** [src/utils/sentiment_analyzer.py] *)

Module SentimentAnalyzer.

(** [self.sentiment_tokens] *)
Definition sentiment_tokens : gmap string Z :=
  dict_literal
  [
   ("excellent", 5); ("amazing", 5); ("outstanding", 5); ("fantastic", 5);
   ("brilliant", 5); ("wonderful", 4); ("great", 4); ("awesome", 4);
   ("perfect", 4); ("superb", 4); ("good", 3); ("nice", 3);
   ("fine", 3); ("okay", 2); ("alright", 2); ("love", 5);
   ("adore", 5); ("enjoy", 4); ("like", 3); ("appreciate", 4);
   ("helpful", 4); ("useful", 4); ("beneficial", 4); ("valuable", 4);
   ("excited", 4); ("happy", 4); ("pleased", 4); ("satisfied", 3);
   ("impressed", 4); ("surprised", 3); ("interested", 3); ("terrible", (-5));
   ("awful", (-5)); ("horrible", (-5)); ("dreadful", (-5)); ("atrocious", (-5));
   ("bad", (-3)); ("poor", (-3)); ("worse", (-4)); ("worst", (-5));
   ("hate", (-5)); ("despise", (-5)); ("loathe", (-5)); ("dislike", (-3));
   ("disappointed", (-3)); ("frustrated", (-3)); ("angry", (-4)); ("annoyed", (-3));
   ("irritated", (-3)); ("confused", (-2)); ("lost", (-2)); ("unsure", (-2));
   ("uncertain", (-2)); ("useless", (-4)); ("pointless", (-4)); ("worthless", (-4));
   ("meaningless", (-4)); ("boring", (-3)); ("tedious", (-3)); ("monotonous", (-3));
   ("repetitive", (-2)); ("difficult", (-2)); ("hard", (-2)); ("challenging", (-1));
   ("complex", (-1)); ("maybe", 0); ("perhaps", 0); ("possibly", 0);
   ("might", 0); ("could", 0); ("think", 0); ("believe", 0);
   ("suppose", 0); ("guess", 0); ("question", 0); ("ask", 0);
   ("wonder", 0); ("curious", 0); ("explain", 0); ("describe", 0);
   ("tell", 0); ("show", 0); ("understand", 0); ("learn", 0);
   ("know", 0); ("see", 0)
  ]%Z.

(** [self.emoji_sentiment]; the keys are the character sequences of the
    source file. *)
Definition emoji_sentiment : list (string * Z) :=
  dict_items []
  [
   ("ðŸ˜€", 4); ("ðŸ˜ƒ", 4); ("ðŸ˜„", 4); ("ðŸ˜", 4); ("ðŸ˜†", 4); ("ðŸ˜…", 3);
   ("ðŸ˜‚", 4); ("ðŸ¤£", 4); ("ðŸ˜Š", 4); ("ðŸ˜‡", 4); ("ðŸ™‚", 3); ("ðŸ™ƒ", 2);
   ("ðŸ˜‰", 3); ("ðŸ˜Œ", 3); ("ðŸ˜", 5); ("ðŸ¥°", 5); ("ðŸ˜˜", 4); ("ðŸ˜—", 3);
   ("ðŸ˜™", 3); ("ðŸ˜š", 4); ("ðŸ˜‹", 3); ("ðŸ˜›", 2); ("ðŸ˜", 2); ("ðŸ˜œ", 2);
   ("ðŸ¤ª", 2); ("ðŸ¤¨", 0); ("ðŸ§", 0); ("ðŸ¤“", 1); ("ðŸ˜Ž", 3); ("ðŸ¤©", 4);
   ("ðŸ¥³", 4); ("ðŸ˜", 1); ("ðŸ˜’", (-2)); ("ðŸ˜ž", (-3)); ("ðŸ˜”", (-3)); ("ðŸ˜Ÿ", (-2));
   ("ðŸ˜•", (-2)); ("ðŸ™", (-2)); ("â˜¹ï¸", (-3)); ("ðŸ˜£", (-3)); ("ðŸ˜–", (-3)); ("ðŸ˜«", (-3));
   ("ðŸ˜©", (-3)); ("ðŸ¥º", (-1)); ("ðŸ˜¢", (-3)); ("ðŸ˜­", (-4)); ("ðŸ˜¤", (-2)); ("ðŸ˜ ", (-3));
   ("ðŸ˜¡", (-4)); ("ðŸ¤¬", (-5)); ("ðŸ¤¯", (-2)); ("ðŸ˜³", (-1)); ("ðŸ¥µ", (-2)); ("ðŸ¥¶", (-2));
   ("ðŸ˜±", (-3)); ("ðŸ˜¨", (-3)); ("ðŸ˜°", (-3)); ("ðŸ˜¥", (-2)); ("ðŸ˜“", (-2)); ("ðŸ¤—", 3);
   ("ðŸ¤”", 0); ("ðŸ¤­", 1); ("ðŸ¤«", 0); ("ðŸ¤¥", (-3)); ("ðŸ˜¶", 0); ("ðŸ˜", 0);
   ("ðŸ˜‘", 0); ("ðŸ˜¯", 0); ("ðŸ˜¦", (-1)); ("ðŸ˜§", (-2)); ("ðŸ˜®", 0); ("ðŸ˜²", 0);
   ("ðŸ˜´", (-1)); ("ðŸ¤¤", (-1)); ("ðŸ˜ª", (-1)); ("ðŸ˜µ", (-2)); ("ðŸ¤", 0); ("ðŸ¥´", (-1));
   ("ðŸ¤¢", (-4)); ("ðŸ¤®", (-5)); ("ðŸ¤§", (-2)); ("ðŸ˜·", (-1)); ("ðŸ¤’", (-2)); ("ðŸ¤•", (-2));
   ("ðŸ¤‘", (-2)); ("ðŸ¤ ", 2); ("ðŸ˜ˆ", (-1)); ("ðŸ‘¿", (-3)); ("ðŸ‘¹", (-3)); ("ðŸ‘º", (-3));
   ("ðŸ’€", (-2)); ("ðŸ‘»", 1); ("ðŸ‘½", 0); ("ðŸ¤–", 0); ("ðŸ˜º", 4); ("ðŸ˜¸", 4);
   ("ðŸ˜¹", 4); ("ðŸ˜»", 5); ("ðŸ˜¼", 1); ("ðŸ˜½", 3); ("ðŸ™€", (-2)); ("ðŸ˜¿", (-3));
   ("ðŸ˜¾", (-3)); ("ðŸ™ˆ", 1); ("ðŸ™‰", 0); ("ðŸ™Š", 0); ("ðŸ’Œ", 3); ("ðŸ’˜", 4);
   ("ðŸ’", 4); ("ðŸ’–", 4); ("ðŸ’—", 3); ("ðŸ’™", 2); ("ðŸ’š", 2); ("ðŸ§¡", 2);
   ("ðŸ’›", 2); ("ðŸ’œ", 2); ("ðŸ–¤", (-1)); ("ðŸ’”", (-4)); ("â£ï¸", 3); ("ðŸ’•", 4);
   ("ðŸ’ž", 4); ("ðŸ’“", 3); ("ðŸ’—", 3); ("ðŸ’–", 4); ("ðŸ’˜", 4); ("ðŸ’", 4);
   ("ðŸ’Ÿ", 3); ("â˜®ï¸", 2); ("âœï¸", 0); ("â˜ªï¸", 0); ("ðŸ•‰ï¸", 0); ("â˜¸ï¸", 0);
   ("âœ¡ï¸", 0); ("ðŸ”¯", 0); ("ðŸ•Ž", 0); ("â˜¯ï¸", 0); ("â˜¦ï¸", 0); ("ðŸ›", 0);
   ("â›Ž", 0); ("â™ˆ", 0); ("â™‰", 0); ("â™Š", 0); ("â™‹", 0); ("â™Œ", 0);
   ("â™", 0); ("â™Ž", 0); ("â™", 0); ("â™", 0); ("â™‘", 0); ("â™’", 0);
   ("â™“", 0); ("ðŸ†”", 0); ("âš›ï¸", 0); ("ðŸ‰‘", 0); ("â˜¢ï¸", (-3)); ("â˜£ï¸", (-2));
   ("ðŸ“´", (-1)); ("ðŸ“³", 0); ("ðŸˆ¶", 0); ("ðŸˆš", 0); ("ðŸˆ¸", 0); ("ðŸˆº", 0);
   ("ðŸˆ·ï¸", 0); ("âœ´ï¸", 0); ("ðŸ†š", 0); ("ðŸ’®", 0); ("ðŸ‰", 0); ("ãŠ™ï¸", 0);
   ("ãŠ—ï¸", 0); ("ðŸˆ´", 0); ("ðŸˆµ", 0); ("ðŸˆ¹", 0); ("ðŸˆ²", 0); ("ðŸ…°ï¸", 0);
   ("ðŸ…±ï¸", 0); ("ðŸ†Ž", 0); ("ðŸ†‘", 0); ("ðŸ…¾ï¸", 0); ("ðŸ†˜", (-3)); ("âŒ", (-3));
   ("â­•", 0); ("ðŸ›‘", (-2)); ("ðŸ›¡ï¸", 0); ("ðŸˆ¯", 0); ("ðŸ’¯", 3); ("ðŸ’¢", (-3));
   ("â™¨ï¸", 0); ("ðŸ’ ", 0); ("ðŸ”°", 0); ("ðŸ”±", 0); ("â­•", 0); ("âœ…", 3);
   ("â˜‘ï¸", 2); ("ðŸ”˜", 0); ("ðŸ”´", (-1)); ("ðŸŸ ", 0); ("ðŸŸ¡", 0); ("ðŸŸ¢", 1);
   ("ðŸ”µ", 0); ("ðŸŸ£", 0); ("âš«", (-1)); ("âšª", 0); ("ðŸŸ¤", 0); ("ðŸ”º", 0);
   ("ðŸ”»", 0); ("ðŸ’ ", 0); ("ðŸ”˜", 0); ("ðŸ”¶", 0); ("ðŸ”·", 0); ("ðŸ”¸", 0);
   ("ðŸ”¹", 0); ("ðŸ”º", 0); ("ðŸ”»", 0); ("ðŸ’Ž", 3); ("ðŸ”¶", 0); ("ðŸ”·", 0);
   ("ðŸ”¸", 0); ("ðŸ”¹", 0); ("ðŸ”º", 0); ("ðŸ”»", 0); ("ðŸ’Ž", 3); ("ðŸ”¶", 0);
   ("ðŸ”·", 0); ("ðŸ”¸", 0); ("ðŸ”¹", 0); ("ðŸ”º", 0); ("ðŸ”»", 0); ("ðŸ’Ž", 3);
   ("ðŸ”¶", 0)
  ]%Z.

Section Analyzer.
Context `{Unicode}.

(** The loop over the words of [analyze_sentiment]: the state is
    [(total_score, word_count)]. *)
Definition word_step (st : Z * Z) (word : string) : Z * Z :=
  let '(total_score, word_count) := st in
  let clean_word := sub_non_word word in
  if Text.nonempty clean_word then
    let word_count := (word_count + 1)%Z in
    match sentiment_tokens !! clean_word with
    | Some score => ((total_score + score)%Z, word_count)
    | None => (total_score, word_count)
    end
  else (total_score, word_count).

(** The loop over the emoji table. *)
Definition emoji_step (text : string) (st : Z * Z) (entry : string * Z) : Z * Z :=
  let '(total_score, word_count) := st in
  let '(emoji, score) := entry in
  if Text.contains emoji text then ((total_score + score)%Z, (word_count + 1)%Z)
  else (total_score, word_count).

(** [analyze_sentiment(text)]: the pair
    [(sentiment_score, normalized_sentiment_score)]. *)
Definition analyze_sentiment (text : string) : Z * Z :=
  if negb (Text.nonempty text) then (0, 0)%Z
  else
    let text_lower := str_lower text in
    let words := str_split text_lower in
    let st := fold_left word_step words (0, 0)%Z in
    let st := fold_left (emoji_step text) emoji_sentiment st in
    let total_score := st.1 in
    let word_count := st.2 in
    let sentiment_score :=
      if (word_count >? 0)%Z then inject_Z total_score / inject_Z word_count
      else 0 in
    let normalized_score := Py.max (-5) (Py.min 5 sentiment_score) in
    (Py.int sentiment_score, Py.int normalized_score).

End Analyzer.
End SentimentAnalyzer.

(** ** [src/utils/language_complexity.py] *)

Module LanguageComplexityAnalyzer.

Record t := { asl_weight : Q; ttr_weight : Q }.

(** [__init__(asl_weight, ttr_weight)]; [None] is the [ValueError]
    "Weights must sum to 1.0". *)
Definition init (asl_weight ttr_weight : Q) : option t :=
  if Py.ltb 0.01 (Py.abs (asl_weight + ttr_weight - 1)) then None
  else Some {| asl_weight := asl_weight; ttr_weight := ttr_weight |}.

(** The character class [[.!?]]. *)
Definition is_terminator (c : ascii) : bool :=
  bool_decide (c ∈ ["."; "!"; "?"]%char).

(** [calculate_average_sentence_length(text)] *)
Definition calculate_average_sentence_length (text : string) : nat :=
  if negb (Text.nonempty text) then 0%nat
  else
    let sentences := Text.re_split is_terminator text in
    let sentences :=
      map Text.strip (List.filter (fun s => Text.nonempty (Text.strip s)) sentences) in
    match sentences with
    | [] => 0%nat
    | _ =>
        let total_words :=
          fold_left (fun total_words sentence =>
                       (total_words + length (Text.split sentence))%nat)
                    sentences 0%nat in
        (total_words / length sentences)%nat
    end.

(** [calculate_type_token_ratio(text)] *)
Definition calculate_type_token_ratio (text : string) : Q :=
  if negb (Text.nonempty text) then 0
  else
    let words := Text.split (Text.lower text) in
    match words with
    | [] => 0
    | _ =>
        let unique_words := Text.distinct words in
        let ttr := Py.of_nat (length unique_words) / Py.of_nat (length words) in
        Py.min 1 ttr
    end.

(** [analyze_complexity(text)]: the triple
    [(average_sentence_length, type_token_ratio, complexity_score)]. *)
Definition analyze_complexity (self : t) (text : string) : nat * Q * Q :=
  if negb (Text.nonempty text) then (0%nat, 0, 0)
  else
    let asl := calculate_average_sentence_length text in
    let ttr := calculate_type_token_ratio text in
    let normalized_asl := Py.max 0 (Py.min 1 ((Py.of_nat asl - 5) / 20)) in
    let complexity := asl_weight self * normalized_asl + ttr_weight self * ttr in
    (asl, ttr, complexity).

End LanguageComplexityAnalyzer.

(** ** [src/core/prompt_manager.py] *)

Module PromptManager.

(** Values of the rule tables: strings and booleans. *)
Inductive RuleVal := RStr (s : string) | RBool (b : bool).

(** [str(v)], as an f-string renders a value. *)
Definition str (v : RuleVal) : string :=
  match v with
  | RStr s => s
  | RBool true => "True"
  | RBool false => "False"
  end.

(** [_load_prompt_templates()] *)
Definition prompt_templates : gmap string string :=
  dict_literal
  [ ("general", "You are a helpful AI assistant. {personalization_context}");
    ("technical", "You are a technical AI assistant with expertise in various domains. {personalization_context}");
    ("casual", "You are a friendly and conversational AI assistant. {personalization_context}");
    ("professional", "You are a professional AI assistant focused on providing accurate and helpful information. {personalization_context}");
    ("educational", "You are an educational AI assistant designed to help users learn and understand concepts. {personalization_context}") ].

(** [_load_personalization_rules()] *)
Definition personalization_rules : gmap string (gmap string (gmap string RuleVal)) :=
  dict_literal
  [ ("language_complexity", dict_literal
      [ ("simple", dict_literal
          [ ("vocabulary_level", RStr "basic");
            ("sentence_structure", RStr "short");
            ("technical_depth", RStr "minimal");
            ("explanation_style", RStr "step_by_step") ]);
        ("medium", dict_literal
          [ ("vocabulary_level", RStr "standard");
            ("sentence_structure", RStr "balanced");
            ("technical_depth", RStr "moderate");
            ("explanation_style", RStr "balanced") ]);
        ("complex", dict_literal
          [ ("vocabulary_level", RStr "advanced");
            ("sentence_structure", RStr "detailed");
            ("technical_depth", RStr "comprehensive");
            ("explanation_style", RStr "comprehensive") ]) ]);
    ("response_style", dict_literal
      [ ("conversational", dict_literal
          [ ("tone", RStr "friendly");
            ("formality", RStr "casual");
            ("interaction_style", RStr "engaging");
            ("use_emojis", RBool true) ]);
        ("balanced", dict_literal
          [ ("tone", RStr "neutral");
            ("formality", RStr "moderate");
            ("interaction_style", RStr "professional");
            ("use_emojis", RBool false) ]);
        ("professional", dict_literal
          [ ("tone", RStr "formal");
            ("formality", RStr "high");
            ("interaction_style", RStr "business_like");
            ("use_emojis", RBool false) ]);
        ("enthusiastic", dict_literal
          [ ("tone", RStr "excited");
            ("formality", RStr "casual");
            ("interaction_style", RStr "motivational");
            ("use_emojis", RBool true) ]) ]);
    ("detail_level", dict_literal
      [ ("concise", dict_literal
          [ ("response_length", RStr "short");
            ("include_examples", RBool false);
            ("include_context", RStr "minimal");
            ("focus", RStr "direct_answer") ]);
        ("medium", dict_literal
          [ ("response_length", RStr "moderate");
            ("include_examples", RStr "when_helpful");
            ("include_context", RStr "relevant");
            ("focus", RStr "balanced") ]);
        ("detailed", dict_literal
          [ ("response_length", RStr "comprehensive");
            ("include_examples", RBool true);
            ("include_context", RStr "thorough");
            ("focus", RStr "complete_explanation") ]) ]) ].

(** The personalization parameters: the keys the prompt manager reads; a
    key that is absent is [None]. *)
Record Params := {
  language_complexity : option string;
  response_style : option string;
  detail_level : option string;
  user_type : option string;
  engagement_level : option string;
  sentiment_preference : option string
}.

(** [rules[group].get(level, {})] followed by [.get(attr, dflt)], rendered
    by the f-string. *)
Definition rule (group level attr dflt : string) : string :=
  let rules := default ∅ (default ∅ (personalization_rules !! group) !! level) in
  str (default (RStr dflt) (rules !! attr)).

(** [_create_personalization_context(params)] *)
Definition _create_personalization_context (params : Params) : string :=
  let complexity := default "medium" (language_complexity params) in
  let context_parts :=
    [ "Use " ++ rule "language_complexity" complexity "vocabulary_level" "standard" ++ " vocabulary";
      "Provide " ++ rule "language_complexity" complexity "explanation_style" "balanced" ++ " explanations" ] in
  let style := default "balanced" (response_style params) in
  let context_parts := app context_parts
    [ "Maintain a " ++ rule "response_style" style "tone" "neutral" ++ " tone";
      "Use " ++ rule "response_style" style "formality" "moderate" ++ " language" ] in
  let detail := default "medium" (detail_level params) in
  let context_parts := app context_parts
    [ "Provide " ++ rule "detail_level" detail "response_length" "moderate" ++ " responses" ] in
  let user_type := default "general" (user_type params) in
  let context_parts := app context_parts
    (if String.eqb user_type "technical" then
       ["Include technical details and specifications when relevant"]
     else if String.eqb user_type "casual" then
       ["Keep responses friendly and approachable"]
     else if String.eqb user_type "professional" then
       ["Focus on accuracy and professional presentation"]
     else []) in
  let engagement_level := default "medium" (engagement_level params) in
  let context_parts := app context_parts
    (if String.eqb engagement_level "high" then
       ["Encourage continued interaction and ask follow-up questions"]
     else if String.eqb engagement_level "low" then
       ["Provide direct, concise answers to maintain user interest"]
     else []) in
  let sentiment_preference := default "neutral" (sentiment_preference params) in
  let context_parts := app context_parts
    (if String.eqb sentiment_preference "positive" then
       ["Maintain an encouraging and positive tone"]
     else if String.eqb sentiment_preference "negative" then
       ["Be empathetic and supportive in responses"]
     else []) in
  String.concat ". " context_parts ++ ".".

(** [self.prompt_templates[key]]; the five keys used are all present. *)
Definition template (key : string) : string :=
  default "" (prompt_templates !! key).

(** [_select_template(params)] *)
Definition _select_template (params : Params) : string :=
  let user_type := default "general" (user_type params) in
  if String.eqb user_type "technical" then template "technical"
  else if String.eqb user_type "casual" then template "casual"
  else if String.eqb user_type "professional" then template "professional"
  else if String.eqb user_type "educational" then template "educational"
  else template "general".

(** [template.format(personalization_context=value)] for a template whose
    only braces are replacement fields of that name: each field is replaced
    by [value]; [skip] counts the characters of a field still to drop. *)
Fixpoint format_go (field value : string) (skip : nat) (s : string) : string :=
  match s with
  | EmptyString => EmptyString
  | String c s' =>
      match skip with
      | S k => format_go field value k s'
      | O =>
          if String.prefix field s
          then value ++ format_go field value (String.length field - 1) s'
          else String c (format_go field value 0 s')
      end
  end.

Definition format (template personalization_context : string) : string :=
  format_go "{personalization_context}" personalization_context 0 template.

(** The line feed, written [\n] in the source. *)
Definition nl : string := String (ascii_of_nat 10) EmptyString.

(** [enrich_prompt(base_prompt, user_id, personalization_params)] *)
Definition enrich_prompt (base_prompt user_id : string) (personalization_params : Params)
  : string :=
  let personalization_context := _create_personalization_context personalization_params in
  let template := _select_template personalization_params in
  let system_prompt := format template personalization_context in
  system_prompt ++ nl ++ nl ++ "User: " ++ base_prompt ++ nl ++ nl ++ "Assistant:".

(** A turn of the conversation history: [turn['role']] and
    [turn['content']]. *)
Record Turn := { role : string; content : string }.

(** [create_conversation_context(user_id, personalization_params,
    conversation_history)] *)
Definition create_conversation_context (user_id : string)
    (personalization_params : Params) (conversation_history : list Turn) : string :=
  let personalization_context := _create_personalization_context personalization_params in
  let context_parts := ["Context: " ++ personalization_context] in
  let context_parts :=
    match conversation_history with
    | [] => context_parts
    | _ =>
        let recent_history :=
          drop (length conversation_history - 5) conversation_history in
        let history_text :=
          String.concat nl
            (map (fun turn => role turn ++ ": " ++ content turn) recent_history) in
        app context_parts ["Recent conversation:" ++ nl ++ history_text]
    end in
  String.concat (nl ++ nl) context_parts.

(** The dictionary returned by [generate_response_guidelines]. *)
Record Guidelines := {
  guidelines_language : gmap string RuleVal;
  guidelines_style : gmap string RuleVal;
  guidelines_detail : gmap string RuleVal;
  guidelines_user_type : string
}.

(** [self.personalization_rules[group].get(level, {})] *)
Definition rules_of (group level : string) : gmap string RuleVal :=
  default ∅ (default ∅ (personalization_rules !! group) !! level).

(** [generate_response_guidelines(personalization_params)] *)
Definition generate_response_guidelines (personalization_params : Params) : Guidelines :=
  let complexity := default "medium" (language_complexity personalization_params) in
  let style := default "balanced" (response_style personalization_params) in
  let detail := default "medium" (detail_level personalization_params) in
  {| guidelines_language := rules_of "language_complexity" complexity;
     guidelines_style := rules_of "response_style" style;
     guidelines_detail := rules_of "detail_level" detail;
     guidelines_user_type := default "general" (user_type personalization_params) |}.

(** The [domain_contexts] of [adapt_prompt_for_domain]. *)
Definition domain_contexts : gmap string string :=
  dict_literal
  [ ("finance", "You are a financial advisor AI assistant. Provide accurate financial information and advice while considering the user's financial literacy level.");
    ("healthcare", "You are a healthcare information AI assistant. Provide helpful health information while always recommending professional medical consultation for specific health concerns.");
    ("education", "You are an educational AI assistant. Help users learn and understand concepts through clear explanations and examples.");
    ("technology", "You are a technology expert AI assistant. Provide technical guidance and explanations suitable for the user's technical background.");
    ("general", "You are a helpful AI assistant.") ].

(** [adapt_prompt_for_domain(base_prompt, domain, personalization_params)] *)
Definition adapt_prompt_for_domain (base_prompt domain : string)
    (personalization_params : Params) : string :=
  let domain_context :=
    default (default "" (domain_contexts !! "general")) (domain_contexts !! domain) in
  let personalization_context := _create_personalization_context personalization_params in
  domain_context ++ " " ++ personalization_context
  ++ nl ++ nl ++ "User: " ++ base_prompt ++ nl ++ nl ++ "Assistant:".

(** [create_feedback_prompt(user_feedback, personalization_params)] *)
Definition create_feedback_prompt (user_feedback : string)
    (personalization_params : Params) : string :=
  let feedback_context := _create_personalization_context personalization_params in
  "You are an AI assistant that adapts to user feedback. " ++ feedback_context
  ++ nl ++ nl ++ "User feedback: " ++ user_feedback ++ nl ++ nl
  ++ "Please acknowledge the feedback and adjust your response style accordingly. Assistant:".

(** [create_error_recovery_prompt(error_context, personalization_params)] *)
Definition create_error_recovery_prompt (error_context : string)
    (personalization_params : Params) : string :=
  let recovery_context := _create_personalization_context personalization_params in
  "You are an AI assistant that handles errors gracefully. " ++ recovery_context
  ++ nl ++ nl ++ "Error context: " ++ error_context ++ nl ++ nl
  ++ "Please provide a helpful response that addresses the issue while maintaining the appropriate tone and style. Assistant:".

(** The dictionary returned by [get_prompt_analytics]; [timestamp] is the
    instant that the source renders with [isoformat()]. *)
Record Analytics := {
  original_length : nat;
  enriched_length : nat;
  enrichment_ratio : Q;
  additional_context_length : Z;
  timestamp : Z
}.

(** [get_prompt_analytics(original_prompt, enriched_prompt)] *)
Definition get_prompt_analytics (original_prompt enriched_prompt : string) (now : Z)
  : Analytics :=
  let original_length := String.length original_prompt in
  let enriched_length := String.length enriched_prompt in
  {| original_length := original_length;
     enriched_length := enriched_length;
     enrichment_ratio :=
       Py.of_nat enriched_length / Py.of_nat (Nat.max original_length 1);
     additional_context_length :=
       (Z.of_nat enriched_length - Z.of_nat original_length)%Z;
     timestamp := now |}.

End PromptManager.

(** ** The collaborators outside the repository *)

(** The part of the dictionary returned by
    [EnhancedLanguageAnalyzer.analyze_text] that the profiler reads; a key
    that is absent is [None]. *)
Record LanguageAnalysis := {
  complexity_level : option string;
  vocabulary_level : option string;
  sentiment_label : option string;
  enthusiasm_level : option string
}.

Class External := {
  (** [EnhancedLanguageAnalyzer.analyze_text], computed with textstat and
      nltk; it is taken to return. *)
  analyze_text : string -> LanguageAnalysis;
  (** [datetime.fromtimestamp(seconds).hour] in the local time zone;
      [None] when the conversion raises. *)
  local_hour : Q -> option Z;
  (** [numpy.std] *)
  np_std : list Q -> Q
}.

(** ** Results of the cross-session analysis *)

Module Patterns.

Record Timing := {
  avg_session_duration : Q;
  total_sessions : nat;
  session_frequency_per_day : Q;
  time_preferences : gmap string nat;
  duration_consistency : Q
}.

Record Engagement := {
  recent_engagement : Q;
  engagement_trend : string;
  engagement_level : string;
  session_completion_rate : Q
}.

(** [{'progression': ...}], with the three averages when there are at
    least two sessions: early, late and the improvement ratio. *)
Record Expertise := {
  progression : string;
  averages : option (Q * Q * Q)
}.

Record Communication := {
  preferred_complexity : string;
  preferred_detail : string;
  preferred_style : string;
  communication_consistency : Q;
  expertise_progression : Expertise;
  adaptability_score : Q
}.

Record Feedback := {
  total_feedback : nat;
  positive_ratio : Q;
  negative_ratio : Q;
  avg_feedback_delay : Q;
  feedback_consistency : Q;
  improvement_pattern : string;
  feedback_engagement : string
}.

(** The four pattern groups; a group that is the empty dictionary is
    [None]. *)
Record Groups := {
  timing : option Timing;
  engagement : option Engagement;
  communication : Communication;
  feedback : option Feedback
}.

(** The non-empty result of [analyze_user_patterns]. *)
Record Analysis := {
  patterns : Groups;
  insights : list string;
  recommendations : list string
}.

(** An entry of [pattern_cache]. *)
Record Cached := {
  groups : Groups;
  cached_insights : list string;
  last_updated : Z
}.

End Patterns.

(** ** [src/models/schemas.py] and the event dictionaries *)

Module Prompt.
(** The message event, as the HTTP layer builds it. *)
Record t := {
  session_id : string;
  user_id : string;
  input_text : string;
  input_start_time : Z;
  input_end_time : Z;
  input_sent_time : Z
}.
End Prompt.

Module Feedback.
(** The feedback event. *)
Record t := {
  session_id : string;
  user_id : string;
  response_text : string;
  response_start_time : Z;
  response_end_time : Z;
  response_duration : Z;
  feedback_type : string;
  feedback_time : Z;
  feedback_delay_duration : Z
}.
End Feedback.

Module Session.
(** The session event, read with [session_data.get(key)]: a key that is
    absent is [None]; [engagement_time] is
    [session_data["engagement"]["engagement_time"]], [None] when absent. *)
Record t := {
  session_id : option string;
  session_start : option Z;
  session_end : option Z;
  session_end_type : option string;
  session_duration : option Z;
  engagement_time : option Z
}.
End Session.

(** The values stored in history entries. *)
Inductive PyVal :=
| VNone
| VNum (q : Q)
| VStr (s : string)
| VDatetime (t : Z)
| VPrompt (d : Prompt.t)
| VFeedback (d : Feedback.t)
| VSession (d : Session.t).

(** A history entry: a dictionary with string keys. *)
Abbreviation Entry := (gmap string PyVal).

Definition of_Z (z : Z) : PyVal := VNum (inject_Z z).
Definition of_option {A} (f : A -> PyVal) (o : option A) : PyVal :=
  match o with Some a => f a | None => VNone end.

(** Truth value of a Python value. *)
Definition truthy (v : PyVal) : bool :=
  match v with
  | VNone => false
  | VNum q => negb (Py.eqb q 0)
  | VStr s => Text.nonempty s
  | _ => true
  end.

(** [d.get(key)] and [d.get(key, dflt)]. *)
Definition get (d : Entry) (key : string) : PyVal := default VNone (d !! key).
Definition get_or (d : Entry) (key : string) (dflt : PyVal) : PyVal :=
  default dflt (d !! key).

(** [v == s] for a string [s]. *)
Definition eq_str (v : PyVal) (s : string) : bool :=
  match v with VStr s' => String.eqb s' s | _ => false end.

(** The number held by a value; arithmetic on anything else raises
    ([None]). *)
Definition num (v : PyVal) : option Q :=
  match v with VNum q => Some q | _ => None end.

Record UserProfile := {
  user_id : string;
  created_at : Z;
  updated_at : Z;
  average_session_duration : Q;
  average_response_time : Q;
  average_typing_speed : Q;
  average_sentiment_score : Q;
  average_language_complexity : Q;
  average_grammatical_accuracy : Q;
  total_sessions : Z;
  average_engagement_time : Q;
  feedback_ratio : Q;
  positive_feedback_ratio : Q;
  preferred_language_complexity : string;
  preferred_response_style : string;
  preferred_detail_level : string;
  session_history : list Entry;
  feedback_history : list Entry;
  cross_session_insights : option Patterns.Analysis;
  rl_state : Entry
}.

(** Assignment to one attribute of a profile: [profile.f = v]. *)
Definition set_updated_at (v : Z) (p : UserProfile) : UserProfile :=
  {| user_id := user_id p; created_at := created_at p; updated_at := v;
     average_session_duration := average_session_duration p;
     average_response_time := average_response_time p;
     average_typing_speed := average_typing_speed p;
     average_sentiment_score := average_sentiment_score p;
     average_language_complexity := average_language_complexity p;
     average_grammatical_accuracy := average_grammatical_accuracy p;
     total_sessions := total_sessions p;
     average_engagement_time := average_engagement_time p;
     feedback_ratio := feedback_ratio p;
     positive_feedback_ratio := positive_feedback_ratio p;
     preferred_language_complexity := preferred_language_complexity p;
     preferred_response_style := preferred_response_style p;
     preferred_detail_level := preferred_detail_level p;
     session_history := session_history p; feedback_history := feedback_history p;
     cross_session_insights := cross_session_insights p; rl_state := rl_state p |}.

Definition set_average_session_duration (v : Q) (p : UserProfile) : UserProfile :=
  {| user_id := user_id p; created_at := created_at p; updated_at := updated_at p;
     average_session_duration := v; average_response_time := average_response_time p;
     average_typing_speed := average_typing_speed p;
     average_sentiment_score := average_sentiment_score p;
     average_language_complexity := average_language_complexity p;
     average_grammatical_accuracy := average_grammatical_accuracy p;
     total_sessions := total_sessions p;
     average_engagement_time := average_engagement_time p;
     feedback_ratio := feedback_ratio p;
     positive_feedback_ratio := positive_feedback_ratio p;
     preferred_language_complexity := preferred_language_complexity p;
     preferred_response_style := preferred_response_style p;
     preferred_detail_level := preferred_detail_level p;
     session_history := session_history p; feedback_history := feedback_history p;
     cross_session_insights := cross_session_insights p; rl_state := rl_state p |}.

Definition set_average_response_time (v : Q) (p : UserProfile) : UserProfile :=
  {| user_id := user_id p; created_at := created_at p; updated_at := updated_at p;
     average_session_duration := average_session_duration p;
     average_response_time := v; average_typing_speed := average_typing_speed p;
     average_sentiment_score := average_sentiment_score p;
     average_language_complexity := average_language_complexity p;
     average_grammatical_accuracy := average_grammatical_accuracy p;
     total_sessions := total_sessions p;
     average_engagement_time := average_engagement_time p;
     feedback_ratio := feedback_ratio p;
     positive_feedback_ratio := positive_feedback_ratio p;
     preferred_language_complexity := preferred_language_complexity p;
     preferred_response_style := preferred_response_style p;
     preferred_detail_level := preferred_detail_level p;
     session_history := session_history p; feedback_history := feedback_history p;
     cross_session_insights := cross_session_insights p; rl_state := rl_state p |}.

Definition set_average_typing_speed (v : Q) (p : UserProfile) : UserProfile :=
  {| user_id := user_id p; created_at := created_at p; updated_at := updated_at p;
     average_session_duration := average_session_duration p;
     average_response_time := average_response_time p; average_typing_speed := v;
     average_sentiment_score := average_sentiment_score p;
     average_language_complexity := average_language_complexity p;
     average_grammatical_accuracy := average_grammatical_accuracy p;
     total_sessions := total_sessions p;
     average_engagement_time := average_engagement_time p;
     feedback_ratio := feedback_ratio p;
     positive_feedback_ratio := positive_feedback_ratio p;
     preferred_language_complexity := preferred_language_complexity p;
     preferred_response_style := preferred_response_style p;
     preferred_detail_level := preferred_detail_level p;
     session_history := session_history p; feedback_history := feedback_history p;
     cross_session_insights := cross_session_insights p; rl_state := rl_state p |}.

Definition set_total_sessions (v : Z) (p : UserProfile) : UserProfile :=
  {| user_id := user_id p; created_at := created_at p; updated_at := updated_at p;
     average_session_duration := average_session_duration p;
     average_response_time := average_response_time p;
     average_typing_speed := average_typing_speed p;
     average_sentiment_score := average_sentiment_score p;
     average_language_complexity := average_language_complexity p;
     average_grammatical_accuracy := average_grammatical_accuracy p;
     total_sessions := v; average_engagement_time := average_engagement_time p;
     feedback_ratio := feedback_ratio p;
     positive_feedback_ratio := positive_feedback_ratio p;
     preferred_language_complexity := preferred_language_complexity p;
     preferred_response_style := preferred_response_style p;
     preferred_detail_level := preferred_detail_level p;
     session_history := session_history p; feedback_history := feedback_history p;
     cross_session_insights := cross_session_insights p; rl_state := rl_state p |}.

Definition set_average_engagement_time (v : Q) (p : UserProfile) : UserProfile :=
  {| user_id := user_id p; created_at := created_at p; updated_at := updated_at p;
     average_session_duration := average_session_duration p;
     average_response_time := average_response_time p;
     average_typing_speed := average_typing_speed p;
     average_sentiment_score := average_sentiment_score p;
     average_language_complexity := average_language_complexity p;
     average_grammatical_accuracy := average_grammatical_accuracy p;
     total_sessions := total_sessions p; average_engagement_time := v;
     feedback_ratio := feedback_ratio p;
     positive_feedback_ratio := positive_feedback_ratio p;
     preferred_language_complexity := preferred_language_complexity p;
     preferred_response_style := preferred_response_style p;
     preferred_detail_level := preferred_detail_level p;
     session_history := session_history p; feedback_history := feedback_history p;
     cross_session_insights := cross_session_insights p; rl_state := rl_state p |}.

Definition set_feedback_ratio (v : Q) (p : UserProfile) : UserProfile :=
  {| user_id := user_id p; created_at := created_at p; updated_at := updated_at p;
     average_session_duration := average_session_duration p;
     average_response_time := average_response_time p;
     average_typing_speed := average_typing_speed p;
     average_sentiment_score := average_sentiment_score p;
     average_language_complexity := average_language_complexity p;
     average_grammatical_accuracy := average_grammatical_accuracy p;
     total_sessions := total_sessions p;
     average_engagement_time := average_engagement_time p; feedback_ratio := v;
     positive_feedback_ratio := positive_feedback_ratio p;
     preferred_language_complexity := preferred_language_complexity p;
     preferred_response_style := preferred_response_style p;
     preferred_detail_level := preferred_detail_level p;
     session_history := session_history p; feedback_history := feedback_history p;
     cross_session_insights := cross_session_insights p; rl_state := rl_state p |}.

Definition set_positive_feedback_ratio (v : Q) (p : UserProfile) : UserProfile :=
  {| user_id := user_id p; created_at := created_at p; updated_at := updated_at p;
     average_session_duration := average_session_duration p;
     average_response_time := average_response_time p;
     average_typing_speed := average_typing_speed p;
     average_sentiment_score := average_sentiment_score p;
     average_language_complexity := average_language_complexity p;
     average_grammatical_accuracy := average_grammatical_accuracy p;
     total_sessions := total_sessions p;
     average_engagement_time := average_engagement_time p;
     feedback_ratio := feedback_ratio p; positive_feedback_ratio := v;
     preferred_language_complexity := preferred_language_complexity p;
     preferred_response_style := preferred_response_style p;
     preferred_detail_level := preferred_detail_level p;
     session_history := session_history p; feedback_history := feedback_history p;
     cross_session_insights := cross_session_insights p; rl_state := rl_state p |}.

Definition set_preferred_language_complexity (v : string) (p : UserProfile) : UserProfile :=
  {| user_id := user_id p; created_at := created_at p; updated_at := updated_at p;
     average_session_duration := average_session_duration p;
     average_response_time := average_response_time p;
     average_typing_speed := average_typing_speed p;
     average_sentiment_score := average_sentiment_score p;
     average_language_complexity := average_language_complexity p;
     average_grammatical_accuracy := average_grammatical_accuracy p;
     total_sessions := total_sessions p;
     average_engagement_time := average_engagement_time p;
     feedback_ratio := feedback_ratio p;
     positive_feedback_ratio := positive_feedback_ratio p;
     preferred_language_complexity := v;
     preferred_response_style := preferred_response_style p;
     preferred_detail_level := preferred_detail_level p;
     session_history := session_history p; feedback_history := feedback_history p;
     cross_session_insights := cross_session_insights p; rl_state := rl_state p |}.

Definition set_preferred_response_style (v : string) (p : UserProfile) : UserProfile :=
  {| user_id := user_id p; created_at := created_at p; updated_at := updated_at p;
     average_session_duration := average_session_duration p;
     average_response_time := average_response_time p;
     average_typing_speed := average_typing_speed p;
     average_sentiment_score := average_sentiment_score p;
     average_language_complexity := average_language_complexity p;
     average_grammatical_accuracy := average_grammatical_accuracy p;
     total_sessions := total_sessions p;
     average_engagement_time := average_engagement_time p;
     feedback_ratio := feedback_ratio p;
     positive_feedback_ratio := positive_feedback_ratio p;
     preferred_language_complexity := preferred_language_complexity p;
     preferred_response_style := v; preferred_detail_level := preferred_detail_level p;
     session_history := session_history p; feedback_history := feedback_history p;
     cross_session_insights := cross_session_insights p; rl_state := rl_state p |}.

Definition set_preferred_detail_level (v : string) (p : UserProfile) : UserProfile :=
  {| user_id := user_id p; created_at := created_at p; updated_at := updated_at p;
     average_session_duration := average_session_duration p;
     average_response_time := average_response_time p;
     average_typing_speed := average_typing_speed p;
     average_sentiment_score := average_sentiment_score p;
     average_language_complexity := average_language_complexity p;
     average_grammatical_accuracy := average_grammatical_accuracy p;
     total_sessions := total_sessions p;
     average_engagement_time := average_engagement_time p;
     feedback_ratio := feedback_ratio p;
     positive_feedback_ratio := positive_feedback_ratio p;
     preferred_language_complexity := preferred_language_complexity p;
     preferred_response_style := preferred_response_style p;
     preferred_detail_level := v; session_history := session_history p;
     feedback_history := feedback_history p;
     cross_session_insights := cross_session_insights p; rl_state := rl_state p |}.

Definition set_session_history (v : list Entry) (p : UserProfile) : UserProfile :=
  {| user_id := user_id p; created_at := created_at p; updated_at := updated_at p;
     average_session_duration := average_session_duration p;
     average_response_time := average_response_time p;
     average_typing_speed := average_typing_speed p;
     average_sentiment_score := average_sentiment_score p;
     average_language_complexity := average_language_complexity p;
     average_grammatical_accuracy := average_grammatical_accuracy p;
     total_sessions := total_sessions p;
     average_engagement_time := average_engagement_time p;
     feedback_ratio := feedback_ratio p;
     positive_feedback_ratio := positive_feedback_ratio p;
     preferred_language_complexity := preferred_language_complexity p;
     preferred_response_style := preferred_response_style p;
     preferred_detail_level := preferred_detail_level p; session_history := v;
     feedback_history := feedback_history p;
     cross_session_insights := cross_session_insights p; rl_state := rl_state p |}.

Definition set_feedback_history (v : list Entry) (p : UserProfile) : UserProfile :=
  {| user_id := user_id p; created_at := created_at p; updated_at := updated_at p;
     average_session_duration := average_session_duration p;
     average_response_time := average_response_time p;
     average_typing_speed := average_typing_speed p;
     average_sentiment_score := average_sentiment_score p;
     average_language_complexity := average_language_complexity p;
     average_grammatical_accuracy := average_grammatical_accuracy p;
     total_sessions := total_sessions p;
     average_engagement_time := average_engagement_time p;
     feedback_ratio := feedback_ratio p;
     positive_feedback_ratio := positive_feedback_ratio p;
     preferred_language_complexity := preferred_language_complexity p;
     preferred_response_style := preferred_response_style p;
     preferred_detail_level := preferred_detail_level p;
     session_history := session_history p; feedback_history := v;
     cross_session_insights := cross_session_insights p; rl_state := rl_state p |}.

Definition set_cross_session_insights (v : option Patterns.Analysis) (p : UserProfile) : UserProfile :=
  {| user_id := user_id p; created_at := created_at p; updated_at := updated_at p;
     average_session_duration := average_session_duration p;
     average_response_time := average_response_time p;
     average_typing_speed := average_typing_speed p;
     average_sentiment_score := average_sentiment_score p;
     average_language_complexity := average_language_complexity p;
     average_grammatical_accuracy := average_grammatical_accuracy p;
     total_sessions := total_sessions p;
     average_engagement_time := average_engagement_time p;
     feedback_ratio := feedback_ratio p;
     positive_feedback_ratio := positive_feedback_ratio p;
     preferred_language_complexity := preferred_language_complexity p;
     preferred_response_style := preferred_response_style p;
     preferred_detail_level := preferred_detail_level p;
     session_history := session_history p; feedback_history := feedback_history p;
     cross_session_insights := v; rl_state := rl_state p |}.

(** Values that can be dictionary keys or counted by [Counter]: everything
    but the event dictionaries. *)
Definition hashable (v : PyVal) : bool :=
  match v with
  | VPrompt _ | VFeedback _ | VSession _ => false
  | _ => true
  end.

(** [a < b]; comparing values of different kinds, or dictionaries, raises
    ([None]). *)
Definition lt (a b : PyVal) : option bool :=
  match a, b with
  | VNum x, VNum y => Some (Py.ltb x y)
  | VStr x, VStr y => Some (String.ltb x y)
  | VDatetime x, VDatetime y => Some (x <? y)%Z
  | _, _ => None
  end.

(** [l.sort(key=key, reverse=True)]: a stable sort in descending order of
    the keys; it raises when two keys cannot be compared. *)
Fixpoint insert_desc {A} (key : A -> PyVal) (x : A) (l : list A) : option (list A) :=
  match l with
  | [] => Some [x]
  | y :: l' =>
      match lt (key x) (key y) with
      | Some true => cons y <$> insert_desc key x l'
      | Some false => Some (x :: l)
      | None => None
      end
  end.

Fixpoint sort_desc {A} (key : A -> PyVal) (l : list A) : option (list A) :=
  match l with
  | [] => Some []
  | x :: l' => l'' ← sort_desc key l'; insert_desc key x l''
  end.

(** The numbers of a list of values, as [numpy.mean] reads them; it raises
    on a value that is not a number. *)
Definition nums (l : list PyVal) : option (list Q) := mapM num l.

(** [numpy.mean(l)] of a list that is not empty. *)
Definition np_mean (l : list PyVal) : option Q :=
  qs ← nums l; Some (default 0 (Py.mean qs)).

(** ** [src/core/cross_session_learner.py] *)

Module CrossSessionLearner.

Section Learner.
Context `{External}.

(** The time-of-day buckets of [_analyze_timing_patterns]. *)
Definition time_bucket (hour : Z) : string :=
  if ((6 <=? hour) && (hour <? 12))%Z then "morning"
  else if ((12 <=? hour) && (hour <? 17))%Z then "afternoon"
  else if ((17 <=? hour) && (hour <? 22))%Z then "evening"
  else "night".

(** One round of the loop over the sessions: [time_patterns[bucket] += 1],
    inside [try ... except: pass]. *)
Definition time_step (time_patterns : gmap string nat) (session : Entry)
  : gmap string nat :=
  if truthy (get session "start_time") then
    match num (get session "start_time") with
    | Some start_time =>
        match local_hour (start_time / 1000) with
        | Some hour =>
            let k := time_bucket hour in
            <[k := S (default 0%nat (time_patterns !! k))]> time_patterns
        | None => time_patterns
        end
    | None => time_patterns
    end
  else time_patterns.

(** [(now - created_at).days] *)
Definition days_between (now created_at : Z) : Z := ((now - created_at) / 86400000000)%Z.

(** [_analyze_timing_patterns(profile)] *)
Definition _analyze_timing_patterns (profile : UserProfile) (now : Z)
  : option (option Patterns.Timing) :=
  let sessions := session_history profile in
  match sessions with
  | [] => Some None
  | _ =>
      let durations :=
        List.filter truthy (map (fun s => get_or s "duration" (of_Z 0)) sessions) in
      avg_duration ← match durations with [] => Some 0 | _ => np_mean durations end;
      qs ← nums durations;
      let time_patterns := fold_left time_step sessions ∅ in
      let session_frequency :=
        Py.of_nat (length sessions)
        / inject_Z (Z.max 1 (days_between now (created_at profile))) in
      Some (Some {|
        Patterns.avg_session_duration := avg_duration;
        Patterns.total_sessions := length sessions;
        Patterns.session_frequency_per_day := session_frequency;
        Patterns.time_preferences := time_patterns;
        Patterns.duration_consistency :=
          if (1 <? length durations)%nat then np_std qs else 0 |})
  end.

(** [_classify_engagement_level(avg_duration)] *)
Definition _classify_engagement_level (avg_duration : Q) : string :=
  if Py.ltb 300000 avg_duration then "high"
  else if Py.ltb 120000 avg_duration then "medium"
  else "low".

(** [_calculate_completion_rate(sessions)] *)
Definition _calculate_completion_rate (sessions : list Entry) : Q :=
  match sessions with
  | [] => 0
  | _ =>
      let completed_sessions :=
        length (List.filter (fun s => eq_str (get s "session_end_type") "completed")
                            sessions) in
      Py.of_nat completed_sessions / Py.of_nat (length sessions)
  end.

Definition durations_of (sessions : list Entry) : list PyVal :=
  map (fun s => get_or s "duration" (of_Z 0)) sessions.

(** [_analyze_engagement_patterns(profile)] *)
Definition _analyze_engagement_patterns (profile : UserProfile)
  : option (option Patterns.Engagement) :=
  let sessions := session_history profile in
  match sessions with
  | [] => Some None
  | _ =>
      let recent_sessions := List.filter (fun s => truthy (get s "start_time")) sessions in
      recent_avg_duration ←
        match recent_sessions with
        | [] => Some 0
        | _ =>
            recent_sessions ←
              sort_desc (fun x => get_or x "start_time" (of_Z 0)) recent_sessions;
            np_mean (durations_of (take 5 recent_sessions))
        end;
      engagement_trend ←
        (if (1 <? length sessions)%nat then
           let early_sessions := take (length sessions / 2) sessions in
           let late_sessions := drop (length sessions / 2) sessions in
           early_avg_duration ← np_mean (durations_of early_sessions);
           late_avg_duration ← np_mean (durations_of late_sessions);
           Some (if Py.ltb early_avg_duration late_avg_duration
                 then "increasing" else "decreasing")
         else Some "stable");
      Some (Some {|
        Patterns.recent_engagement := recent_avg_duration;
        Patterns.engagement_trend := engagement_trend;
        Patterns.engagement_level := _classify_engagement_level recent_avg_duration;
        Patterns.session_completion_rate := _calculate_completion_rate sessions |})
  end.

(** [_analyze_expertise_progression(profile)] *)
Definition _analyze_expertise_progression (profile : UserProfile)
  : option Patterns.Expertise :=
  let sessions := session_history profile in
  if (length sessions <? 2)%nat then
    Some {| Patterns.progression := "insufficient_data"; Patterns.averages := None |}
  else
    let early_sessions := take (length sessions / 2) sessions in
    let late_sessions := drop (length sessions / 2) sessions in
    early_avg_duration ← np_mean (durations_of early_sessions);
    late_avg_duration ← np_mean (durations_of late_sessions);
    let progression :=
      if Py.ltb (early_avg_duration * 1.2) late_avg_duration then "improving"
      else if Py.ltb late_avg_duration (early_avg_duration * 0.8) then "declining"
      else "stable" in
    Some {| Patterns.progression := progression;
            Patterns.averages :=
              Some (early_avg_duration, late_avg_duration,
                    late_avg_duration / Py.max early_avg_duration 1) |}.

(** The number of entries whose ['type'] is ["positive"]. *)
Definition count_positive (l : list Entry) : nat :=
  length (List.filter (fun f => eq_str (get f "type") "positive") l).

(** [_calculate_adaptability_score(profile)] *)
Definition _calculate_adaptability_score (profile : UserProfile) : Q :=
  let adaptability_score := 0.5 in
  let adaptability_score :=
    match feedback_history profile with
    | [] => adaptability_score
    | _ =>
        let positive_feedback := count_positive (feedback_history profile) in
        let total_feedback := length (feedback_history profile) in
        if (0 <? total_feedback)%nat then
          adaptability_score
          + (Py.of_nat positive_feedback / Py.of_nat total_feedback) * 0.3
        else adaptability_score
    end in
  let adaptability_score :=
    if (1 <? length (session_history profile))%nat then
      adaptability_score
      + Py.min 0.2 (Py.of_nat (length (session_history profile)) * 0.02)
    else adaptability_score in
  Py.min 1 adaptability_score.

(** The consistency score of [_analyze_communication_patterns]. *)
Definition consistency_score (profile : UserProfile) : Q :=
  let complexity_prefs := preferred_language_complexity profile in
  let detail_prefs := preferred_detail_level profile in
  let style_prefs := preferred_response_style profile in
  let consistency_score := 0 in
  let consistency_score :=
    if String.eqb complexity_prefs "intermediate"
    then consistency_score + 0.3 else consistency_score in
  let consistency_score :=
    if String.eqb detail_prefs "balanced"
    then consistency_score + 0.3 else consistency_score in
  let consistency_score :=
    if String.eqb style_prefs "conversational"
    then consistency_score + 0.4 else consistency_score in
  consistency_score.

(** [_analyze_communication_patterns(profile)] *)
Definition _analyze_communication_patterns (profile : UserProfile)
  : option Patterns.Communication :=
  expertise_progression ← _analyze_expertise_progression profile;
  Some {|
    Patterns.preferred_complexity := preferred_language_complexity profile;
    Patterns.preferred_detail := preferred_detail_level profile;
    Patterns.preferred_style := preferred_response_style profile;
    Patterns.communication_consistency := consistency_score profile;
    Patterns.expertise_progression := expertise_progression;
    Patterns.adaptability_score := _calculate_adaptability_score profile |}.

(** [_analyze_feedback_improvement(feedback_history)] *)
Definition _analyze_feedback_improvement (feedback_history : list Entry) : string :=
  if (length feedback_history <? 3)%nat then "insufficient_data"
  else
    let recent_feedback := drop (length feedback_history - 3) feedback_history in
    let early_feedback := take 3 feedback_history in
    let recent_positive := count_positive recent_feedback in
    let early_positive := count_positive early_feedback in
    if (early_positive <? recent_positive)%nat then "improving"
    else if (recent_positive <? early_positive)%nat then "declining"
    else "stable".

(** The delays [f.get('feedback_delay_duration', 0)] that are not zero. *)
Definition feedback_delays (feedback_history : list Entry) : list PyVal :=
  List.filter truthy
    (map (fun f => get_or f "feedback_delay_duration" (of_Z 0)) feedback_history).

(** [_classify_feedback_engagement(feedback_history)]; the mean of no
    delays is NaN, below which nothing lies. *)
Definition _classify_feedback_engagement (feedback_history : list Entry)
  : option string :=
  match feedback_history with
  | [] => Some "none"
  | _ =>
      let total_feedback := length feedback_history in
      delays ← nums (feedback_delays feedback_history);
      let avg_delay := Py.mean delays in
      let quick :=
        match avg_delay with Some d => Py.ltb d 10000 | None => false end in
      Some (if (5 <? total_feedback)%nat && quick then "high"
            else if (2 <? total_feedback)%nat then "medium"
            else "low")
  end.

(** [_analyze_feedback_patterns(profile)] *)
Definition _analyze_feedback_patterns (profile : UserProfile)
  : option (option Patterns.Feedback) :=
  let feedback_history := feedback_history profile in
  match feedback_history with
  | [] => Some None
  | _ =>
      let feedback_types := map (fun f => get_or f "type" (VStr "neutral")) feedback_history in
      (* [Counter(feedback_types)] hashes every type *)
      if negb (forallb hashable feedback_types) then None
      else
        let count t := length (List.filter (fun v => eq_str v t) feedback_types) in
        avg_feedback_delay ←
          match feedback_delays feedback_history with
          | [] => Some 0
          | delays => np_mean delays
          end;
        let positive_ratio :=
          Py.of_nat (count "positive") / Py.of_nat (length feedback_history) in
        let negative_ratio :=
          Py.of_nat (count "negative") / Py.of_nat (length feedback_history) in
        let improvement_pattern := _analyze_feedback_improvement feedback_history in
        feedback_engagement ← _classify_feedback_engagement feedback_history;
        Some (Some {|
          Patterns.total_feedback := length feedback_history;
          Patterns.positive_ratio := positive_ratio;
          Patterns.negative_ratio := negative_ratio;
          Patterns.avg_feedback_delay := avg_feedback_delay;
          Patterns.feedback_consistency := 1 - Py.abs (positive_ratio - negative_ratio);
          Patterns.improvement_pattern := improvement_pattern;
          Patterns.feedback_engagement := feedback_engagement |})
  end.

(** [_generate_insights(timing, engagement, communication, feedback)] *)
Definition _generate_insights (timing : option Patterns.Timing)
    (engagement : option Patterns.Engagement)
    (communication : Patterns.Communication)
    (feedback : option Patterns.Feedback) : list string :=
  let frequency := default 0 (Patterns.session_frequency_per_day <$> timing) in
  let insights :=
    if Py.ltb 2 frequency then ["User is highly active with multiple daily sessions"]
    else if Py.ltb frequency 0.1 then ["User has infrequent usage patterns"]
    else [] in
  let trend := Patterns.engagement_trend <$> engagement in
  let insights := app insights
    (if bool_decide (trend = Some "increasing")
     then ["User engagement is improving over time"]
     else if bool_decide (trend = Some "decreasing")
     then ["User engagement has declined recently"]
     else []) in
  let insights := app insights
    (if Py.ltb 0.8 (Patterns.communication_consistency communication)
     then ["User has consistent communication preferences"]
     else ["User shows varied communication preferences"]) in
  let insights := app insights
    (if Py.ltb 0.7 (default 0 (Patterns.positive_ratio <$> feedback))
     then ["User is generally satisfied with responses"]
     else if Py.ltb 0.5 (default 0 (Patterns.negative_ratio <$> feedback))
     then ["User frequently provides negative feedback"]
     else []) in
  insights.

(** One round of the loop of [_generate_recommendations]. *)
Definition recommend (insight : string) : list string :=
  if Text.contains "highly active" insight then
    ["Consider providing more detailed responses to maintain engagement"]
  else if Text.contains "infrequent usage" insight then
    ["Focus on concise, impactful responses to encourage return visits"]
  else if Text.contains "engagement improving" insight then
    ["Continue current approach as it's working well"]
  else if Text.contains "engagement declined" insight then
    ["Review recent interactions and adjust response strategy"]
  else if Text.contains "consistent preferences" insight then
    ["Maintain current personalization approach"]
  else if Text.contains "varied preferences" insight then
    ["Adapt responses dynamically based on context"]
  else if Text.contains "generally satisfied" insight then
    ["Maintain current response quality and style"]
  else if Text.contains "negative feedback" insight then
    ["Review and improve response accuracy and relevance"]
  else [].

(** [_generate_recommendations(insights)] *)
Definition _generate_recommendations (insights : list string) : list string :=
  fold_left (fun recommendations insight => app recommendations (recommend insight))
            insights [].

(** [analyze_user_patterns(user_id, profiles)] on the learner's
    [pattern_cache]: the new cache and the result, [None] for the empty
    dictionary.  The outer [None] is an exception raised by the analysis,
    which leaves the cache as it was. *)
Definition analyze_user_patterns (pattern_cache : gmap string Patterns.Cached)
    (user_id : string) (profiles : gmap string UserProfile) (now : Z)
  : option (gmap string Patterns.Cached * option Patterns.Analysis) :=
  match profiles !! user_id with
  | None => Some (pattern_cache, None)
  | Some profile =>
      match session_history profile with
      | [] => Some (pattern_cache, None)
      | _ =>
          timing_patterns ← _analyze_timing_patterns profile now;
          engagement_patterns ← _analyze_engagement_patterns profile;
          communication_patterns ← _analyze_communication_patterns profile;
          feedback_patterns ← _analyze_feedback_patterns profile;
          let insights :=
            _generate_insights timing_patterns engagement_patterns
                               communication_patterns feedback_patterns in
          let groups :=
            {| Patterns.timing := timing_patterns;
               Patterns.engagement := engagement_patterns;
               Patterns.communication := communication_patterns;
               Patterns.feedback := feedback_patterns |} in
          let pattern_cache :=
            <[user_id := {| Patterns.groups := groups;
                            Patterns.cached_insights := insights;
                            Patterns.last_updated := now |}]> pattern_cache in
          Some (pattern_cache,
                Some {| Patterns.patterns := groups;
                        Patterns.insights := insights;
                        Patterns.recommendations := _generate_recommendations insights |})
      end
  end.

End Learner.
End CrossSessionLearner.

(** ** [src/core/user_profiler.py] *)

Module UserProfiler.

(** The state of a [UserProfiler]: its two dictionaries and the
    [pattern_cache] of its [cross_session_learner]. *)
Record t := {
  user_profiles : gmap string UserProfile;
  profile_update_history : gmap string (list Entry);
  pattern_cache : gmap string Patterns.Cached
}.

(** A profiler that loaded no profile from disk. *)
Definition init : t :=
  {| user_profiles := ∅; profile_update_history := ∅; pattern_cache := ∅ |}.

(** The profile built by [create_user_profile(user_id)]. *)
Definition new_profile (user_id : string) (now : Z) : UserProfile :=
  {| user_id := user_id;
     created_at := now;
     updated_at := now;
     preferred_language_complexity := "medium";
     preferred_detail_level := "medium";
     preferred_response_style := "conversational";
     average_session_duration := 0;
     average_response_time := 0;
     average_typing_speed := 0;
     average_sentiment_score := 0;
     average_language_complexity := 0;
     average_grammatical_accuracy := 1;
     total_sessions := 0;
     average_engagement_time := 0;
     feedback_ratio := 0;
     positive_feedback_ratio := 0;
     session_history := [];
     feedback_history := [];
     cross_session_insights := None;
     rl_state := ∅ |}.

(** [create_user_profile(user_id)] *)
Definition create_user_profile (self : t) (user_id : string) (now : Z)
  : t * UserProfile :=
  let profile := new_profile user_id now in
  ({| user_profiles := <[user_id := profile]> (user_profiles self);
      profile_update_history := <[user_id := []]> (profile_update_history self);
      pattern_cache := pattern_cache self |},
   profile).

(** [get_user_profile(user_id)] *)
Definition get_user_profile (self : t) (user_id : string) : option UserProfile :=
  user_profiles self !! user_id.

(** [profile = self.get_user_profile(user_id)], creating the profile when
    there is none: the common opening of the message and feedback paths. *)
Definition get_or_create (self : t) (user_id : string) (now : Z) : t * UserProfile :=
  match get_user_profile self user_id with
  | Some profile => (self, profile)
  | None => create_user_profile self user_id now
  end.

(** [self.user_profiles[user_id] = profile] *)
Definition store_profile (self : t) (user_id : string) (profile : UserProfile) : t :=
  {| user_profiles := <[user_id := profile]> (user_profiles self);
     profile_update_history := profile_update_history self;
     pattern_cache := pattern_cache self |}.

(** [_update_profile_from_language_analysis(profile, analysis)] *)
Definition _update_profile_from_language_analysis (profile : UserProfile)
    (analysis : LanguageAnalysis) : UserProfile :=
  let complexity_level := default "medium" (complexity_level analysis) in
  let profile :=
    if bool_decide (complexity_level ∈ ["very_easy"; "easy"]) then
      set_preferred_language_complexity "simple" profile
    else if bool_decide (complexity_level ∈ ["difficult"; "very_difficult"]) then
      set_preferred_language_complexity "complex" profile
    else set_preferred_language_complexity "medium" profile in
  let vocab_level := default "medium" (vocabulary_level analysis) in
  let profile :=
    if String.eqb vocab_level "advanced" then set_preferred_detail_level "detailed" profile
    else if String.eqb vocab_level "limited" then set_preferred_detail_level "concise" profile
    else profile in
  let sentiment_label := default "neutral" (sentiment_label analysis) in
  let enthusiasm_level := default "low" (enthusiasm_level analysis) in
  if String.eqb sentiment_label "positive" && String.eqb enthusiasm_level "high" then
    set_preferred_response_style "enthusiastic" profile
  else if String.eqb sentiment_label "negative" then
    set_preferred_response_style "professional" profile
  else set_preferred_response_style "conversational" profile.

(** [len(s)] as a number. *)
Definition len (s : string) : Z := Z.of_nat (String.length s).

(** [_update_profile_metrics(profile, prompt_data)] *)
Definition _update_profile_metrics (profile : UserProfile) (prompt_data : Prompt.t)
  : UserProfile :=
  let typing_duration :=
    (Prompt.input_end_time prompt_data - Prompt.input_start_time prompt_data)%Z in
  let profile :=
    if (typing_duration >? 0)%Z then
      let current_avg := average_typing_speed profile in
      let message_length := len (Prompt.input_text prompt_data) in
      if (message_length >? 0)%Z then
        let typing_speed := inject_Z message_length / (inject_Z typing_duration / 1000) in
        set_average_typing_speed ((current_avg + typing_speed) / 2) profile
      else profile
    else profile in
  let message_length := len (Prompt.input_text prompt_data) in
  let profile :=
    if (message_length >? 100)%Z then set_preferred_detail_level "detailed" profile
    else if (message_length <? 20)%Z then set_preferred_detail_level "concise" profile
    else profile in
  let input_sent_time := Prompt.input_sent_time prompt_data in
  if (input_sent_time >? 0)%Z then
    if Py.ltb 0 (average_response_time profile) then
      set_average_response_time
        ((average_response_time profile + inject_Z input_sent_time) / 2) profile
    else set_average_response_time (inject_Z input_sent_time) profile
  else profile.

(** The entry appended by [update_profile_from_feedback] itself. *)
Definition feedback_record (type : string) (feedback_data : Feedback.t) (now : Z) : Entry :=
  dict_literal
  [ ("type", VStr type);
    ("timestamp", VDatetime now);
    ("response_text", VStr (Feedback.response_text feedback_data));
    ("response_duration", of_Z (Feedback.response_duration feedback_data));
    ("feedback_delay_duration", of_Z (Feedback.feedback_delay_duration feedback_data)) ].

(** The [feedback_entry] of [_update_personalization_from_feedback]. *)
Definition feedback_entry (feedback_data : Feedback.t) (now : Z) : Entry :=
  dict_literal
  [ ("type", VStr (Feedback.feedback_type feedback_data));
    ("timestamp", VDatetime now);
    ("response_text", VStr (Feedback.response_text feedback_data));
    ("response_duration", of_Z (Feedback.response_duration feedback_data));
    ("feedback_delay_duration", of_Z (Feedback.feedback_delay_duration feedback_data));
    ("data", VFeedback feedback_data) ].

(** [profile.feedback_history.append(entry)] *)
Definition append_feedback (entry : Entry) (profile : UserProfile) : UserProfile :=
  set_feedback_history (app (feedback_history profile) [entry]) profile.

(** [_update_personalization_from_feedback(profile, feedback_data)] *)
Definition _update_personalization_from_feedback (profile : UserProfile)
    (feedback_data : Feedback.t) (now : Z) : UserProfile :=
  let feedback_type := Feedback.feedback_type feedback_data in
  let profile := append_feedback (feedback_entry feedback_data now) profile in
  let profile :=
    if String.eqb feedback_type "positive" then
      let current_detail := preferred_detail_level profile in
      let profile :=
        if String.eqb current_detail "concise" then set_preferred_detail_level "medium" profile
        else if String.eqb current_detail "medium" then set_preferred_detail_level "detailed" profile
        else profile in
      set_positive_feedback_ratio (Py.min 1 (positive_feedback_ratio profile + 0.1)) profile
    else if String.eqb feedback_type "negative" then
      let current_detail := preferred_detail_level profile in
      let profile :=
        if String.eqb current_detail "detailed" then set_preferred_detail_level "medium" profile
        else if String.eqb current_detail "medium" then set_preferred_detail_level "concise" profile
        else profile in
      set_positive_feedback_ratio (Py.max 0 (positive_feedback_ratio profile - 0.1)) profile
    else profile in
  let profile := set_feedback_ratio (Py.min 1 (feedback_ratio profile + 0.1)) profile in
  set_updated_at now profile.

(** [_record_profile_update(user_id, update_type, data)] *)
Definition _record_profile_update (self : t) (user_id update_type : string) (data : PyVal)
    (now : Z) : t :=
  let history := default [] (profile_update_history self !! user_id) in
  let record :=
    dict_literal
    [ ("timestamp", VDatetime now); ("type", VStr update_type); ("data", data) ] in
  {| user_profiles := user_profiles self;
     profile_update_history :=
       <[user_id := app history [record]]> (profile_update_history self);
     pattern_cache := pattern_cache self |}.

Section Profiler.
Context `{External}.

(** [_update_cross_session_learning(user_id)]: an exception of the analysis
    is caught and changes nothing. *)
Definition _update_cross_session_learning (self : t) (user_id : string) (now : Z) : t :=
  match CrossSessionLearner.analyze_user_patterns
          (pattern_cache self) user_id (user_profiles self) now with
  | None => self
  | Some (pattern_cache, patterns) =>
      let user_profiles :=
        match patterns, user_profiles self !! user_id with
        | Some _, Some profile =>
            <[user_id := set_cross_session_insights patterns profile]> (user_profiles self)
        | _, _ => user_profiles self
        end in
      {| user_profiles := user_profiles;
         profile_update_history := profile_update_history self;
         pattern_cache := pattern_cache |}
  end.

(** [update_profile_from_prompt(prompt_data)] *)
Definition update_profile_from_prompt (self : t) (prompt_data : Prompt.t) (now : Z) : t :=
  let user_id := Prompt.user_id prompt_data in
  let '(self, profile) := get_or_create self user_id now in
  let input_text := Prompt.input_text prompt_data in
  let profile :=
    if Text.nonempty input_text then
      let language_analysis := analyze_text input_text in
      _update_profile_from_language_analysis profile language_analysis
    else profile in
  let profile := _update_profile_metrics profile prompt_data in
  let profile := set_updated_at now profile in
  let self := store_profile self user_id profile in
  let self := _record_profile_update self user_id "prompt_update" (VPrompt prompt_data) now in
  _update_cross_session_learning self user_id now.

(** [update_profile_from_feedback(feedback_data)] *)
Definition update_profile_from_feedback (self : t) (feedback_data : Feedback.t) (now : Z)
  : t :=
  let user_id := Feedback.user_id feedback_data in
  let '(self, profile) := get_or_create self user_id now in
  let feedback_type := Feedback.feedback_type feedback_data in
  let profile :=
    if String.eqb feedback_type "positive" then
      append_feedback (feedback_record "positive" feedback_data now) profile
    else if String.eqb feedback_type "negative" then
      append_feedback (feedback_record "negative" feedback_data now) profile
    else profile in
  let profile := _update_personalization_from_feedback profile feedback_data now in
  let profile := set_updated_at now profile in
  let self := store_profile self user_id profile in
  let self :=
    _record_profile_update self user_id "feedback_update" (VFeedback feedback_data) now in
  _update_cross_session_learning self user_id now.

(** The [session_entry] of [update_profile_from_session]. *)
Definition session_entry (session_data : Session.t) : Entry :=
  dict_literal
  [ ("session_id", of_option VStr (Session.session_id session_data));
    ("start_time", of_option of_Z (Session.session_start session_data));
    ("end_time", of_option of_Z (Session.session_end session_data));
    ("duration", of_option of_Z (Session.session_duration session_data));
    ("end_type", of_option VStr (Session.session_end_type session_data));
    ("data", VSession session_data) ].

(** The changes [update_profile_from_session] makes to the profile. *)
Definition apply_session (profile : UserProfile) (session_data : Session.t) (now : Z)
  : UserProfile :=
  let profile :=
    set_session_history (app (session_history profile) [session_entry session_data]) profile in
  let profile := set_total_sessions (total_sessions profile + 1)%Z profile in
  let profile :=
    if truthy (of_option of_Z (Session.session_duration session_data)) then
      let current_avg := average_session_duration profile in
      let new_duration := inject_Z (default 0%Z (Session.session_duration session_data)) in
      if Py.ltb 0 current_avg then
        set_average_session_duration ((current_avg + new_duration) / 2) profile
      else set_average_session_duration new_duration profile
    else profile in
  let profile :=
    if truthy (of_option of_Z (Session.engagement_time session_data)) then
      let engagement_time := inject_Z (default 0%Z (Session.engagement_time session_data)) in
      let current_avg := average_engagement_time profile in
      if Py.ltb 0 current_avg then
        set_average_engagement_time ((current_avg + engagement_time) / 2) profile
      else set_average_engagement_time engagement_time profile
    else profile in
  set_updated_at now profile.

(** [update_profile_from_session(user_id, session_data)]: the new state and
    the returned value. *)
Definition update_profile_from_session (self : t) (user_id : string)
    (session_data : Session.t) (now : Z) : t * option UserProfile :=
  match get_user_profile self user_id with
  | None => (self, None)
  | Some profile =>
      let profile := apply_session profile session_data now in
      let self := store_profile self user_id profile in
      let self := _update_cross_session_learning self user_id now in
      (self, get_user_profile self user_id)
  end.

(** [get_user_insights(user_id)] *)
Definition get_user_insights (self : t) (user_id : string) : option Patterns.Cached :=
  pattern_cache self !! user_id.

End Profiler.

(** [delete_user_profile(user_id)] *)
Definition delete_user_profile (self : t) (user_id : string) : t * bool :=
  match user_profiles self !! user_id with
  | Some _ =>
      ({| user_profiles := delete user_id (user_profiles self);
          profile_update_history := delete user_id (profile_update_history self);
          (* [clear_cache(user_id)] empties the whole cache when [user_id]
             is the empty string *)
          pattern_cache :=
            if Text.nonempty user_id then delete user_id (pattern_cache self) else ∅ |},
       true)
  | None => (self, false)
  end.

End UserProfiler.

(** ** Collaborators for the concrete evaluations *)

(** [EnhancedLanguageAnalyzer._empty_analysis()] *)
Definition _empty_analysis : LanguageAnalysis :=
  {| complexity_level := Some "medium";
     vocabulary_level := Some "medium";
     sentiment_label := Some "neutral";
     enthusiasm_level := None |}.

(** A choice of collaborators on which the model can be run: an analyzer
    that answers every text with the neutral analysis, a host on UTC, and a
    standard deviation that is exact on lists of equal numbers (the
    evaluations below reach it with no other list). *)
Definition utc_host : External :=
  {| analyze_text := fun _ => _empty_analysis;
     local_hour := fun seconds => Some ((Py.int seconds / 3600) mod 24)%Z;
     np_std := fun _ => 0 |}.

(** The three operations on text of ASCII characters, on which they do not
    depend on the Unicode tables. *)
Definition ascii_text : Unicode :=
  {| str_lower := Text.lower;
     str_split := Text.split;
     sub_non_word := Text.keep Text.isword |}.

(** * The vocabulary of the statements *)

Import UserProfiler PromptManager.

(** ** Message events *)

(** The speed of a message: characters per elapsed second. *)
Definition typing_speed_of (prompt_data : Prompt.t) : Q :=
  inject_Z (len (Prompt.input_text prompt_data))
  / (inject_Z (Prompt.input_end_time prompt_data - Prompt.input_start_time prompt_data)
     / 1000).


(** A message event of user "u". *)
Definition message (text : string) (start_time end_time sent_time : Z) : Prompt.t :=
  {| Prompt.session_id := "s"; Prompt.user_id := "u"; Prompt.input_text := text;
     Prompt.input_start_time := start_time; Prompt.input_end_time := end_time;
     Prompt.input_sent_time := sent_time |}.

(** The profile an event finds: the stored one, or a new one. *)
Definition found_profile (self : t) (user_id : string) (now : Z) : UserProfile :=
  default (new_profile user_id now) (user_profiles self !! user_id).

(** What a feedback event does to the profile it finds, before the
    cross-session learning. *)
Definition apply_feedback (profile : UserProfile) (feedback_data : Feedback.t) (now : Z)
  : UserProfile :=
  let feedback_type := Feedback.feedback_type feedback_data in
  let profile :=
    if String.eqb feedback_type "positive" then
      append_feedback (feedback_record "positive" feedback_data now) profile
    else if String.eqb feedback_type "negative" then
      append_feedback (feedback_record "negative" feedback_data now) profile
    else profile in
  set_updated_at now (_update_personalization_from_feedback profile feedback_data now).

(** What a message event does to the profile it finds. *)
Definition apply_prompt `{External} (profile : UserProfile) (prompt_data : Prompt.t)
    (now : Z) : UserProfile :=
  let input_text := Prompt.input_text prompt_data in
  let profile :=
    if Text.nonempty input_text then
      _update_profile_from_language_analysis profile (analyze_text input_text)
    else profile in
  set_updated_at now (_update_profile_metrics profile prompt_data).

(** ** Feedback events *)

(** The interval [0, 1]. *)
Definition in_unit (q : Q) : Prop := 0 <= q /\ q <= 1.

(** Both ratios of a profile lie in [0, 1]. *)
Definition ratios_in_unit (p : UserProfile) : Prop :=
  in_unit (feedback_ratio p) /\ in_unit (positive_feedback_ratio p).

(** Every profile of the registry has both ratios in [0, 1]. *)
Definition ratios_ok (self : t) : Prop :=
  forall user_id p, user_profiles self !! user_id = Some p -> ratios_in_unit p.

(** The ratios after one feedback event, in terms of the ratios before. *)
Definition next_feedback_ratio (q : Q) : Q := Py.min 1 (q + 0.1).

Definition next_positive_ratio (feedback_type : string) (q : Q) : Q :=
  if String.eqb feedback_type "positive" then Py.min 1 (q + 0.1)
  else if String.eqb feedback_type "negative" then Py.max 0 (q - 0.1)
  else q.

(** Processing a sequence of feedback events, each with its instant. *)
Definition process_feedback `{External} (self : t) (events : list (Feedback.t * Z)) : t :=
  fold_left (fun self ev => update_profile_from_feedback self ev.1 ev.2) events self.

(** A positive and a negative feedback event. *)
Definition positive_feedback (user_id : string) : Feedback.t :=
  {| Feedback.session_id := "s"; Feedback.user_id := user_id;
     Feedback.response_text := "ok"; Feedback.response_start_time := 0;
     Feedback.response_end_time := 0; Feedback.response_duration := 2000;
     Feedback.feedback_type := "positive"; Feedback.feedback_time := 0;
     Feedback.feedback_delay_duration := 4000 |}.

Definition negative_feedback (user_id : string) : Feedback.t :=
  {| Feedback.session_id := "s"; Feedback.user_id := user_id;
     Feedback.response_text := "ok"; Feedback.response_start_time := 0;
     Feedback.response_end_time := 0; Feedback.response_duration := 2000;
     Feedback.feedback_type := "negative"; Feedback.feedback_time := 0;
     Feedback.feedback_delay_duration := 4000 |}.

(** One step along concise - medium - detailed, saturating at the ends;
    any other value stays as it is. *)
Definition detail_up (d : string) : string :=
  if String.eqb d "concise" then "medium"
  else if String.eqb d "medium" then "detailed"
  else d.

Definition detail_down (d : string) : string :=
  if String.eqb d "detailed" then "medium"
  else if String.eqb d "medium" then "concise"
  else d.

(** ** Session-end events and sequences of events *)

(** A session-end event with the given end type and duration. *)
Definition session_of (end_type : option string) (duration : Z) : Session.t :=
  {| Session.session_id := Some "s"; Session.session_start := Some 1737365162000%Z;
     Session.session_end := Some (1737365162000 + duration)%Z;
     Session.session_end_type := end_type; Session.session_duration := Some duration;
     Session.engagement_time := None |}.

(** The events the profiler processes. *)
Inductive Event :=
| MessageEvent (prompt_data : Prompt.t)
| FeedbackEvent (feedback_data : Feedback.t)
| SessionEndEvent (user_id : string) (session_data : Session.t).

(** Processing one event at its instant, and a sequence of events. *)
Definition process_event `{External} (self : t) (ev : Event * Z) : t :=
  match ev.1 with
  | MessageEvent prompt_data => update_profile_from_prompt self prompt_data ev.2
  | FeedbackEvent feedback_data => update_profile_from_feedback self feedback_data ev.2
  | SessionEndEvent user_id session_data =>
      (update_profile_from_session self user_id session_data ev.2).1
  end.

Definition process_events `{External} (self : t) (events : list (Event * Z)) : t :=
  fold_left process_event events self.

(** The event is a session-end event. *)
Definition is_session_end (ev : Event * Z) : Prop :=
  match ev.1 with SessionEndEvent _ _ => True | _ => False end.

(** No profile has ended a session, none has insights, and the learner's
    cache is empty. *)
Definition no_sessions (self : t) : Prop :=
  (forall user_id p, user_profiles self !! user_id = Some p ->
                     session_history p = [] /\ cross_session_insights p = None) /\
  pattern_cache self = ∅.

(** The values the profiler gives to the two preferences. *)
Definition complexity_values : list string := ["simple"; "medium"; "complex"].
Definition detail_values : list string := ["concise"; "medium"; "detailed"].

(** ** Prompts *)

(** The text of the selected template before its replacement field. *)
Definition preamble (params : Params) : string :=
  let user_type := default "general" (user_type params) in
  if String.eqb user_type "technical" then
    "You are a technical AI assistant with expertise in various domains. "
  else if String.eqb user_type "casual" then
    "You are a friendly and conversational AI assistant. "
  else if String.eqb user_type "professional" then
    "You are a professional AI assistant focused on providing accurate and helpful information. "
  else if String.eqb user_type "educational" then
    "You are an educational AI assistant designed to help users learn and understand concepts. "
  else "You are a helpful AI assistant. ".

(** The suffix that carries the user's message. *)
Definition message_suffix (base_prompt : string) : string :=
  nl ++ nl ++ "User: " ++ base_prompt ++ nl ++ nl ++ "Assistant:".

(** ** Sentiment *)

Import LanguageComplexityAnalyzer SentimentAnalyzer.

(** The sum of a list of integers. *)
Definition zsum (l : list Z) : Z := fold_right Z.add 0%Z l.

(** The tokens of a text that the scorer counts: the whitespace-separated
    words of the lowercased text, stripped of the characters outside [\w],
    that are not empty; the empty text has none. *)
Definition counted_tokens `{Unicode} (text : string) : list string :=
  if Text.nonempty text then
    List.filter Text.nonempty (map sub_non_word (str_split (str_lower text)))
  else [].

(** The entries of the emoji table found in the text. *)
Definition emoji_hits (text : string) : list (string * Z) :=
  List.filter (fun entry => Text.contains entry.1 text) emoji_sentiment.

(** The score of a token: its lexicon score, or nothing. *)
Definition token_score (w : string) : Z := default 0%Z (sentiment_tokens !! w).

(** The summed scores of the counted tokens and of the emoji found. *)
Definition total_score `{Unicode} (text : string) : Z :=
  (zsum (map token_score (counted_tokens text)) + zsum (map snd (emoji_hits text)))%Z.

(** The tokens that matched a lexicon entry. *)
Definition matched_tokens `{Unicode} (text : string) : list string :=
  List.filter (fun w => bool_decide (is_Some (sentiment_tokens !! w))) (counted_tokens text).

(** The average in the words of the specification: the summed scores over
    the number of tokens that matched a lexicon entry (and of emoji found). *)
Definition matched_only_average `{Unicode} (text : string) : Q :=
  inject_Z (total_score text)
  / inject_Z (Z.of_nat (length (matched_tokens text) + length (emoji_hits text))).

(** The average the scorer computes: the summed scores over the number of
    counted tokens, matched or not (and of emoji found). *)
Definition counted_average `{Unicode} (text : string) : Q :=
  let word_count := Z.of_nat (length (counted_tokens text) + length (emoji_hits text)) in
  if (word_count >? 0)%Z then inject_Z (total_score text) / inject_Z word_count else 0.

(** ** Prompts: parameter values outside the rule tables *)

(** The value of a parameter as the rule tables see it: a value that is
    absent or not among the levels of its table counts as the default. *)
Definition or_default (levels : list string) (dflt : string) (o : option string)
  : string :=
  match o with
  | Some v => if bool_decide (v ∈ levels) then v else dflt
  | None => dflt
  end.

Definition complexity_levels : list string := ["simple"; "medium"; "complex"].
Definition style_levels : list string :=
  ["conversational"; "balanced"; "professional"; "enthusiastic"].
Definition detail_levels : list string := ["concise"; "medium"; "detailed"].

(** The parameters with the three levels replaced as [or_default] says. *)
Definition normalise (params : Params) : Params :=
  {| language_complexity :=
       Some (or_default complexity_levels "medium" (language_complexity params));
     response_style :=
       Some (or_default style_levels "balanced" (response_style params));
     detail_level :=
       Some (or_default detail_levels "medium" (detail_level params));
     user_type := user_type params;
     engagement_level := engagement_level params;
     sentiment_preference := sentiment_preference params |}.

(** The parameters with no key at all. *)
Definition no_params : Params :=
  {| language_complexity := None; response_style := None; detail_level := None;
     user_type := None; engagement_level := None; sentiment_preference := None |}.

(** The domains and the user types that have a text of their own. *)
Definition special_domains : list string :=
  ["finance"; "healthcare"; "education"; "technology"].
Definition special_user_types : list string :=
  ["technical"; "casual"; "professional"; "educational"].

(** The levels of a group of the rule tables are among [names]. *)
Definition levels_among (group : string) (names : list string) : bool :=
  forallb (fun k => bool_decide (k ∈ names))
          (map fst (map_to_list (default ∅ (personalization_rules !! group)))).

(** ** Scores of the sentiment tables *)

(** A score of the scale from -5 to 5. *)
Definition on_scale (z : Z) : bool := ((-5 <=? z) && (z <=? 5))%Z.

(** ** Words of a text *)


(** ** The registry under sequences of events *)

(** The user an event is about. *)
Definition event_user (ev : Event) : string :=
  match ev with
  | MessageEvent prompt_data => Prompt.user_id prompt_data
  | FeedbackEvent feedback_data => Feedback.user_id feedback_data
  | SessionEndEvent user_id _ => user_id
  end.

(** The registry, the audit trail and the cache of two profilers agree at
    the user [k]. *)
Definition same_at (k : string) (a b : UserProfiler.t) : Prop :=
  user_profiles a !! k = user_profiles b !! k /\
  profile_update_history a !! k = profile_update_history b !! k /\
  pattern_cache a !! k = pattern_cache b !! k.

(** The values the profiler gives to the response style. *)
Definition style_values : list string := ["conversational"; "professional"; "enthusiastic"].

(** An entry as [update_profile_from_session] records it, and an entry as
    the feedback path records it. *)
Definition recorded_session (e : Entry) : Prop :=
  exists session_data, e = session_entry session_data.

Definition recorded_feedback (e : Entry) : Prop :=
  exists type feedback_data now,
    e = feedback_record type feedback_data now \/ e = feedback_entry feedback_data now.

(** What holds of the profile stored under [key] in a profiler that started
    empty. *)
Record profile_ok (key : string) (p : UserProfile) : Prop := {
  ok_user_id : user_id p = key;
  ok_total_sessions : total_sessions p = Z.of_nat (length (session_history p));
  ok_complexity : preferred_language_complexity p ∈ complexity_values;
  ok_detail : preferred_detail_level p ∈ detail_values;
  ok_style : preferred_response_style p ∈ style_values;
  ok_typing_speed : 0 <= average_typing_speed p;
  ok_sessions : Forall recorded_session (session_history p);
  ok_feedback : Forall recorded_feedback (feedback_history p)
}.

Definition registry_ok (self : UserProfiler.t) : Prop :=
  forall key p, user_profiles self !! key = Some p -> profile_ok key p.

(** The record of the audit trail for an event. *)
Definition audit_record (update_type : string) (data : PyVal) (now : Z) : Entry :=
  dict_literal [ ("timestamp", VDatetime now); ("type", VStr update_type); ("data", data) ].

(** The audit trail of a user: [profile_update_history.get(user_id, [])]. *)
Definition audit_trail (self : UserProfiler.t) (user_id : string) : list Entry :=
  default [] (profile_update_history self !! user_id).

(** ** Histories as the profiler records them *)

(** A value that is a number. *)
Definition is_number (v : PyVal) : Prop := exists q, v = VNum q.

(** An entry as [update_profile_from_session] records it from an event that
    carries a [session_duration]. *)
Definition timed_session (e : Entry) : Prop :=
  exists session_data,
    e = session_entry session_data /\ is_Some (Session.session_duration session_data).

(** The event, if it ends a session, carries a [session_duration]. *)
Definition timed_event (ev : Event * Z) : Prop :=
  match ev.1 with
  | SessionEndEvent _ session_data => is_Some (Session.session_duration session_data)
  | _ => True
  end.

(** The cache entry [c] holds the pattern groups and the insights of the
    analysis [a]. *)
Definition cached_as (a : Patterns.Analysis) (c : Patterns.Cached) : Prop :=
  Patterns.groups c = Patterns.patterns a /\
  Patterns.cached_insights c = Patterns.insights a.

(** [a] is the analysis of the profile [p]: its engagement, communication
    and feedback groups are what the three analyses return on [p], its
    timing group what the timing analysis returns on [p] at some instant,
    and its insights and recommendations are generated from these groups. *)
Definition analysis_of `{External} (p : UserProfile) (a : Patterns.Analysis) : Prop :=
  let g := Patterns.patterns a in
  (exists now, CrossSessionLearner._analyze_timing_patterns p now
               = Some (Patterns.timing g)) /\
  CrossSessionLearner._analyze_engagement_patterns p = Some (Patterns.engagement g) /\
  CrossSessionLearner._analyze_communication_patterns p
  = Some (Patterns.communication g) /\
  CrossSessionLearner._analyze_feedback_patterns p = Some (Patterns.feedback g) /\
  Patterns.insights a
  = CrossSessionLearner._generate_insights
      (Patterns.timing g) (Patterns.engagement g)
      (Patterns.communication g) (Patterns.feedback g) /\
  Patterns.recommendations a
  = CrossSessionLearner._generate_recommendations (Patterns.insights a).

(** The insights stored for a user are those of the profile [p] as it is
    stored: none without sessions; otherwise the analysis of [p], kept in
    the profile and, by its groups and insights, in the cache entry [c]. *)
Definition analysed `{External} (p : UserProfile) (c : option Patterns.Cached) : Prop :=
  match session_history p with
  | [] => cross_session_insights p = None /\ c = None
  | _ =>
      exists a c',
        cross_session_insights p = Some a /\ c = Some c' /\
        cached_as a c' /\ analysis_of p a
  end.

Definition insights_ok `{External} (self : UserProfiler.t) : Prop :=
  forall key,
    match user_profiles self !! key with
    | Some p =>
        profile_ok key p /\ Forall timed_session (session_history p) /\
        analysed p (pattern_cache self !! key)
    | None => pattern_cache self !! key = None
    end.

(** ** Insights and recommendations *)

Definition varied_insight : string := "User shows varied communication preferences".
Definition consistent_insight : string := "User has consistent communication preferences".

(** The recommendation that follows the session frequency, and the one that
    follows the feedback ratios. *)
Definition frequency_recommendation (timing : option Patterns.Timing) : list string :=
  let frequency := default 0 (Patterns.session_frequency_per_day <$> timing) in
  if Py.ltb 2 frequency then
    ["Consider providing more detailed responses to maintain engagement"]
  else if Py.ltb frequency 0.1 then
    ["Focus on concise, impactful responses to encourage return visits"]
  else [].

Definition satisfaction_recommendation (feedback : option Patterns.Feedback)
  : list string :=
  if Py.ltb 0.7 (default 0 (Patterns.positive_ratio <$> feedback)) then
    ["Maintain current response quality and style"]
  else if Py.ltb 0.5 (default 0 (Patterns.negative_ratio <$> feedback)) then
    ["Review and improve response accuracy and relevance"]
  else [].

(** The analysis a profile holds, if any, tells of varied and not of
    consistent communication preferences. *)
Definition insights_varied_ok (self : UserProfiler.t) : Prop :=
  forall key p a,
    user_profiles self !! key = Some p -> cross_session_insights p = Some a ->
    varied_insight ∈ Patterns.insights a /\ consistent_insight ∉ Patterns.insights a.

(** A history of sessions recorded from events that all carry the duration
    [d]. *)
Definition sessions_lasting (d : Z) (sessions : list Entry) : Prop :=
  Forall (fun s => exists session_data,
                     s = session_entry session_data /\
                     Session.session_duration session_data = Some d) sessions.

(** ** Times of day *)

(** The four times of day, and the number of sessions a table of times of
    day counts. *)
Definition times_of_day : list string := ["morning"; "afternoon"; "evening"; "night"].

Definition counted_sessions (time_patterns : gmap string nat) : nat :=
  map_fold (fun _ n total => (n + total)%nat) 0%nat time_patterns.

(** * Properties *)

(** Case analysis on every conditional of the goal. *)
Ltac case_ifs :=
  repeat match goal with
         | |- context [if ?b then _ else _] => destruct b
         end.

(** ** Numbers *)

Lemma ltb_lt a b : Py.ltb a b = true <-> a < b.
Proof.
  unfold Py.ltb. rewrite negb_true_iff, <- not_true_iff_false, Qle_bool_iff.
  split; [apply Qnot_le_lt | apply Qlt_not_le].
Qed.

Lemma ltb_ge a b : Py.ltb a b = false <-> b <= a.
Proof.
  unfold Py.ltb. rewrite negb_false_iff. apply Qle_bool_iff.
Qed.

Lemma min_le_l a b : Py.min a b <= a.
Proof.
  unfold Py.min. destruct (Py.ltb b a) eqn:E.
  - apply ltb_lt in E. lra.
  - lra.
Qed.

Lemma min_glb a b c : c <= a -> c <= b -> c <= Py.min a b.
Proof. unfold Py.min. destruct (Py.ltb b a); auto. Qed.

Lemma max_ge_l a b : a <= Py.max a b.
Proof.
  unfold Py.max. destruct (Py.ltb a b) eqn:E.
  - apply ltb_lt in E. lra.
  - lra.
Qed.

Lemma max_lub a b c : a <= c -> b <= c -> Py.max a b <= c.
Proof. unfold Py.max. destruct (Py.ltb a b); auto. Qed.

(** ** Typing speed (message events) *)

Lemma len_nonneg s : (0 <= len s)%Z.
Proof. unfold len. lia. Qed.


Lemma typing_speed_nonneg prompt_data :
  (Prompt.input_start_time prompt_data < Prompt.input_end_time prompt_data)%Z ->
  0 <= typing_speed_of prompt_data.
Proof.
  intros Hd. unfold typing_speed_of.
  set (d := (Prompt.input_end_time prompt_data - Prompt.input_start_time prompt_data)%Z).
  assert (Hd' : 0 < inject_Z d) by (unfold Qlt; simpl; subst d; lia).
  assert (Hl : 0 <= inject_Z (len (Prompt.input_text prompt_data)))
    by (pose proof (len_nonneg (Prompt.input_text prompt_data)); unfold Qle; simpl; lia).
  apply Qle_shift_div_l; [ apply Qlt_shift_div_l; lra | lra ].
Qed.

(** The average typing speed after [_update_profile_metrics], case by case. *)
Lemma typing_speed_cases profile prompt_data :
  average_typing_speed (_update_profile_metrics profile prompt_data) =
  if ((Prompt.input_end_time prompt_data - Prompt.input_start_time prompt_data >? 0)
      && (len (Prompt.input_text prompt_data) >? 0))%Z
  then (average_typing_speed profile + typing_speed_of prompt_data) / 2
  else average_typing_speed profile.
Proof.
  unfold _update_profile_metrics, typing_speed_of.
  destruct (_ - _ >? 0)%Z; destruct (len _ >? 0)%Z; simpl;
    repeat (match goal with |- context [if ?b then _ else _] => destruct b end);
    reflexivity.
Qed.


(** The average typing speed starts from zero like any other old value:
    four characters typed in one second move it from 0 to 2, not to 4. *)
Lemma typing_speed_from_zero :
  average_typing_speed
    (_update_profile_metrics (new_profile "u" 0) (message "abcd" 0 1000 0)) == 2.
Proof. reflexivity. Qed.



(** ** The profile registry under the three updates *)

Lemma set_cross_session_insights_same p :
  set_cross_session_insights (cross_session_insights p) p = p.
Proof. destruct p; reflexivity. Qed.

(** Cross-session learning touches nothing but [cross_session_insights]. *)
Lemma learning_lookup `{External} self user_id now k :
  match user_profiles self !! k with
  | Some p =>
      exists i, user_profiles (_update_cross_session_learning self user_id now) !! k
                = Some (set_cross_session_insights i p)
  | None => user_profiles (_update_cross_session_learning self user_id now) !! k = None
  end.
Proof.
  unfold _update_cross_session_learning.
  destruct (CrossSessionLearner.analyze_user_patterns _ _ _ _) as [[cache [a|]]|]; simpl.
  - destruct (user_profiles self !! user_id) as [q|] eqn:Eq.
    + destruct (decide (user_id = k)) as [->|Hne].
      * rewrite Eq, lookup_insert_eq. eauto.
      * rewrite lookup_insert_ne by assumption.
        destruct (user_profiles self !! k) as [p|]; [|reflexivity].
        exists (cross_session_insights p). now rewrite set_cross_session_insights_same.
    + destruct (user_profiles self !! k) as [p|]; [|reflexivity].
      exists (cross_session_insights p). now rewrite set_cross_session_insights_same.
  - destruct (user_profiles self !! k) as [p|]; [|reflexivity].
    exists (cross_session_insights p). now rewrite set_cross_session_insights_same.
  - destruct (user_profiles self !! k) as [p|]; [|reflexivity].
    exists (cross_session_insights p). now rewrite set_cross_session_insights_same.
Qed.

Lemma learning_history `{External} self user_id now :
  profile_update_history (_update_cross_session_learning self user_id now)
  = profile_update_history self.
Proof.
  unfold _update_cross_session_learning.
  destruct (CrossSessionLearner.analyze_user_patterns _ _ _ _) as [[cache a]|]; reflexivity.
Qed.

Lemma get_or_create_profile self user_id now :
  (get_or_create self user_id now).2 = found_profile self user_id now.
Proof.
  unfold get_or_create, found_profile, get_user_profile.
  destruct (user_profiles self !! user_id); reflexivity.
Qed.

Lemma get_or_create_lookup self user_id now k :
  k <> user_id ->
  user_profiles (get_or_create self user_id now).1 !! k = user_profiles self !! k.
Proof.
  intros Hne. unfold get_or_create, get_user_profile.
  destruct (user_profiles self !! user_id); simpl; [reflexivity|].
  apply lookup_insert_ne. congruence.
Qed.

Lemma feedback_lookup `{External} self feedback_data now :
  exists i,
    user_profiles (update_profile_from_feedback self feedback_data now)
      !! Feedback.user_id feedback_data
    = Some (set_cross_session_insights i
              (apply_feedback (found_profile self (Feedback.user_id feedback_data) now)
                              feedback_data now)).
Proof.
  unfold update_profile_from_feedback.
  rewrite <- get_or_create_profile.
  destruct (get_or_create self _ now) as [self' profile]; simpl.
  match goal with
  | |- context [_update_cross_session_learning ?s ?u ?n] =>
      pose proof (learning_lookup s u n u) as L
  end.
  simpl in L. rewrite lookup_insert_eq in L. exact L.
Qed.

Lemma feedback_lookup_other `{External} self feedback_data now k :
  k <> Feedback.user_id feedback_data ->
  match user_profiles self !! k with
  | Some p =>
      exists i, user_profiles (update_profile_from_feedback self feedback_data now) !! k
                = Some (set_cross_session_insights i p)
  | None => user_profiles (update_profile_from_feedback self feedback_data now) !! k = None
  end.
Proof.
  intros Hne. unfold update_profile_from_feedback.
  pose proof (get_or_create_lookup self _ now k Hne) as G.
  destruct (get_or_create self _ now) as [self' profile]; simpl in *.
  match goal with
  | |- context [_update_cross_session_learning ?s ?u ?n] =>
      pose proof (learning_lookup s u n k) as L
  end.
  simpl in L. rewrite lookup_insert_ne, G in L by congruence. exact L.
Qed.

Lemma prompt_lookup `{External} self prompt_data now :
  exists i,
    user_profiles (update_profile_from_prompt self prompt_data now)
      !! Prompt.user_id prompt_data
    = Some (set_cross_session_insights i
              (apply_prompt (found_profile self (Prompt.user_id prompt_data) now)
                            prompt_data now)).
Proof.
  unfold update_profile_from_prompt.
  rewrite <- get_or_create_profile.
  destruct (get_or_create self _ now) as [self' profile]; simpl.
  match goal with
  | |- context [_update_cross_session_learning ?s ?u ?n] =>
      pose proof (learning_lookup s u n u) as L
  end.
  simpl in L. rewrite lookup_insert_eq in L. exact L.
Qed.

Lemma prompt_lookup_other `{External} self prompt_data now k :
  k <> Prompt.user_id prompt_data ->
  match user_profiles self !! k with
  | Some p =>
      exists i, user_profiles (update_profile_from_prompt self prompt_data now) !! k
                = Some (set_cross_session_insights i p)
  | None => user_profiles (update_profile_from_prompt self prompt_data now) !! k = None
  end.
Proof.
  intros Hne. unfold update_profile_from_prompt.
  pose proof (get_or_create_lookup self _ now k Hne) as G.
  destruct (get_or_create self _ now) as [self' profile]; simpl in *.
  match goal with
  | |- context [_update_cross_session_learning ?s ?u ?n] =>
      pose proof (learning_lookup s u n k) as L
  end.
  simpl in L. rewrite lookup_insert_ne, G in L by congruence. exact L.
Qed.

(** ** Feedback events *)

Lemma next_feedback_ratio_in_unit q : in_unit q -> in_unit (next_feedback_ratio q).
Proof.
  intros [H0 H1]. split.
  - apply min_glb; lra.
  - apply min_le_l.
Qed.

Lemma next_positive_ratio_in_unit ty q : in_unit q -> in_unit (next_positive_ratio ty q).
Proof.
  intros [H0 H1]. unfold next_positive_ratio.
  destruct (String.eqb ty "positive"); [|destruct (String.eqb ty "negative")].
  - split; [apply min_glb; lra | apply min_le_l].
  - split; [apply max_ge_l | apply max_lub; lra].
  - split; assumption.
Qed.

Lemma personalization_ratios profile feedback_data now :
  let p' := _update_personalization_from_feedback profile feedback_data now in
  feedback_ratio p' = next_feedback_ratio (feedback_ratio profile) /\
  positive_feedback_ratio p'
  = next_positive_ratio (Feedback.feedback_type feedback_data)
                        (positive_feedback_ratio profile).
Proof.
  unfold _update_personalization_from_feedback, next_positive_ratio.
  destruct (String.eqb (Feedback.feedback_type feedback_data) "positive");
    [|destruct (String.eqb (Feedback.feedback_type feedback_data) "negative")];
    simpl; case_ifs; split; reflexivity.
Qed.

Lemma apply_feedback_ratios profile feedback_data now :
  let p' := apply_feedback profile feedback_data now in
  feedback_ratio p' = next_feedback_ratio (feedback_ratio profile) /\
  positive_feedback_ratio p'
  = next_positive_ratio (Feedback.feedback_type feedback_data)
                        (positive_feedback_ratio profile).
Proof.
  unfold apply_feedback. cbv zeta.
  match goal with
  | |- context [_update_personalization_from_feedback ?p ?f ?n] =>
      destruct (personalization_ratios p f n) as [E1 E2];
      replace (feedback_ratio p) with (feedback_ratio profile) in E1 by (case_ifs; reflexivity);
      replace (positive_feedback_ratio p) with (positive_feedback_ratio profile) in E2
        by (case_ifs; reflexivity)
  end.
  split; assumption.
Qed.

Lemma apply_feedback_in_unit profile feedback_data now :
  ratios_in_unit profile -> ratios_in_unit (apply_feedback profile feedback_data now).
Proof.
  intros [F P]. destruct (apply_feedback_ratios profile feedback_data now) as [E1 E2].
  split; [rewrite E1 | rewrite E2].
  - now apply next_feedback_ratio_in_unit.
  - now apply next_positive_ratio_in_unit.
Qed.

Lemma new_profile_in_unit user_id now : ratios_in_unit (new_profile user_id now).
Proof. repeat split; simpl; lra. Qed.

Lemma found_profile_in_unit self user_id now :
  ratios_ok self -> ratios_in_unit (found_profile self user_id now).
Proof.
  intros Hok. unfold found_profile.
  destruct (user_profiles self !! user_id) as [p|] eqn:E; simpl.
  - eapply Hok; eassumption.
  - apply new_profile_in_unit.
Qed.

Lemma ratios_in_unit_insights i p :
  ratios_in_unit p -> ratios_in_unit (set_cross_session_insights i p).
Proof. intros Hp. exact Hp. Qed.

Lemma feedback_preserves_ratios `{External} self feedback_data now :
  ratios_ok self -> ratios_ok (update_profile_from_feedback self feedback_data now).
Proof.
  intros Hok k p Hk.
  destruct (decide (k = Feedback.user_id feedback_data)) as [->|Hne].
  - destruct (feedback_lookup self feedback_data now) as [i Hi].
    rewrite Hi in Hk. injection Hk as <-.
    apply ratios_in_unit_insights, apply_feedback_in_unit.
    now apply found_profile_in_unit.
  - pose proof (feedback_lookup_other self feedback_data now k Hne) as L.
    destruct (user_profiles self !! k) as [q|] eqn:Eq.
    + destruct L as [i Hi]. rewrite Hi in Hk. injection Hk as <-.
      apply ratios_in_unit_insights, (Hok k q Eq).
    + congruence.
Qed.

(** C5: one feedback event replaces [feedback_ratio] by
    [min(1, feedback_ratio + 0.1)] and [positive_feedback_ratio] by
    [min(1, ratio + 0.1)] when positive and [max(0, ratio - 0.1)] when
    negative; and if both ratios of every profile lie in [0, 1], they still
    do after any finite sequence of feedback events, hence after each event
    of the sequence. *)
Theorem feedback_ratios_stay_in_unit `{External} :
  (forall self feedback_data now,
     exists p',
       user_profiles (update_profile_from_feedback self feedback_data now)
         !! Feedback.user_id feedback_data = Some p' /\
       let p := found_profile self (Feedback.user_id feedback_data) now in
       feedback_ratio p' = Py.min 1 (feedback_ratio p + 0.1) /\
       (Feedback.feedback_type feedback_data = "positive" ->
        positive_feedback_ratio p' = Py.min 1 (positive_feedback_ratio p + 0.1)) /\
       (Feedback.feedback_type feedback_data = "negative" ->
        positive_feedback_ratio p' = Py.max 0 (positive_feedback_ratio p - 0.1))) /\
  (forall self events,
     ratios_ok self -> ratios_ok (process_feedback self events)).
Proof.
  split.
  - intros self fd now. destruct (feedback_lookup self fd now) as [i Hi].
    eexists. split; [exact Hi|]. cbv zeta.
    destruct (apply_feedback_ratios (found_profile self (Feedback.user_id fd) now) fd now)
      as [E1 E2].
    split; [exact E1|].
    change (positive_feedback_ratio (set_cross_session_insights i ?x))
      with (positive_feedback_ratio x).
    rewrite E2. unfold next_positive_ratio.
    split; intros ->; reflexivity.
  - intros self events. revert self.
    induction events as [|ev events IH]; intros self Hok; simpl.
    + exact Hok.
    + apply IH. now apply feedback_preserves_ratios.
Qed.

Lemma init_ratios_ok : ratios_ok UserProfiler.init.
Proof. intros k p Hk. simpl in Hk. rewrite lookup_empty in Hk. discriminate Hk. Qed.

(** Fifty positive events in a row on a new profiler. *)
Lemma feedback_ratios_stay_in_unit_witness :
  ratios_ok (@process_feedback utc_host UserProfiler.init
               (replicate 50 (positive_feedback "u", 0%Z))).
Proof.
  apply (@feedback_ratios_stay_in_unit utc_host). exact init_ratios_ok.
Defined.

(** A feedback event moves [preferred_detail_level] one step: up when
    positive, down when negative. *)
Lemma feedback_detail_level profile feedback_data now :
  preferred_detail_level (apply_feedback profile feedback_data now)
  = if String.eqb (Feedback.feedback_type feedback_data) "positive"
    then detail_up (preferred_detail_level profile)
    else if String.eqb (Feedback.feedback_type feedback_data) "negative"
    then detail_down (preferred_detail_level profile)
    else preferred_detail_level profile.
Proof.
  unfold apply_feedback, _update_personalization_from_feedback, detail_up, detail_down.
  destruct (String.eqb (Feedback.feedback_type feedback_data) "positive");
    [|destruct (String.eqb (Feedback.feedback_type feedback_data) "negative")];
    simpl; case_ifs; reflexivity.
Qed.

Example detail_steps :
  map detail_up ["concise"; "medium"; "detailed"] = ["medium"; "detailed"; "detailed"] /\
  map detail_down ["concise"; "medium"; "detailed"] = ["concise"; "concise"; "medium"].
Proof. split; reflexivity. Qed.

(** The number of entries a feedback event appends to [feedback_history]:
    one by [update_profile_from_feedback] itself when the type is positive
    or negative, and one more by [_update_personalization_from_feedback]. *)
Lemma apply_feedback_history profile feedback_data now :
  feedback_history (apply_feedback profile feedback_data now)
  = app (feedback_history profile)
        (let ty := Feedback.feedback_type feedback_data in
         if String.eqb ty "positive"
         then [feedback_record "positive" feedback_data now; feedback_entry feedback_data now]
         else if String.eqb ty "negative"
         then [feedback_record "negative" feedback_data now; feedback_entry feedback_data now]
         else [feedback_entry feedback_data now]).
Proof.
  unfold apply_feedback, _update_personalization_from_feedback. cbv zeta.
  destruct (String.eqb (Feedback.feedback_type feedback_data) "positive");
    [|destruct (String.eqb (Feedback.feedback_type feedback_data) "negative")];
    simpl; case_ifs; simpl; rewrite <- ?app_assoc; reflexivity.
Qed.

(** C2 (the code against the claim): a positive or negative feedback event
    appends two entries to [feedback_history], not one. *)
Theorem feedback_event_appends_two_entries `{External} self feedback_data now :
  Feedback.feedback_type feedback_data = "positive"
  \/ Feedback.feedback_type feedback_data = "negative" ->
  exists p',
    user_profiles (update_profile_from_feedback self feedback_data now)
      !! Feedback.user_id feedback_data = Some p' /\
    length (feedback_history p')
    = (length (feedback_history
                 (found_profile self (Feedback.user_id feedback_data) now)) + 2)%nat.
Proof.
  intros Hty. destruct (feedback_lookup self feedback_data now) as [i Hi].
  eexists. split; [exact Hi|].
  change (feedback_history (set_cross_session_insights i ?x)) with (feedback_history x).
  rewrite apply_feedback_history, length_app. f_equal.
  destruct Hty as [-> | ->]; reflexivity.
Qed.

Lemma feedback_event_appends_two_entries_witness :
  exists p',
    user_profiles (@update_profile_from_feedback utc_host UserProfiler.init
                     (positive_feedback "u") 0) !! "u" = Some p' /\
    length (feedback_history p') = 2%nat.
Proof.
  apply (@feedback_event_appends_two_entries utc_host UserProfiler.init
           (positive_feedback "u") 0%Z).
  left. reflexivity.
Defined.

(** Fifty positive events in a row: both ratios end at 1, the detail level
    at "detailed", and the history holds a hundred entries. *)
Example fifty_positive_events :
  let self :=
    @process_feedback utc_host UserProfiler.init
      (replicate 50 (positive_feedback "u", 0%Z)) in
  (p ← user_profiles self !! "u";
   Some (Qred (feedback_ratio p), Qred (positive_feedback_ratio p),
         preferred_detail_level p, length (feedback_history p)))
  = Some (1, 1, "detailed", 100%nat).
Proof. vm_compute. reflexivity. Qed.

(** A negative event on a new profile: the detail level steps down to
    "concise" and the positive ratio stays at 0. *)
Example negative_feedback_on_new_profile :
  let p := apply_feedback (new_profile "u" 0) (negative_feedback "u") 0 in
  preferred_detail_level p = "concise" /\
  positive_feedback_ratio p == 0 /\ feedback_ratio p == 0.1.
Proof. repeat split. Qed.

(** ** Unknown users *)

(** C3, as stated, fails for the session-end event: on a profiler that does
    not know the user it creates no profile and returns [None]. *)
Lemma session_unknown_user_counterexample :
  let result :=
    @update_profile_from_session utc_host UserProfiler.init "u"
      (session_of (Some "completed") 60000) 0 in
  get_user_profile result.1 "u" = None /\ result.2 = None.
Proof. split; reflexivity. Qed.

Lemma create_then_get self user_id now :
  get_or_create (create_user_profile self user_id now).1 user_id now
  = create_user_profile self user_id now.
Proof.
  unfold get_or_create, get_user_profile, create_user_profile; simpl.
  rewrite lookup_insert_eq. reflexivity.
Qed.

Lemma get_or_create_unknown self user_id now :
  user_profiles self !! user_id = None ->
  get_or_create self user_id now = create_user_profile self user_id now.
Proof. intros E. unfold get_or_create, get_user_profile. now rewrite E. Qed.

Lemma found_profile_unknown self user_id now :
  user_profiles self !! user_id = None ->
  found_profile self user_id now = new_profile user_id now.
Proof. intros E. unfold found_profile. now rewrite E. Qed.

(** C3 (amended): a message event and a feedback event for a user without
    a profile first create the profile with the defaults of
    [create_user_profile] (medium complexity, conversational style, medium
    detail, every average and ratio 0, grammatical accuracy 1, empty
    histories) and then apply the update to it; a session-end event for
    such a user changes nothing and returns no profile. *)
Theorem unknown_user_handling `{External} self user_id now :
  user_profiles self !! user_id = None ->
  let created := create_user_profile self user_id now in
  (created.2 = new_profile user_id now /\
   user_profiles created.1 !! user_id = Some (new_profile user_id now)) /\
  (forall prompt_data,
     Prompt.user_id prompt_data = user_id ->
     update_profile_from_prompt self prompt_data now
     = update_profile_from_prompt created.1 prompt_data now /\
     exists i,
       user_profiles (update_profile_from_prompt self prompt_data now) !! user_id
       = Some (set_cross_session_insights i
                 (apply_prompt (new_profile user_id now) prompt_data now))) /\
  (forall feedback_data,
     Feedback.user_id feedback_data = user_id ->
     update_profile_from_feedback self feedback_data now
     = update_profile_from_feedback created.1 feedback_data now /\
     exists i,
       user_profiles (update_profile_from_feedback self feedback_data now) !! user_id
       = Some (set_cross_session_insights i
                 (apply_feedback (new_profile user_id now) feedback_data now))) /\
  (forall session_data,
     update_profile_from_session self user_id session_data now = (self, None)).
Proof.
  intros Hnone created. repeat split.
  - apply lookup_insert_eq.
  - subst user_id. unfold update_profile_from_prompt.
    subst created. now rewrite create_then_get, get_or_create_unknown.
  - subst user_id. destruct (prompt_lookup self prompt_data now) as [i Hi].
    exists i. now rewrite Hi, found_profile_unknown.
  - subst user_id. unfold update_profile_from_feedback.
    subst created. now rewrite create_then_get, get_or_create_unknown.
  - subst user_id. destruct (feedback_lookup self feedback_data now) as [i Hi].
    exists i. now rewrite Hi, found_profile_unknown.
  - intros session_data. unfold update_profile_from_session, get_user_profile.
    now rewrite Hnone.
Qed.

Lemma unknown_user_handling_witness :
  @update_profile_from_session utc_host UserProfiler.init "u"
    (session_of (Some "completed") 60000) 0 = (UserProfiler.init, None).
Proof.
  apply (@unknown_user_handling utc_host UserProfiler.init "u" 0%Z).
  reflexivity.
Defined.

(** The defaults of a new profile. *)
Lemma new_profile_defaults user_id now :
  let p := new_profile user_id now in
  preferred_language_complexity p = "medium" /\
  preferred_response_style p = "conversational" /\
  preferred_detail_level p = "medium" /\
  average_session_duration p = 0 /\ average_response_time p = 0 /\
  average_typing_speed p = 0 /\ average_sentiment_score p = 0 /\
  average_language_complexity p = 0 /\ average_grammatical_accuracy p = 1 /\
  total_sessions p = 0%Z /\ average_engagement_time p = 0 /\
  feedback_ratio p = 0 /\ positive_feedback_ratio p = 0 /\
  session_history p = [] /\ feedback_history p = [] /\
  cross_session_insights p = None.
Proof. repeat split. Qed.

(** ** Cross-session analysis without sessions *)

Lemma analyze_without_sessions `{External} cache user_id
    (profiles : gmap string UserProfile) now p :
  profiles !! user_id = Some p -> session_history p = [] ->
  CrossSessionLearner.analyze_user_patterns cache user_id profiles now
  = Some (cache, None).
Proof.
  intros Hp Hs. unfold CrossSessionLearner.analyze_user_patterns.
  now rewrite Hp, Hs.
Qed.

Lemma learning_without_sessions `{External} self user_id now :
  (forall p, user_profiles self !! user_id = Some p -> session_history p = []) ->
  _update_cross_session_learning self user_id now = self.
Proof.
  intros Hs. unfold _update_cross_session_learning,
    CrossSessionLearner.analyze_user_patterns.
  destruct (user_profiles self !! user_id) as [p|] eqn:E.
  - rewrite (Hs p eq_refl). destruct self; reflexivity.
  - destruct self; reflexivity.
Qed.

Lemma language_analysis_keeps_history profile analysis :
  let p' := _update_profile_from_language_analysis profile analysis in
  session_history p' = session_history profile /\
  feedback_history p' = feedback_history profile /\
  cross_session_insights p' = cross_session_insights profile.
Proof.
  unfold _update_profile_from_language_analysis. cbv zeta.
  case_ifs; repeat split.
Qed.

Lemma metrics_keep_history profile prompt_data :
  let p' := _update_profile_metrics profile prompt_data in
  session_history p' = session_history profile /\
  feedback_history p' = feedback_history profile /\
  cross_session_insights p' = cross_session_insights profile.
Proof.
  unfold _update_profile_metrics. cbv zeta.
  case_ifs; repeat split.
Qed.

Lemma apply_prompt_keeps_history `{External} profile prompt_data now :
  let p' := apply_prompt profile prompt_data now in
  session_history p' = session_history profile /\
  feedback_history p' = feedback_history profile /\
  cross_session_insights p' = cross_session_insights profile.
Proof.
  unfold apply_prompt. cbv zeta.
  match goal with
  | |- context [_update_profile_metrics ?p ?d] =>
      destruct (metrics_keep_history p d) as (E1 & E2 & E3)
  end.
  change (session_history (set_updated_at ?n ?x)) with (session_history x).
  change (feedback_history (set_updated_at ?n ?x)) with (feedback_history x).
  change (cross_session_insights (set_updated_at ?n ?x)) with (cross_session_insights x).
  rewrite E1, E2, E3.
  destruct (Text.nonempty _); [apply language_analysis_keeps_history | repeat split].
Qed.

Lemma apply_feedback_keeps_sessions profile feedback_data now :
  let p' := apply_feedback profile feedback_data now in
  session_history p' = session_history profile /\
  cross_session_insights p' = cross_session_insights profile.
Proof.
  unfold apply_feedback, _update_personalization_from_feedback. cbv zeta.
  destruct (String.eqb (Feedback.feedback_type feedback_data) "positive");
    [|destruct (String.eqb (Feedback.feedback_type feedback_data) "negative")];
    simpl; case_ifs; split; reflexivity.
Qed.

(** The registry after storing a changed profile and recording the update,
    before the cross-session learning. *)
Lemma recorded_lookup self user_id profile update_type data now k :
  user_profiles
    (_record_profile_update (store_profile self user_id profile)
                            user_id update_type data now) !! k
  = if decide (user_id = k) then Some profile else user_profiles self !! k.
Proof. simpl. apply lookup_insert. Qed.

Lemma found_profile_no_sessions self user_id now :
  no_sessions self ->
  session_history (found_profile self user_id now) = [] /\
  cross_session_insights (found_profile self user_id now) = None.
Proof.
  intros [Hp _]. unfold found_profile.
  destruct (user_profiles self !! user_id) as [p|] eqn:E; simpl.
  - now apply (Hp user_id).
  - split; reflexivity.
Qed.

Lemma get_or_create_cache self user_id now :
  pattern_cache (get_or_create self user_id now).1 = pattern_cache self.
Proof.
  unfold get_or_create. destruct (get_user_profile self user_id); reflexivity.
Qed.

Lemma get_or_create_lookup_any self user_id now k p :
  user_profiles (get_or_create self user_id now).1 !! k = Some p ->
  user_profiles self !! k = Some p \/ p = new_profile user_id now.
Proof.
  unfold get_or_create, get_user_profile.
  destruct (user_profiles self !! user_id) eqn:E; simpl; [now left|].
  rewrite lookup_insert. destruct (decide (user_id = k)); [|now left].
  intros [= <-]. now right.
Qed.

Lemma prompt_keeps_no_sessions `{External} self prompt_data now :
  no_sessions self -> no_sessions (update_profile_from_prompt self prompt_data now).
Proof.
  intros Hno. pose proof (found_profile_no_sessions self (Prompt.user_id prompt_data) now Hno)
    as [Fs Fi].
  destruct (apply_prompt_keeps_history
              (found_profile self (Prompt.user_id prompt_data) now) prompt_data now)
    as (As & _ & Ai).
  unfold update_profile_from_prompt.
  pose proof (get_or_create_profile self (Prompt.user_id prompt_data) now) as G.
  pose proof (get_or_create_cache self (Prompt.user_id prompt_data) now) as C.
  pose proof (get_or_create_lookup_any self (Prompt.user_id prompt_data) now) as L.
  destruct (get_or_create self _ now) as [self' profile]; simpl in G, C, L. subst profile.
  fold (apply_prompt (found_profile self (Prompt.user_id prompt_data) now) prompt_data now).
  rewrite learning_without_sessions.
  - split.
    + intros k p. rewrite recorded_lookup.
      destruct (decide (Prompt.user_id prompt_data = k)).
      * intros [= <-]. now rewrite As, Ai.
      * intros Hk. destruct (L k p Hk) as [Hk' | ->].
        -- now apply (proj1 Hno k).
        -- split; reflexivity.
    + simpl. rewrite C. apply Hno.
  - intros p. rewrite recorded_lookup, decide_True by reflexivity.
    intros [= <-]. now rewrite As.
Qed.

Lemma feedback_keeps_no_sessions `{External} self feedback_data now :
  no_sessions self -> no_sessions (update_profile_from_feedback self feedback_data now).
Proof.
  intros Hno.
  pose proof (found_profile_no_sessions self (Feedback.user_id feedback_data) now Hno)
    as [Fs Fi].
  destruct (apply_feedback_keeps_sessions
              (found_profile self (Feedback.user_id feedback_data) now) feedback_data now)
    as (As & Ai).
  unfold update_profile_from_feedback.
  pose proof (get_or_create_profile self (Feedback.user_id feedback_data) now) as G.
  pose proof (get_or_create_cache self (Feedback.user_id feedback_data) now) as C.
  pose proof (get_or_create_lookup_any self (Feedback.user_id feedback_data) now) as L.
  destruct (get_or_create self _ now) as [self' profile]; simpl in G, C, L. subst profile.
  fold (apply_feedback (found_profile self (Feedback.user_id feedback_data) now)
                       feedback_data now).
  rewrite learning_without_sessions.
  - split.
    + intros k p. rewrite recorded_lookup.
      destruct (decide (Feedback.user_id feedback_data = k)).
      * intros [= <-]. now rewrite As, Ai.
      * intros Hk. destruct (L k p Hk) as [Hk' | ->].
        -- now apply (proj1 Hno k).
        -- split; reflexivity.
    + simpl. rewrite C. apply Hno.
  - intros p. rewrite recorded_lookup, decide_True by reflexivity.
    intros [= <-]. now rewrite As.
Qed.

Lemma init_no_sessions : no_sessions UserProfiler.init.
Proof.
  split; [|reflexivity]. intros k p Hk. simpl in Hk. rewrite lookup_empty in Hk.
  discriminate Hk.
Qed.

(** C10: for a profile whose [session_history] is empty the analysis
    returns the empty dictionary and leaves the cache as it was, whatever
    the [feedback_history]; so after any sequence of message and feedback
    events on a new profiler no profile has cross-session insights and the
    cache of insights is empty. *)
Theorem no_insights_without_sessions `{External} :
  (forall cache user_id (profiles : gmap string UserProfile) now p,
     profiles !! user_id = Some p -> session_history p = [] ->
     CrossSessionLearner.analyze_user_patterns cache user_id profiles now
     = Some (cache, None)) /\
  (forall events,
     Forall (fun ev => ~ is_session_end ev) events ->
     let self := process_events UserProfiler.init events in
     (forall user_id p, user_profiles self !! user_id = Some p ->
                        session_history p = [] /\ cross_session_insights p = None) /\
     (forall user_id, get_user_insights self user_id = None)).
Proof.
  split.
  - intros. now apply analyze_without_sessions with p.
  - intros events Hev.
    assert (Hgen : forall self, no_sessions self -> no_sessions (process_events self events)).
    { induction Hev as [|ev events Hnot _ IH]; intros self Hno; simpl; [exact Hno|].
      apply IH. unfold process_event. destruct ev as [[pd|fd|u sd] now]; simpl.
      - now apply prompt_keeps_no_sessions.
      - now apply feedback_keeps_no_sessions.
      - exfalso. apply Hnot. exact I. }
    destruct (Hgen _ init_no_sessions) as [Hp Hc]. split; [exact Hp|].
    intros user_id. unfold get_user_insights. rewrite Hc. apply lookup_empty.
Qed.

(** A profile with feedback and no session. *)
Lemma no_insights_without_sessions_witness :
  let p := apply_feedback (new_profile "u" 0) (positive_feedback "u") 0 in
  feedback_history p <> [] /\
  @CrossSessionLearner.analyze_user_patterns utc_host ∅ "u" {["u" := p]} 0
  = Some (∅, None).
Proof.
  split; [discriminate|].
  apply (proj1 (@no_insights_without_sessions utc_host)
           ∅ "u" {["u" := apply_feedback (new_profile "u" 0) (positive_feedback "u") 0]}
           0%Z (apply_feedback (new_profile "u" 0) (positive_feedback "u") 0)).
  - reflexivity.
  - reflexivity.
Defined.

(** ** Communication consistency *)

(** C7 (the code against the claim): the consistency score of a profile at
    the default preferences is 0.4, not 1.0: the score adds 0.3 for the
    complexity "intermediate" and 0.3 for the detail level "balanced",
    values that the preferences never take. *)
Theorem default_profile_consistency user_id now :
  exists score,
    Patterns.communication_consistency
      <$> CrossSessionLearner._analyze_communication_patterns (new_profile user_id now)
    = Some score /\
    score == 0.4 /\ ~ score == 1.
Proof. eexists. repeat split. intros E. discriminate E. Qed.

(** With preferences among those values the score is 0.4 for the
    conversational style and 0 for any other. *)
Lemma consistency_score_values profile :
  preferred_language_complexity profile ∈ complexity_values ->
  preferred_detail_level profile ∈ detail_values ->
  CrossSessionLearner.consistency_score profile
  = if String.eqb (preferred_response_style profile) "conversational"
    then 0 + 0.4 else 0.
Proof.
  unfold CrossSessionLearner.consistency_score, complexity_values, detail_values.
  intros Hc Hd.
  repeat (apply elem_of_cons in Hc as [-> | Hc]); [| | |inversion Hc];
    repeat (apply elem_of_cons in Hd as [-> | Hd]); try (inversion Hd; fail);
    reflexivity.
Qed.

(** ** Completion rate *)

Lemma session_entry_end_type session_data :
  eq_str (get (session_entry session_data) "session_end_type") "completed" = false.
Proof. reflexivity. Qed.

Lemma recorded_sessions_not_completed sessions :
  List.filter (fun s => eq_str (get s "session_end_type") "completed")
              (map session_entry sessions) = [].
Proof.
  induction sessions as [|s l IH]; [reflexivity|].
  cbn [map List.filter]. rewrite session_entry_end_type. exact IH.
Qed.

(** C8 (the code against the claim): the completion rate of any history
    recorded by [update_profile_from_session] is 0, however many of its
    sessions ended as "completed": the entry keeps the end type under
    ['end_type'] and the rate reads ['session_end_type']. *)
Theorem recorded_completion_rate_is_zero (sessions : list Session.t) :
  CrossSessionLearner._calculate_completion_rate (map session_entry sessions) == 0.
Proof.
  unfold CrossSessionLearner._calculate_completion_rate.
  destruct (map session_entry sessions) eqn:E; [reflexivity|].
  rewrite <- E, recorded_sessions_not_completed. reflexivity.
Qed.

(** One session that ended as "completed", recorded for a known user a day
    after the profile was created: the analysis reports the completion rate
    0, the consistency 2/5 and a single insight. *)
Example completed_session_rate :
  let self := (create_user_profile UserProfiler.init "u" 0).1 in
  let result := @update_profile_from_session utc_host self "u"
                  (session_of (Some "completed") 60000) 86400000000 in
  (p ← result.2; a ← cross_session_insights p;
   e ← Patterns.engagement (Patterns.patterns a);
   Some (Qred (Patterns.session_completion_rate e),
         Qred (Patterns.communication_consistency
                 (Patterns.communication (Patterns.patterns a))),
         Patterns.insights a, Patterns.recommendations a))
  = Some (0, 2 # 5, ["User shows varied communication preferences"], []).
Proof. vm_compute. reflexivity. Qed.

(** ** Prompt enrichment *)

Lemma string_app_cons c (a b : string) : String c a ++ b = String c (a ++ b).
Proof. reflexivity. Qed.

Lemma string_app_empty (s : string) : s ++ "" = s.
Proof.
  induction s as [|c s IH]; [reflexivity|]. now rewrite string_app_cons, IH.
Qed.

Lemma string_length_app (a b : string) :
  String.length (a ++ b) = (String.length a + String.length b)%nat.
Proof.
  induction a as [|c a IH]; [reflexivity|].
  rewrite string_app_cons. simpl. now rewrite IH.
Qed.

(** Formatting the selected template puts the personalization clause in
    the place of the replacement field, which ends the template. *)
Lemma format_selected_template params clause :
  format (_select_template params) clause = preamble params ++ clause.
Proof.
  unfold _select_template, preamble.
  case_ifs;
    match goal with
    | |- format (template ?k) _ = _ =>
        let t := eval vm_compute in (template k) in
        change (template k) with t
    end;
    unfold format; cbn; rewrite string_app_empty; reflexivity.
Qed.

(** C9: the enriched prompt is the selected template, its replacement
    field filled with the personalization clause, followed by the exact
    suffix made of a blank line, "User: ", the base prompt, a blank line and
    "Assistant:"; it is longer than the base prompt. *)
Theorem enriched_prompt_shape base_prompt user_id params :
  enrich_prompt base_prompt user_id params
  = (preamble params ++ _create_personalization_context params)
    ++ message_suffix base_prompt
  /\ (String.length base_prompt
      < String.length (enrich_prompt base_prompt user_id params))%nat.
Proof.
  assert (E : enrich_prompt base_prompt user_id params
              = (preamble params ++ _create_personalization_context params)
                ++ message_suffix base_prompt).
  { unfold enrich_prompt. cbv zeta. now rewrite format_selected_template. }
  split; [exact E|].
  rewrite E, string_length_app.
  generalize (String.length (preamble params ++ _create_personalization_context params)).
  intros n. unfold message_suffix. rewrite !string_length_app.
  change (String.length nl) with 1%nat. lia.
Qed.

(** ** Language complexity *)

Lemma of_nat_nonneg n : 0 <= Py.of_nat n.
Proof. unfold Py.of_nat, Qle. simpl. lia. Qed.

Lemma ratio_nonneg n m : 0 <= Py.of_nat n / Py.of_nat m.
Proof.
  apply Qmult_le_0_compat; [apply of_nat_nonneg|].
  apply Qinv_le_0_compat, of_nat_nonneg.
Qed.

Lemma type_token_ratio_in_unit text : in_unit (calculate_type_token_ratio text).
Proof.
  unfold calculate_type_token_ratio, in_unit.
  destruct (negb (Text.nonempty text)); [lra|].
  destruct (Text.split (Text.lower text)) as [|w ws]; [lra|].
  split; [apply min_glb; [lra | apply ratio_nonneg] | apply min_le_l].
Qed.

Lemma clamp_in_unit q : in_unit (Py.max 0 (Py.min 1 q)).
Proof.
  split; [apply max_ge_l | apply max_lub; [lra | apply min_le_l]].
Qed.

Lemma weighted_in_unit a b x y :
  0 <= a -> 0 <= b -> a + b == 1 -> in_unit x -> in_unit y -> in_unit (a * x + b * y).
Proof. unfold in_unit. intros Ha Hb Hab [Hx0 Hx1] [Hy0 Hy1]. split; nra. Qed.

Lemma init_rejects a b : 0.01 < Py.abs (a + b - 1) -> init a b = None.
Proof.
  intros Hd. apply ltb_lt in Hd. unfold init. now rewrite Hd.
Qed.

Lemma abs_of_zero q : q == 0 -> Py.abs q <= 0.
Proof.
  intros Hq. unfold Py.abs. destruct (Py.ltb q 0); lra.
Qed.

(** C6, as stated, fails twice: the weights 0.5 and 0.50390625 do not sum
    to 1 and are accepted; the weights 2 and -1 sum to 1, and the complexity
    score of the text "a" under them is -1. *)
Lemma complexity_weights_counterexample :
  (~ 0.5 + (129 # 256) == 1 /\ init 0.5 (129 # 256) <> None) /\
  (2 + -1 == 1 /\
   exists self, init 2 (-1) = Some self /\ (analyze_complexity self "a").2 == -1).
Proof.
  split; split.
  - intros E. discriminate E.
  - discriminate.
  - reflexivity.
  - eexists. split; reflexivity.
Qed.

(** C6 (amended): the construction is rejected whenever the sum of the
    weights differs from 1 by more than 0.01 and succeeds whenever the sum
    is 1; and for weights that are not negative and sum to 1 the complexity
    score of every text lies in [0, 1]. *)
Theorem complexity_weights_and_score a b :
  (0.01 < Py.abs (a + b - 1) -> init a b = None) /\
  (a + b == 1 ->
   exists self,
     init a b = Some self /\
     (0 <= a -> 0 <= b -> forall text, in_unit (analyze_complexity self text).2)).
Proof.
  split.
  - apply init_rejects.
  - intros Hab. exists {| asl_weight := a; ttr_weight := b |}. split.
    + unfold init.
      assert (Habs : Py.abs (a + b - 1) <= 0) by (apply abs_of_zero; lra).
      destruct (Py.ltb 0.01 (Py.abs (a + b - 1))) eqn:E; [|reflexivity].
      apply ltb_lt in E. lra.
    + intros Ha Hb text. unfold analyze_complexity.
      destruct (negb (Text.nonempty text)); simpl.
      * unfold in_unit. lra.
      * apply weighted_in_unit; auto using clamp_in_unit, type_token_ratio_in_unit.
Qed.

(** The weights 0.5 and 0.5 are accepted and keep every score in [0, 1];
    the weights 0.5 and 0.75 are rejected. *)
Lemma complexity_weights_and_score_witness :
  (exists self,
     init 0.5 0.5 = Some self /\
     forall text, in_unit (analyze_complexity self text).2) /\
  init 0.5 0.75 = None.
Proof.
  split.
  - destruct (proj2 (complexity_weights_and_score 0.5 0.5)) as (self & Hi & Hs);
      [reflexivity|].
    exists self. split; [exact Hi|]. apply Hs; discriminate.
  - apply (proj1 (complexity_weights_and_score 0.5 0.75)). reflexivity.
Defined.

Example complexity_example :
  exists self,
    init 0.5 0.5 = Some self /\
    analyze_complexity self "Hi there. How are you doing today? ok"
    = (2%nat, Py.min 1 (Py.of_nat 8 / Py.of_nat 8),
       0.5 * Py.max 0 (Py.min 1 ((Py.of_nat 2 - 5) / 20))
       + 0.5 * Py.min 1 (Py.of_nat 8 / Py.of_nat 8)).
Proof. eexists. split; reflexivity. Qed.

(** ** Sentiment *)

Lemma word_step_eq `{Unicode} total count word :
  word_step (total, count) word
  = let clean_word := sub_non_word word in
    if Text.nonempty clean_word
    then ((total + token_score clean_word)%Z, (count + 1)%Z)
    else (total, count).
Proof.
  unfold word_step, token_score. cbv zeta.
  destruct (Text.nonempty _); [|reflexivity].
  destruct (sentiment_tokens !! _); simpl; f_equal; lia.
Qed.

Lemma emoji_step_eq text total count entry :
  emoji_step text (total, count) entry
  = if Text.contains entry.1 text
    then ((total + entry.2)%Z, (count + 1)%Z)
    else (total, count).
Proof. destruct entry as [emoji score]. reflexivity. Qed.

Lemma word_loop `{Unicode} words total count :
  fold_left word_step words (total, count)
  = ((total + zsum (map token_score
                        (List.filter Text.nonempty (map sub_non_word words))))%Z,
     (count + Z.of_nat (length (List.filter Text.nonempty
                                  (map sub_non_word words))))%Z).
Proof.
  revert total count. induction words as [|w ws IH]; intros total count.
  - simpl. f_equal; lia.
  - cbn [fold_left map List.filter]. rewrite word_step_eq. cbv zeta.
    destruct (Text.nonempty (sub_non_word w)); rewrite IH.
    + unfold zsum. cbn [map fold_right length]. f_equal; lia.
    + reflexivity.
Qed.

Lemma emoji_loop text table total count :
  fold_left (emoji_step text) table (total, count)
  = ((total + zsum (map snd (List.filter (fun entry => Text.contains entry.1 text) table)))%Z,
     (count + Z.of_nat (length (List.filter (fun entry => Text.contains entry.1 text)
                                            table)))%Z).
Proof.
  revert total count. induction table as [|entry table IH]; intros total count.
  - simpl. f_equal; lia.
  - cbn [fold_left List.filter]. rewrite emoji_step_eq.
    destruct (Text.contains entry.1 text); rewrite IH.
    + unfold zsum. cbn [map fold_right length]. f_equal; lia.
    + reflexivity.
Qed.

Example sentiment_examples :
  @analyze_sentiment ascii_text "I love this! Amazing and wonderful." = (2, 2)%Z /\
  @analyze_sentiment ascii_text "I hate this, terrible and awful." = (-2, -2)%Z /\
  @analyze_sentiment ascii_text "The weather is nice today." = (0, 0)%Z /\
  @analyze_sentiment ascii_text "love" = (5, 5)%Z.
Proof. split; [|split; [|split]]; vm_compute; reflexivity. Qed.

(** C4, as stated, fails: in "good a b c d" one word matches the lexicon
    with score 3 and four do not; the average over the matched words is 3,
    and the scorer returns 0, the truncation of 3/5. *)
Lemma sentiment_denominator_counterexample :
  Py.int (@matched_only_average ascii_text "good a b c d") = 3%Z /\
  @analyze_sentiment ascii_text "good a b c d" = (0, 0)%Z /\
  @counted_average ascii_text "good a b c d" == 3 / 5.
Proof.
  split; [|split]; vm_compute; reflexivity.
Qed.

(** No emoji of the table is found in the empty text. *)
Lemma emoji_hits_empty : emoji_hits "" = [].
Proof. vm_compute. reflexivity. Qed.

(** The two results of the scorer in terms of the average over the counted
    tokens and the emoji found. *)
Lemma analyze_sentiment_counted `{Unicode} text :
  analyze_sentiment text
  = (Py.int (counted_average text),
     Py.int (Py.max (-5) (Py.min 5 (counted_average text)))).
Proof.
  destruct text as [|c s].
  - unfold analyze_sentiment, counted_average, total_score, counted_tokens.
    rewrite emoji_hits_empty. reflexivity.
  - unfold analyze_sentiment. cbn [Text.nonempty negb].
    cbv zeta. rewrite word_loop, emoji_loop.
    cbn [fst snd]. unfold counted_average, total_score, counted_tokens, emoji_hits.
    cbn [Text.nonempty]. rewrite Nat2Z.inj_add, !Z.add_0_l. reflexivity.
Qed.

(** C4 (amended): whatever the Unicode tables say of case, white space and
    word characters, the average divides the summed scores by the number of
    all tokens that are not empty once the characters outside [\w] are
    removed, matched by the lexicon or not, plus one for each emoji of the
    table found in the text; the scorer returns its truncation and the
    truncation of its clamping to [-5, 5]. *)
Theorem sentiment_average_over_counted_tokens `{Unicode} text :
  let word_count := (length (counted_tokens text) + length (emoji_hits text))%nat in
  let scored :=
    (zsum (map token_score (counted_tokens text)) + zsum (map snd (emoji_hits text)))%Z in
  let average :=
    if (0 <? word_count)%nat then inject_Z scored / Py.of_nat word_count else 0 in
  analyze_sentiment text = (Py.int average, Py.int (Py.max (-5) (Py.min 5 average))).
Proof.
  cbv zeta. rewrite analyze_sentiment_counted.
  unfold counted_average, total_score, Py.of_nat. cbv zeta.
  destruct (length (counted_tokens text) + length (emoji_hits text))%nat; reflexivity.
Qed.

(** ** Dictionary displays *)

Lemma fold_insert_lookup_other {V} (l : list (string * V)) (m : gmap string V) k :
  k ∉ map fst l ->
  fold_left (fun m kv => <[kv.1 := kv.2]> m) l m !! k = m !! k.
Proof.
  revert m. induction l as [|[k' v] l IH]; intros m Hk; [reflexivity|].
  cbn [fold_left map fst] in *. apply not_elem_of_cons in Hk as [Hne Hk].
  rewrite IH by assumption. apply lookup_insert_ne. congruence.
Qed.

(** A key that the display does not bind is absent from the dictionary. *)
Lemma dict_literal_lookup_None {V} (l : list (string * V)) k :
  k ∉ map fst l -> dict_literal l !! k = None.
Proof.
  intros Hk. unfold dict_literal. rewrite fold_insert_lookup_other by assumption.
  apply lookup_empty.
Qed.

(** ** The other prompts of the prompt manager *)

(** A dictionary has no binding outside the list of its keys. *)
Lemma lookup_None_by_keys {V} (m : gmap string V) (names : list string) level :
  forallb (fun k => bool_decide (k ∈ names)) (map fst (map_to_list m)) = true ->
  level ∉ names -> m !! level = None.
Proof.
  intros Hkeys Hl. destruct (m !! level) as [x|] eqn:E; [|reflexivity].
  exfalso. apply Hl. apply elem_of_map_to_list in E.
  rewrite forallb_forall in Hkeys.
  assert (Hin : In level (map fst (map_to_list m))).
  { apply in_map_iff. exists (level, x). split; [reflexivity|].
    now apply list_elem_of_In. }
  apply Hkeys in Hin. now apply bool_decide_eq_true in Hin.
Qed.

Lemma rule_unknown_level group names level attr dflt :
  levels_among group names = true -> level ∉ names ->
  rule group level attr dflt = dflt.
Proof.
  intros Hg Hl. unfold rule.
  rewrite (lookup_None_by_keys _ names level Hg Hl). reflexivity.
Qed.

Lemma rule_or_default group (names : list string) d0 o attr dflt :
  levels_among group names = true ->
  rule group d0 attr dflt = dflt ->
  rule group (default d0 o) attr dflt = rule group (or_default names d0 o) attr dflt.
Proof.
  intros Hg Hd. destruct o as [v|]; [|reflexivity]. cbn [default or_default].
  destruct (bool_decide (v ∈ names)) eqn:E; [reflexivity|].
  apply bool_decide_eq_false in E. rewrite Hd.
  now apply rule_unknown_level with names.
Qed.

Lemma complexity_levels_complete : levels_among "language_complexity" complexity_levels = true.
Proof. vm_compute. reflexivity. Qed.

Lemma style_levels_complete : levels_among "response_style" style_levels = true.
Proof. vm_compute. reflexivity. Qed.

Lemma detail_levels_complete : levels_among "detail_level" detail_levels = true.
Proof. vm_compute. reflexivity. Qed.

(** X1: a level that is absent, or that is not a key of the rule table of
    its parameter, yields the instructions of the default level: medium
    complexity, balanced style, medium detail. *)
Theorem context_of_unknown_levels params :
  _create_personalization_context params
  = _create_personalization_context (normalise params).
Proof.
  unfold _create_personalization_context, normalise.
  cbn [language_complexity response_style detail_level user_type engagement_level
       sentiment_preference].
  change (default "medium" (Some ?x)) with x.
  change (default "balanced" (Some ?x)) with x.
  rewrite <- !(rule_or_default "language_complexity" complexity_levels "medium"
                 (language_complexity params))
    by (exact complexity_levels_complete || (vm_compute; reflexivity)).
  rewrite <- !(rule_or_default "response_style" style_levels "balanced"
                 (response_style params))
    by (exact style_levels_complete || (vm_compute; reflexivity)).
  rewrite <- !(rule_or_default "detail_level" detail_levels "medium"
                 (detail_level params))
    by (exact detail_levels_complete || (vm_compute; reflexivity)).
  reflexivity.
Qed.

Lemma general_domain_context domain :
  domain ∉ special_domains ->
  default (default "" (domain_contexts !! "general")) (domain_contexts !! domain)
  = "You are a helpful AI assistant.".
Proof.
  intros Hd. destruct (decide (domain = "general")) as [->|Hg].
  - vm_compute. reflexivity.
  - rewrite (lookup_None_by_keys domain_contexts ("general" :: special_domains) domain).
    + vm_compute. reflexivity.
    + vm_compute. reflexivity.
    + intros Hin. apply elem_of_cons in Hin as [?|?]; contradiction.
Qed.

Lemma general_preamble params :
  default "general" (user_type params) ∉ special_user_types ->
  preamble params = "You are a helpful AI assistant. ".
Proof.
  intros Hu. unfold preamble, special_user_types in *. cbv zeta.
  repeat match goal with
         | |- context [String.eqb ?a ?b] =>
             destruct (String.eqb_spec a b) as [E|_];
             [exfalso; apply Hu; rewrite E; set_solver|]
         end.
  reflexivity.
Qed.

(** X2: for a domain without a text of its own (any domain but finance,
    healthcare, education and technology) and a user type without a
    template of its own, [adapt_prompt_for_domain] builds the very prompt
    that [enrich_prompt] builds. *)
Theorem adapt_for_general_domain base_prompt domain user_id params :
  domain ∉ special_domains ->
  default "general" (user_type params) ∉ special_user_types ->
  adapt_prompt_for_domain base_prompt domain params
  = enrich_prompt base_prompt user_id params.
Proof.
  intros Hd Hu. unfold adapt_prompt_for_domain, enrich_prompt. cbv zeta.
  rewrite general_domain_context, format_selected_template, general_preamble
    by assumption.
  reflexivity.
Qed.

Lemma adapt_for_general_domain_witness :
  adapt_prompt_for_domain "Hello" "cooking" no_params
  = enrich_prompt "Hello" "u" no_params.
Proof.
  apply adapt_for_general_domain.
  - vm_compute. intros H. repeat (apply elem_of_cons in H as [H|H]; [discriminate H|]).
    inversion H.
  - vm_compute. intros H. repeat (apply elem_of_cons in H as [H|H]; [discriminate H|]).
    inversion H.
Defined.

Lemma drop_last_five_twice {A} (l : list A) :
  drop (length (drop (length l - 5) l) - 5) (drop (length l - 5) l)
  = drop (length l - 5) l.
Proof.
  rewrite length_drop.
  replace (length l - (length l - 5) - 5)%nat with 0%nat by lia. reflexivity.
Qed.

Lemma drop_last_five_nonempty {A} (l : list A) :
  l <> [] -> drop (length l - 5) l <> [].
Proof.
  intros Hl Hd. apply (f_equal length) in Hd. rewrite length_drop in Hd.
  destruct l; [congruence|]. simpl in Hd. lia.
Qed.

(** X3: the conversation context depends on the last five turns of the
    history only; without history it is the line "Context: " followed by
    the personalization clause. *)
Theorem conversation_context_last_five user_id params (history : list Turn) :
  create_conversation_context user_id params history
  = create_conversation_context user_id params (drop (length history - 5) history) /\
  create_conversation_context user_id params []
  = "Context: " ++ _create_personalization_context params.
Proof.
  split; [|reflexivity].
  unfold create_conversation_context. cbv zeta.
  destruct history as [|t history]; [reflexivity|].
  pose proof (drop_last_five_nonempty (t :: history)) as Hne.
  pose proof (drop_last_five_twice (t :: history)) as Htw.
  destruct (drop (length (t :: history) - 5) (t :: history)) as [|t' recent] eqn:E.
  - exfalso. now apply Hne.
  - rewrite Htw. reflexivity.
Qed.

Lemma enrich_prompt_length base_prompt user_id params :
  String.length (enrich_prompt base_prompt user_id params)
  = (String.length (preamble params ++ _create_personalization_context params)
     + 20 + String.length base_prompt)%nat.
Proof.
  unfold enrich_prompt. cbv zeta. rewrite format_selected_template.
  generalize (preamble params) (_create_personalization_context params).
  intros a b. rewrite !string_length_app.
  change (String.length nl) with 1%nat.
  change (String.length "User: ") with 6%nat.
  change (String.length "Assistant:") with 10%nat. lia.
Qed.

Lemma of_nat_lt n m : (n < m)%nat -> Py.of_nat n < Py.of_nat m.
Proof. intros H. unfold Py.of_nat, Qlt. simpl. lia. Qed.

(** X4: the analytics of an enriched prompt report an enrichment ratio above
    1 and at least twenty added characters, for the empty base prompt as
    well, where the ratio divides by 1. *)
Theorem analytics_of_enriched_prompt base_prompt user_id params now :
  let analytics :=
    get_prompt_analytics base_prompt (enrich_prompt base_prompt user_id params) now in
  1 < enrichment_ratio analytics /\
  (20 <= additional_context_length analytics)%Z.
Proof.
  cbv zeta. unfold get_prompt_analytics.
  cbn [enrichment_ratio additional_context_length].
  rewrite enrich_prompt_length.
  set (a := String.length (preamble params ++ _create_personalization_context params)).
  set (n := String.length base_prompt).
  split; [|lia].
  apply Qlt_shift_div_l.
  - apply (of_nat_lt 0). lia.
  - rewrite Qmult_1_l. apply of_nat_lt. lia.
Qed.

(** ** Range of the sentiment scores *)

Lemma int_proper a b : a == b -> Py.int a = Py.int b.
Proof.
  unfold Qeq, Py.int. destruct a as [n1 d1], b as [n2 d2]. simpl. intros E.
  rewrite <- (Z.quot_mul_cancel_r n1 (Z.pos d1) (Z.pos d2)) by lia.
  rewrite <- (Z.quot_mul_cancel_r n2 (Z.pos d2) (Z.pos d1)) by lia.
  rewrite E. f_equal. lia.
Qed.

Lemma int_on_scale a : -5 <= a -> a <= 5 -> (-5 <= Py.int a <= 5)%Z.
Proof.
  unfold Qle, Py.int. destruct a as [n d]. simpl. intros Hlo Hhi. split.
  - assert (H : ((-5 * Z.pos d) ÷ Z.pos d <= n ÷ Z.pos d)%Z)
      by (apply Z.quot_le_mono; lia).
    rewrite Z.quot_mul in H by lia. exact H.
  - assert (H : (n ÷ Z.pos d <= (5 * Z.pos d) ÷ Z.pos d)%Z)
      by (apply Z.quot_le_mono; lia).
    rewrite Z.quot_mul in H by lia. exact H.
Qed.

Lemma clamp_on_scale a : -5 <= a -> a <= 5 -> Py.max (-5) (Py.min 5 a) == a.
Proof.
  intros Hlo Hhi. unfold Py.max, Py.min.
  destruct (Py.ltb a 5) eqn:E1.
  - destruct (Py.ltb (-5) a) eqn:E2; [reflexivity|]. apply ltb_ge in E2. lra.
  - apply ltb_ge in E1. destruct (Py.ltb (-5) 5) eqn:E2; [lra|].
    apply ltb_ge in E2. lra.
Qed.

Lemma zsum_on_scale (l : list Z) :
  forallb on_scale l = true ->
  (-5 * Z.of_nat (length l) <= zsum l <= 5 * Z.of_nat (length l))%Z.
Proof.
  induction l as [|z l IH]; intros H; [simpl; lia|].
  cbn [forallb] in H. apply andb_true_iff in H as [Hz Hl].
  unfold on_scale in Hz. specialize (IH Hl).
  unfold zsum in *. cbn [fold_right length]. lia.
Qed.

Lemma lexicon_on_scale :
  forallb on_scale (map snd (map_to_list sentiment_tokens)) = true.
Proof. vm_compute. reflexivity. Qed.

Lemma emoji_on_scale : forallb on_scale (map snd emoji_sentiment) = true.
Proof. vm_compute. reflexivity. Qed.

Lemma token_score_on_scale w : on_scale (token_score w) = true.
Proof.
  unfold token_score. destruct (sentiment_tokens !! w) as [v|] eqn:E; [|reflexivity].
  apply elem_of_map_to_list in E. cbn [default].
  pose proof lexicon_on_scale as H. rewrite forallb_forall in H. apply H.
  apply list_elem_of_In in E. exact (in_map snd _ (w, v) E).
Qed.

Lemma forallb_map_filter {A} (f : A -> bool) (g : A -> Z) (l : list A) :
  forallb on_scale (map g l) = true ->
  forallb on_scale (map g (List.filter f l)) = true.
Proof.
  induction l as [|a l IH]; [reflexivity|]. cbn [map forallb List.filter].
  intros H. apply andb_true_iff in H as [Ha Hl].
  destruct (f a); cbn [map forallb]; rewrite ?Ha; auto.
Qed.

Lemma forallb_token_scores (l : list string) :
  forallb on_scale (map token_score l) = true.
Proof.
  induction l as [|w l IH]; [reflexivity|]. cbn [map forallb].
  now rewrite token_score_on_scale.
Qed.

Lemma emoji_hits_on_scale text : forallb on_scale (map snd (emoji_hits text)) = true.
Proof. unfold emoji_hits. apply forallb_map_filter. exact emoji_on_scale. Qed.

Lemma total_score_on_scale `{Unicode} text :
  let n := Z.of_nat (length (counted_tokens text) + length (emoji_hits text)) in
  (-5 * n <= total_score text <= 5 * n)%Z.
Proof.
  cbv zeta. unfold total_score.
  pose proof (zsum_on_scale (map token_score (counted_tokens text))
                (forallb_token_scores (counted_tokens text))) as Ht.
  pose proof (zsum_on_scale (map snd (emoji_hits text)) (emoji_hits_on_scale text)) as He.
  rewrite !length_map in Ht, He. lia.
Qed.

Lemma counted_average_on_scale `{Unicode} text :
  -5 <= counted_average text /\ counted_average text <= 5.
Proof.
  unfold counted_average. cbv zeta.
  pose proof (total_score_on_scale text) as Ht. cbv zeta in Ht.
  set (n := Z.of_nat (length (counted_tokens text) + length (emoji_hits text))) in *.
  destruct (n >? 0)%Z eqn:E; [|lra].
  assert (Hn : 0 < inject_Z n) by (unfold Qlt; simpl; lia).
  split.
  - apply Qle_shift_div_l; [exact Hn|]. unfold Qle. simpl. lia.
  - apply Qle_shift_div_r; [exact Hn|]. unfold Qle. simpl. lia.
Qed.

(** X5: for every text the two results of the sentiment scorer are the
    same integer, and it lies between -5 and 5. *)
Theorem sentiment_scores_equal_on_scale `{Unicode} text :
  (analyze_sentiment text).1 = (analyze_sentiment text).2 /\
  (-5 <= (analyze_sentiment text).1 <= 5)%Z.
Proof.
  rewrite analyze_sentiment_counted. cbn [fst snd].
  destruct (counted_average_on_scale text) as [Hlo Hhi]. split.
  - symmetry. apply int_proper. now apply clamp_on_scale.
  - now apply int_on_scale.
Qed.

(** ** Complexity under the weights the constructor accepts *)

Lemma init_weights a b self :
  init a b = Some self ->
  asl_weight self = a /\ ttr_weight self = b /\ Py.abs (a + b - 1) <= 0.01.
Proof.
  unfold init. destruct (Py.ltb 0.01 (Py.abs (a + b - 1))) eqn:E; [discriminate|].
  intros [= <-]. apply ltb_ge in E. repeat split. exact E.
Qed.

Lemma abs_bound q e : Py.abs q <= e -> q <= e.
Proof.
  unfold Py.abs. destruct (Py.ltb q 0) eqn:E; [|auto].
  apply ltb_lt in E. intros H. lra.
Qed.

(** X6: an analyzer that the constructor accepted with weights that are not
    negative gives every text a complexity score between 0 and 1.01. *)
Theorem accepted_weights_score a b self text :
  init a b = Some self -> 0 <= a -> 0 <= b ->
  0 <= (analyze_complexity self text).2 /\ (analyze_complexity self text).2 <= 1.01.
Proof.
  intros Hinit Ha Hb. destruct (init_weights a b self Hinit) as (Ea & Eb & Habs).
  apply abs_bound in Habs. unfold analyze_complexity.
  destruct (negb (Text.nonempty text)); cbn [snd]; [lra|].
  rewrite Ea, Eb.
  destruct (clamp_in_unit ((Py.of_nat (calculate_average_sentence_length text) - 5) / 20))
    as [Hn0 Hn1].
  destruct (type_token_ratio_in_unit text) as [Ht0 Ht1].
  split; nra.
Qed.

Lemma accepted_weights_score_witness :
  exists self,
    init 0.5 (129 # 256) = Some self /\
    0 <= (analyze_complexity self "A cat. A dog!").2 /\
    (analyze_complexity self "A cat. A dog!").2 <= 1.01.
Proof.
  eexists. split; [reflexivity|].
  apply (accepted_weights_score 0.5 (129 # 256)).
  - reflexivity.
  - discriminate.
  - discriminate.
Defined.

(** ** The type-token ratio *)







(** ** Events and the other users *)

Lemma learning_lookup_ne `{External} self user_id now k :
  k <> user_id ->
  user_profiles (_update_cross_session_learning self user_id now) !! k
  = user_profiles self !! k.
Proof.
  intros Hne. unfold _update_cross_session_learning.
  destruct (CrossSessionLearner.analyze_user_patterns _ _ _ _) as [[cache [a|]]|];
    [|reflexivity..].
  cbn [user_profiles]. destruct (user_profiles self !! user_id); [|reflexivity].
  apply lookup_insert_ne. congruence.
Qed.

Lemma analyze_cache_ne `{External} cache user_id profiles now cache' result k :
  CrossSessionLearner.analyze_user_patterns cache user_id profiles now
  = Some (cache', result) ->
  k <> user_id -> cache' !! k = cache !! k.
Proof.
  unfold CrossSessionLearner.analyze_user_patterns. intros Ha Hne.
  destruct (profiles !! user_id) as [p|]; [|now injection Ha as <- _].
  destruct (session_history p); [now injection Ha as <- _|].
  destruct (CrossSessionLearner._analyze_timing_patterns p now); [|discriminate].
  destruct (CrossSessionLearner._analyze_engagement_patterns p); [|discriminate].
  destruct (CrossSessionLearner._analyze_communication_patterns p); [|discriminate].
  destruct (CrossSessionLearner._analyze_feedback_patterns p); [|discriminate].
  cbn in Ha. injection Ha as <- _. apply lookup_insert_ne. congruence.
Qed.

Lemma learning_cache_ne `{External} self user_id now k :
  k <> user_id ->
  pattern_cache (_update_cross_session_learning self user_id now) !! k
  = pattern_cache self !! k.
Proof.
  intros Hne. unfold _update_cross_session_learning.
  destruct (CrossSessionLearner.analyze_user_patterns _ _ _ _) as [[cache a]|] eqn:E;
    [|reflexivity].
  cbn [pattern_cache]. now apply analyze_cache_ne with (k := k) in E.
Qed.

Lemma learning_same_at `{External} self user_id now k :
  k <> user_id -> same_at k (_update_cross_session_learning self user_id now) self.
Proof.
  intros Hne. repeat split.
  - now apply learning_lookup_ne.
  - now rewrite learning_history.
  - now apply learning_cache_ne.
Qed.

Lemma get_or_create_same_at self user_id now k :
  k <> user_id -> same_at k (get_or_create self user_id now).1 self.
Proof.
  intros Hne. unfold get_or_create, same_at.
  destruct (get_user_profile self user_id); [repeat split|]. cbn.
  rewrite !lookup_insert_ne by congruence. repeat split.
Qed.

Lemma recorded_same_at self user_id profile update_type data now k :
  k <> user_id ->
  same_at k (_record_profile_update (store_profile self user_id profile)
                                    user_id update_type data now) self.
Proof.
  intros Hne. unfold same_at. cbn.
  rewrite !lookup_insert_ne by congruence. repeat split.
Qed.

Lemma same_at_trans k a b c : same_at k a b -> same_at k b c -> same_at k a c.
Proof.
  intros (A1 & A2 & A3) (B1 & B2 & B3). repeat split; congruence.
Qed.

Lemma event_same_at `{External} self ev now k :
  k <> event_user ev -> same_at k (process_event self (ev, now)) self.
Proof.
  intros Hne. unfold process_event. destruct ev as [pd|fd|u sd]; cbn in *.
  - unfold update_profile_from_prompt.
    pose proof (get_or_create_same_at self (Prompt.user_id pd) now k Hne) as G.
    destruct (get_or_create self _ now) as [self' profile]; cbn in G.
    eapply same_at_trans; [now apply learning_same_at|].
    eapply same_at_trans; [now apply recorded_same_at|]. exact G.
  - unfold update_profile_from_feedback.
    pose proof (get_or_create_same_at self (Feedback.user_id fd) now k Hne) as G.
    destruct (get_or_create self _ now) as [self' profile]; cbn in G.
    eapply same_at_trans; [now apply learning_same_at|].
    eapply same_at_trans; [now apply recorded_same_at|]. exact G.
  - unfold update_profile_from_session.
    destruct (get_user_profile self u) as [p|]; cbn; [|repeat split].
    eapply same_at_trans; [now apply learning_same_at|].
    unfold same_at. cbn. rewrite lookup_insert_ne by congruence. repeat split.
Qed.

(** X8: an event about one user changes nothing for any other user: the
    profile, the audit trail and the cached insights of every other user are
    after the event what they were before. *)
Theorem events_leave_other_users `{External} self ev now k :
  k <> event_user ev -> same_at k (process_event self (ev, now)) self.
Proof. apply event_same_at. Qed.

Lemma events_leave_other_users_witness :
  same_at "v"
    (@process_event utc_host
       (@process_event utc_host UserProfiler.init
          (FeedbackEvent (positive_feedback "v"), 0%Z))
       (MessageEvent (message "Hello there" 0 1000 2000), 5%Z))
    (@process_event utc_host UserProfiler.init
       (FeedbackEvent (positive_feedback "v"), 0%Z)).
Proof.
  apply (@events_leave_other_users utc_host). discriminate.
Defined.

(** ** What the three updates keep of a profile *)

Ltac in_values :=
  unfold complexity_values, detail_values, style_values;
  repeat constructor.

Lemma profile_ok_insights key i p :
  profile_ok key p -> profile_ok key (set_cross_session_insights i p).
Proof. intros []. constructor; assumption. Qed.

Lemma new_profile_ok key now : profile_ok key (new_profile key now).
Proof. constructor; cbn; try reflexivity; try in_values. lra. Qed.

Lemma language_analysis_ok key p analysis :
  profile_ok key p -> profile_ok key (_update_profile_from_language_analysis p analysis).
Proof.
  intros []. unfold _update_profile_from_language_analysis. cbv zeta.
  case_ifs; constructor; cbn; try assumption; in_values.
Qed.

Lemma metrics_typing_speed_nonneg p prompt_data :
  0 <= average_typing_speed p ->
  0 <= average_typing_speed (_update_profile_metrics p prompt_data).
Proof.
  intros H0. rewrite typing_speed_cases.
  destruct (_ - _ >? 0)%Z eqn:Ed; [|exact H0].
  destruct (len _ >? 0)%Z; [|exact H0]. cbn [andb].
  assert (Hv : 0 <= typing_speed_of prompt_data) by (apply typing_speed_nonneg; lia).
  apply Qle_shift_div_l; lra.
Qed.

Lemma metrics_other_fields p prompt_data :
  let p' := _update_profile_metrics p prompt_data in
  user_id p' = user_id p /\ total_sessions p' = total_sessions p /\
  preferred_language_complexity p' = preferred_language_complexity p /\
  preferred_response_style p' = preferred_response_style p /\
  (preferred_detail_level p' = preferred_detail_level p
   \/ preferred_detail_level p' ∈ detail_values).
Proof.
  unfold _update_profile_metrics. cbv zeta.
  case_ifs; cbn; repeat split; first [now left | right; in_values].
Qed.

Lemma metrics_ok key p prompt_data :
  profile_ok key p -> profile_ok key (_update_profile_metrics p prompt_data).
Proof.
  intros Hok.
  destruct (metrics_other_fields p prompt_data) as (E1 & E2 & E3 & E4 & E5).
  destruct (metrics_keep_history p prompt_data) as (H1 & H2 & _).
  pose proof (metrics_typing_speed_nonneg p prompt_data (ok_typing_speed _ _ Hok)) as Hs.
  destruct Hok. constructor; rewrite ?E1, ?E2, ?E3, ?E4, ?H1, ?H2; try assumption.
  destruct E5 as [-> | ?]; assumption.
Qed.

Lemma updated_at_ok key now p : profile_ok key p -> profile_ok key (set_updated_at now p).
Proof. intros []. constructor; assumption. Qed.

Lemma apply_prompt_ok `{External} key p prompt_data now :
  profile_ok key p -> profile_ok key (apply_prompt p prompt_data now).
Proof.
  intros Hok. unfold apply_prompt. cbv zeta.
  apply updated_at_ok, metrics_ok.
  destruct (Text.nonempty _); [now apply language_analysis_ok | exact Hok].
Qed.

Lemma detail_up_in_values d : d ∈ detail_values -> detail_up d ∈ detail_values.
Proof.
  unfold detail_values. intros Hd.
  repeat (apply elem_of_cons in Hd as [-> | Hd]); try (inversion Hd; fail);
    vm_compute; repeat constructor.
Qed.

Lemma detail_down_in_values d : d ∈ detail_values -> detail_down d ∈ detail_values.
Proof.
  unfold detail_values. intros Hd.
  repeat (apply elem_of_cons in Hd as [-> | Hd]); try (inversion Hd; fail);
    vm_compute; repeat constructor.
Qed.

Lemma apply_feedback_other_fields p feedback_data now :
  let p' := apply_feedback p feedback_data now in
  user_id p' = user_id p /\ total_sessions p' = total_sessions p /\
  preferred_language_complexity p' = preferred_language_complexity p /\
  preferred_response_style p' = preferred_response_style p /\
  average_typing_speed p' = average_typing_speed p.
Proof.
  unfold apply_feedback, _update_personalization_from_feedback. cbv zeta.
  destruct (String.eqb (Feedback.feedback_type feedback_data) "positive");
    [|destruct (String.eqb (Feedback.feedback_type feedback_data) "negative")];
    simpl; case_ifs; repeat split.
Qed.

Lemma apply_feedback_ok key p feedback_data now :
  profile_ok key p -> profile_ok key (apply_feedback p feedback_data now).
Proof.
  intros Hok.
  destruct (apply_feedback_other_fields p feedback_data now) as (E1 & E2 & E3 & E4 & E5).
  destruct (apply_feedback_keeps_sessions p feedback_data now) as (H1 & _).
  pose proof (feedback_detail_level p feedback_data now) as Hd.
  pose proof (apply_feedback_history p feedback_data now) as Hf.
  destruct Hok.
  constructor; rewrite ?E1, ?E2, ?E3, ?E4, ?E5, ?H1; try assumption.
  - rewrite Hd. case_ifs;
      [now apply detail_up_in_values | now apply detail_down_in_values | assumption].
  - rewrite Hf. apply Forall_app. split; [assumption|]. cbv zeta.
    assert (R : forall ty, recorded_feedback (feedback_record ty feedback_data now))
      by (intros ty; exists ty, feedback_data, now; left; reflexivity).
    assert (E : recorded_feedback (feedback_entry feedback_data now))
      by (exists "", feedback_data, now; right; reflexivity).
    case_ifs;
      repeat (constructor;
              [match goal with
               | |- recorded_feedback (feedback_record _ _ _) => apply R
               | |- recorded_feedback (feedback_entry _ _) => exact E
               end|]);
      constructor.
Qed.

Lemma apply_session_fields p session_data now :
  let p' := apply_session p session_data now in
  user_id p' = user_id p /\
  total_sessions p' = (total_sessions p + 1)%Z /\
  session_history p' = app (session_history p) [session_entry session_data] /\
  feedback_history p' = feedback_history p /\
  preferred_language_complexity p' = preferred_language_complexity p /\
  preferred_response_style p' = preferred_response_style p /\
  preferred_detail_level p' = preferred_detail_level p /\
  average_typing_speed p' = average_typing_speed p /\
  cross_session_insights p' = cross_session_insights p /\
  updated_at p' = now /\ created_at p' = created_at p.
Proof.
  unfold apply_session. cbv zeta. case_ifs; cbn; repeat split.
Qed.

Lemma apply_session_ok key p session_data now :
  profile_ok key p -> profile_ok key (apply_session p session_data now).
Proof.
  intros Hok.
  destruct (apply_session_fields p session_data now)
    as (E1 & E2 & E3 & E4 & E5 & E6 & E7 & E8 & _).
  destruct Hok.
  constructor; rewrite ?E1, ?E2, ?E3, ?E4, ?E5, ?E6, ?E7, ?E8; try assumption.
  - rewrite length_app. cbn [length]. lia.
  - apply Forall_app. split; [assumption|]. repeat constructor. now exists session_data.
Qed.

Lemma session_lookup `{External} self user_id session_data now p :
  user_profiles self !! user_id = Some p ->
  exists i,
    let result := update_profile_from_session self user_id session_data now in
    let p' := set_cross_session_insights i (apply_session p session_data now) in
    user_profiles result.1 !! user_id = Some p' /\ result.2 = Some p'.
Proof.
  intros Hp. unfold update_profile_from_session, get_user_profile. rewrite Hp.
  cbv zeta. cbn [fst snd].
  match goal with
  | |- context [_update_cross_session_learning ?s ?u ?n] =>
      pose proof (learning_lookup s u n u) as L
  end.
  cbn in L. rewrite lookup_insert_eq in L. destruct L as [i Hi].
  exists i. split; exact Hi.
Qed.

Lemma init_registry_ok : registry_ok UserProfiler.init.
Proof. intros k p Hk. cbn in Hk. rewrite lookup_empty in Hk. discriminate Hk. Qed.

Lemma found_profile_ok self user_id now :
  registry_ok self -> profile_ok user_id (found_profile self user_id now).
Proof.
  intros Hok. unfold found_profile.
  destruct (user_profiles self !! user_id) as [p|] eqn:E; cbn.
  - now apply Hok.
  - apply new_profile_ok.
Qed.

Lemma process_event_ok `{External} self ev now :
  registry_ok self -> registry_ok (process_event self (ev, now)).
Proof.
  intros Hok k p Hk.
  destruct (decide (k = event_user ev)) as [->|Hne].
  - unfold process_event in Hk. destruct ev as [pd|fd|u sd]; cbn in *.
    + destruct (prompt_lookup self pd now) as [i Hi]. rewrite Hi in Hk.
      injection Hk as <-. now apply profile_ok_insights, apply_prompt_ok, found_profile_ok.
    + destruct (feedback_lookup self fd now) as [i Hi]. rewrite Hi in Hk.
      injection Hk as <-.
      now apply profile_ok_insights, apply_feedback_ok, found_profile_ok.
    + destruct (user_profiles self !! u) as [q|] eqn:Eq.
      * destruct (session_lookup self u sd now q Eq) as [i [Hi _]].
        rewrite Hi in Hk. injection Hk as <-.
        apply profile_ok_insights, apply_session_ok. now apply Hok.
      * unfold update_profile_from_session, get_user_profile in Hk.
        rewrite Eq in Hk. cbn in Hk. congruence.
  - destruct (event_same_at self ev now k Hne) as [E _].
    rewrite E in Hk. now apply Hok.
Qed.

Lemma process_events_ok `{External} self events :
  registry_ok self -> registry_ok (process_events self events).
Proof.
  revert self. induction events as [|[ev now] events IH]; intros self Hok; [exact Hok|].
  cbn. apply IH. now apply process_event_ok.
Qed.

(** X9: in a profiler that started empty, after any sequence of message,
    feedback and session-end events every stored profile carries the user
    id it is stored under, its [total_sessions] is the number of entries of
    its [session_history], and its average typing speed is not negative. *)
Theorem profiles_consistent `{External} events key p :
  user_profiles (process_events UserProfiler.init events) !! key = Some p ->
  user_id p = key /\
  total_sessions p = Z.of_nat (length (session_history p)) /\
  0 <= average_typing_speed p.
Proof.
  intros Hp. destruct (process_events_ok _ events init_registry_ok _ _ Hp).
  repeat split; assumption.
Qed.

Lemma profiles_consistent_witness :
  match user_profiles
          (@process_events utc_host UserProfiler.init
             [(MessageEvent (message "Hello there" 0 1000 2000), 5%Z);
              (SessionEndEvent "u" (session_of (Some "completed") 60000), 9%Z)])
          !! "u" with
  | Some p =>
      user_id p = "u" /\
      total_sessions p = Z.of_nat (length (session_history p)) /\
      0 <= average_typing_speed p
  | None => False
  end.
Proof.
  destruct (user_profiles _ !! "u") as [p|] eqn:E.
  - exact (@profiles_consistent utc_host _ "u" p E).
  - vm_compute in E. discriminate E.
Defined.

(** X10: in a profiler that started empty, after any sequence of events the
    three preferences of every stored profile stay within the values the
    updates assign: simple, medium or complex; concise, medium or detailed;
    conversational, professional or enthusiastic (never the "balanced" of
    the schema). *)
Theorem preferences_within_values `{External} events key p :
  user_profiles (process_events UserProfiler.init events) !! key = Some p ->
  preferred_language_complexity p ∈ complexity_values /\
  preferred_detail_level p ∈ detail_values /\
  preferred_response_style p ∈ style_values.
Proof.
  intros Hp. destruct (process_events_ok _ events init_registry_ok _ _ Hp).
  repeat split; assumption.
Qed.

Lemma preferences_within_values_witness :
  match user_profiles
          (@process_events utc_host UserProfiler.init
             [(MessageEvent (message "Hello there" 0 1000 2000), 5%Z);
              (FeedbackEvent (negative_feedback "u"), 7%Z)])
          !! "u" with
  | Some p =>
      preferred_language_complexity p ∈ complexity_values /\
      preferred_detail_level p ∈ detail_values /\
      preferred_response_style p ∈ style_values
  | None => False
  end.
Proof.
  destruct (user_profiles _ !! "u") as [p|] eqn:E.
  - exact (@preferences_within_values utc_host _ "u" p E).
  - vm_compute in E. discriminate E.
Defined.

(** ** The detail level after a message *)




(** ** The audit trail *)

Lemma get_or_create_trail self user_id now :
  audit_trail (get_or_create self user_id now).1 user_id
  = match user_profiles self !! user_id with
    | Some _ => audit_trail self user_id
    | None => []
    end.
Proof.
  unfold get_or_create, audit_trail, get_user_profile.
  destruct (user_profiles self !! user_id); [reflexivity|]. cbn.
  now rewrite lookup_insert_eq.
Qed.

Lemma recorded_trail `{External} self user_id profile update_type data now :
  audit_trail
    (_update_cross_session_learning
       (_record_profile_update (store_profile self user_id profile)
                               user_id update_type data now) user_id now) user_id
  = app (audit_trail self user_id) [audit_record update_type data now].
Proof.
  unfold audit_trail at 1. rewrite learning_history. cbn.
  now rewrite lookup_insert_eq.
Qed.

(** X12: a message or feedback event appends one record, holding the whole
    event, to the audit trail of its user, which starts afresh when the user
    had no profile; a session-end event leaves every audit trail as it
    was. *)
Theorem audit_trail_growth `{External} self now :
  (forall prompt_data,
     let user_id := Prompt.user_id prompt_data in
     audit_trail (update_profile_from_prompt self prompt_data now) user_id
     = app (match user_profiles self !! user_id with
            | Some _ => audit_trail self user_id
            | None => []
            end)
           [audit_record "prompt_update" (VPrompt prompt_data) now]) /\
  (forall feedback_data,
     let user_id := Feedback.user_id feedback_data in
     audit_trail (update_profile_from_feedback self feedback_data now) user_id
     = app (match user_profiles self !! user_id with
            | Some _ => audit_trail self user_id
            | None => []
            end)
           [audit_record "feedback_update" (VFeedback feedback_data) now]) /\
  (forall user_id session_data,
     profile_update_history (update_profile_from_session self user_id session_data now).1
     = profile_update_history self).
Proof.
  repeat split.
  - intros pd. cbv zeta. unfold update_profile_from_prompt.
    rewrite <- (get_or_create_trail self (Prompt.user_id pd) now).
    destruct (get_or_create self _ now) as [self' profile]. cbn [fst].
    apply recorded_trail.
  - intros fd. cbv zeta. unfold update_profile_from_feedback.
    rewrite <- (get_or_create_trail self (Feedback.user_id fd) now).
    destruct (get_or_create self _ now) as [self' profile]. cbn [fst].
    apply recorded_trail.
  - intros u sd. unfold update_profile_from_session.
    destruct (get_user_profile self u); [|reflexivity]. cbn [fst].
    now rewrite learning_history.
Qed.

(** ** Deleting a profile *)

(** X13: deleting a user without a profile changes nothing and returns
    false; deleting a user with a profile returns true, removes the profile,
    the audit trail and the cached insights of that user and keeps the
    profiles and audit trails of the others; the cached insights of the
    others are kept too, unless the deleted user id is the empty string, in
    which case the whole cache is emptied. *)
Theorem delete_user_profile_effect self user_id :
  (user_profiles self !! user_id = None ->
   delete_user_profile self user_id = (self, false)) /\
  (is_Some (user_profiles self !! user_id) ->
   let self' := (delete_user_profile self user_id).1 in
   (delete_user_profile self user_id).2 = true /\
   get_user_profile self' user_id = None /\
   profile_update_history self' !! user_id = None /\
   get_user_insights self' user_id = None /\
   (forall k, k <> user_id ->
      user_profiles self' !! k = user_profiles self !! k /\
      profile_update_history self' !! k = profile_update_history self !! k) /\
   (user_id <> "" ->
    forall k, k <> user_id -> pattern_cache self' !! k = pattern_cache self !! k) /\
   (user_id = "" -> pattern_cache self' = ∅)).
Proof.
  unfold delete_user_profile, get_user_profile, get_user_insights. split.
  - intros ->. reflexivity.
  - intros [p ->]. cbn. repeat split.
    + apply lookup_delete_eq.
    + apply lookup_delete_eq.
    + destruct (Text.nonempty user_id); [apply lookup_delete_eq | apply lookup_empty].
    + now apply lookup_delete_ne.
    + now apply lookup_delete_ne.
    + intros Hne k Hk. destruct user_id; [congruence|]. cbn.
      now apply lookup_delete_ne.
    + intros ->. reflexivity.
Qed.

Lemma delete_user_profile_effect_witness :
  let self := (create_user_profile UserProfiler.init "u" 0).1 in
  (delete_user_profile self "u").2 = true /\
  get_user_profile (delete_user_profile self "u").1 "u" = None.
Proof.
  destruct (proj2 (delete_user_profile_effect
                     (create_user_profile UserProfiler.init "u" 0).1 "u"))
    as (H1 & H2 & _).
  - eexists. reflexivity.
  - split; [exact H1 | exact H2].
Defined.

(** ** A session of a known user *)

Lemma apply_session_duration p session_data now :
  let d := default 0%Z (Session.session_duration session_data) in
  average_session_duration (apply_session p session_data now)
  = if (d =? 0)%Z then average_session_duration p
    else if Py.ltb 0 (average_session_duration p)
         then (average_session_duration p + inject_Z d) / 2
         else inject_Z d.
Proof.
  cbv zeta. unfold apply_session. cbv zeta.
  assert (Ht : truthy (of_option of_Z (Session.session_duration session_data))
               = negb (default 0 (Session.session_duration session_data) =? 0)%Z).
  { destruct (Session.session_duration session_data) as [d|]; [|reflexivity].
    unfold truthy, of_Z, Py.eqb, Qeq_bool. cbn. f_equal. destruct d; reflexivity. }
  rewrite Ht. destruct (_ =? 0)%Z; cbn [negb];
    cbn -[Qdiv Qplus Py.ltb inject_Z truthy]; case_ifs; reflexivity.
Qed.

(** X14: a session-end event of a user with a profile returns the stored
    profile; that profile has one more session entry, the one built from the
    event, and [total_sessions] one higher, keeps [created_at] and carries
    the instant of the event as [updated_at]; a duration of zero, as an
    absent one, leaves [average_session_duration] as it was, any other
    duration [d] replaces an average that is positive by its mean with [d]
    and any other average by [d]. *)
Theorem session_of_known_user `{External} self user_id session_data now p :
  user_profiles self !! user_id = Some p ->
  let result := update_profile_from_session self user_id session_data now in
  let d := default 0%Z (Session.session_duration session_data) in
  exists p',
    result.2 = Some p' /\ user_profiles result.1 !! user_id = Some p' /\
    session_history p' = app (session_history p) [session_entry session_data] /\
    total_sessions p' = (total_sessions p + 1)%Z /\
    created_at p' = created_at p /\ updated_at p' = now /\
    average_session_duration p'
    = if (d =? 0)%Z then average_session_duration p
      else if Py.ltb 0 (average_session_duration p)
           then (average_session_duration p + inject_Z d) / 2
           else inject_Z d.
Proof.
  intros Hp. destruct (session_lookup self user_id session_data now p Hp)
    as (i & Hl & Hr).
  cbv zeta. eexists. split; [exact Hr|]. split; [exact Hl|].
  destruct (apply_session_fields p session_data now)
    as (_ & E2 & E3 & _ & _ & _ & _ & _ & _ & E10 & E11).
  repeat split; try assumption.
  apply apply_session_duration.
Qed.

Lemma session_of_known_user_witness :
  let self := (create_user_profile UserProfiler.init "u" 0).1 in
  exists p',
    (@update_profile_from_session utc_host self "u"
       (session_of (Some "completed") 60000) 9).2 = Some p' /\
    total_sessions p' = 1%Z.
Proof.
  destruct (@session_of_known_user utc_host
              (create_user_profile UserProfiler.init "u" 0).1 "u"
              (session_of (Some "completed") 60000) 9%Z (new_profile "u" 0))
    as (p' & Hr & _ & _ & Ht & _).
  - reflexivity.
  - exists p'. split; [exact Hr | exact Ht].
Defined.

(** ** The analysis of recorded histories *)

Lemma nums_numbers l : Forall is_number l -> is_Some (nums l).
Proof.
  unfold nums. induction 1 as [|v l [q ->] _ [qs IH]]; [now eexists|].
  cbn. rewrite IH. now eexists.
Qed.

Lemma np_mean_numbers l : Forall is_number l -> is_Some (np_mean l).
Proof.
  intros Hl. unfold np_mean. destruct (nums_numbers l Hl) as [qs ->]. now eexists.
Qed.

Lemma filter_numbers f l : Forall is_number l -> Forall is_number (List.filter f l).
Proof.
  induction 1 as [|v l Hv _ IH]; [constructor|]. cbn.
  destruct (f v); [constructor|]; assumption.
Qed.

Lemma session_entry_duration session_data :
  get_or (session_entry session_data) "duration" (of_Z 0)
  = of_option of_Z (Session.session_duration session_data).
Proof. reflexivity. Qed.

Lemma session_entry_start_time session_data :
  get (session_entry session_data) "start_time"
  = of_option of_Z (Session.session_start session_data) /\
  get_or (session_entry session_data) "start_time" (of_Z 0)
  = of_option of_Z (Session.session_start session_data).
Proof. split; reflexivity. Qed.

Lemma timed_duration s : timed_session s -> is_number (get_or s "duration" (of_Z 0)).
Proof.
  intros (sd & -> & [d Hd]). rewrite session_entry_duration, Hd. now eexists.
Qed.

Lemma timed_recorded sessions :
  Forall timed_session sessions -> Forall recorded_session sessions.
Proof.
  intros Hs. eapply Forall_impl; [exact Hs|]. intros s (sd & -> & _). now exists sd.
Qed.

Lemma durations_numbers sessions :
  Forall timed_session sessions ->
  Forall is_number (CrossSessionLearner.durations_of sessions).
Proof.
  unfold CrossSessionLearner.durations_of.
  induction 1 as [|s l Hs _ IH]; [constructor|]. cbn [map].
  constructor; [now apply timed_duration | exact IH].
Qed.

(** The sessions with a start time hold a number as start time. *)
Lemma started_sessions l :
  Forall timed_session l ->
  Forall (fun s => timed_session s /\ is_number (get_or s "start_time" (of_Z 0)))
         (List.filter (fun s => truthy (get s "start_time")) l).
Proof.
  induction 1 as [|s l Hs _ IH]; [constructor|]. cbn [List.filter].
  destruct (truthy (get s "start_time")) eqn:Et; [|exact IH].
  constructor; [|exact IH]. split; [exact Hs|].
  destruct Hs as (sd & -> & _). destruct (session_entry_start_time sd) as [E1 E2].
  rewrite E1 in Et. rewrite E2.
  destruct (Session.session_start sd); [now eexists | discriminate Et].
Qed.

Lemma insert_desc_started x l :
  timed_session x /\ is_number (get_or x "start_time" (of_Z 0)) ->
  Forall (fun s => timed_session s /\ is_number (get_or s "start_time" (of_Z 0))) l ->
  exists l', insert_desc (fun x => get_or x "start_time" (of_Z 0)) x l = Some l' /\
             Forall (fun s => timed_session s /\
                              is_number (get_or s "start_time" (of_Z 0))) l'.
Proof.
  intros Hx Hl.
  induction Hl as [|y l Hy Hl IH]; [eexists; split; [reflexivity|]; now constructor|].
  cbn [insert_desc]. cbv beta.
  destruct (proj2 Hx) as [qx Ex], (proj2 Hy) as [qy Ey]. rewrite Ex, Ey.
  cbn [lt]. destruct (Py.ltb qx qy).
  - destruct IH as (l' & -> & Hl'). eexists. split; [reflexivity|].
    constructor; assumption.
  - eexists. split; [reflexivity|]. repeat (constructor; [assumption|]). exact Hl.
Qed.

Lemma sort_desc_started l :
  Forall (fun s => timed_session s /\ is_number (get_or s "start_time" (of_Z 0))) l ->
  exists l', sort_desc (fun x => get_or x "start_time" (of_Z 0)) l = Some l' /\
             Forall timed_session l'.
Proof.
  intros Hl.
  assert (Hs : exists l',
             sort_desc (fun x => get_or x "start_time" (of_Z 0)) l = Some l' /\
             Forall (fun s => timed_session s /\
                              is_number (get_or s "start_time" (of_Z 0))) l').
  { induction Hl as [|x l Hx _ (l' & E & Hl')];
      [eexists; split; [reflexivity|constructor]|].
    cbn [sort_desc]. rewrite E. cbn. now apply insert_desc_started. }
  destruct Hs as (l' & E & Hl'). exists l'. split; [exact E|].
  eapply Forall_impl; [exact Hl'|]. now intros s [Hs _].
Qed.

Lemma timing_of_recorded `{External} p now :
  Forall timed_session (session_history p) ->
  is_Some (CrossSessionLearner._analyze_timing_patterns p now).
Proof.
  intros Hs. unfold CrossSessionLearner._analyze_timing_patterns. cbv zeta.
  destruct (session_history p) as [|s l] eqn:E; [now eexists|].
  fold (CrossSessionLearner.durations_of (s :: l)).
  pose proof (filter_numbers truthy _ (durations_numbers _ Hs)) as Hd.
  destruct (nums_numbers _ Hd) as [qs Hq]. rewrite Hq.
  destruct (List.filter truthy _) as [|d ds] eqn:Ed.
  - now eexists.
  - destruct (np_mean_numbers _ Hd) as [m ->]. now eexists.
Qed.

Lemma engagement_of_recorded p :
  Forall timed_session (session_history p) ->
  is_Some (CrossSessionLearner._analyze_engagement_patterns p).
Proof.
  intros Hs. unfold CrossSessionLearner._analyze_engagement_patterns. cbv zeta.
  destruct (session_history p) as [|s l] eqn:E; [now eexists|].
  assert (Hr : is_Some
    (match List.filter (fun s => truthy (get s "start_time")) (s :: l) with
     | [] => Some 0
     | _ :: _ =>
         recent_sessions ←
           sort_desc (fun x => get_or x "start_time" (of_Z 0))
             (List.filter (fun s => truthy (get s "start_time")) (s :: l));
         np_mean (CrossSessionLearner.durations_of (take 5 recent_sessions))
     end)).
  { destruct (List.filter _ (s :: l)) as [|r rs] eqn:Er; [now eexists|].
    rewrite <- Er.
    destruct (sort_desc_started _ (started_sessions _ Hs)) as (l' & -> & Hl').
    cbn. apply np_mean_numbers, durations_numbers, Forall_take, Hl'. }
  destruct Hr as [r ->]. cbn [mbind option_bind].
  destruct (1 <? length (s :: l))%nat.
  - destruct (np_mean_numbers _ (durations_numbers _
                (Forall_take _ (length (s :: l) / 2) _ Hs))) as [e ->].
    destruct (np_mean_numbers _ (durations_numbers _
                (Forall_drop _ (length (s :: l) / 2) _ Hs))) as [t ->].
    now eexists.
  - now eexists.
Qed.

Lemma communication_of_recorded p :
  Forall timed_session (session_history p) ->
  is_Some (CrossSessionLearner._analyze_communication_patterns p).
Proof.
  intros Hs. unfold CrossSessionLearner._analyze_communication_patterns,
    CrossSessionLearner._analyze_expertise_progression. cbv zeta.
  destruct (length (session_history p) <? 2)%nat; [now eexists|].
  destruct (np_mean_numbers _ (durations_numbers _
              (Forall_take _ (length (session_history p) / 2) _ Hs))) as [e ->].
  destruct (np_mean_numbers _ (durations_numbers _
              (Forall_drop _ (length (session_history p) / 2) _ Hs))) as [t ->].
  now eexists.
Qed.

Lemma recorded_feedback_fields f :
  recorded_feedback f ->
  hashable (get_or f "type" (VStr "neutral")) = true /\
  is_number (get_or f "feedback_delay_duration" (of_Z 0)).
Proof.
  intros (ty & fd & now & [-> | ->]); (split; [reflexivity | eexists; reflexivity]).
Qed.

Lemma feedback_types_hashable l :
  Forall recorded_feedback l ->
  forallb hashable (map (fun f => get_or f "type" (VStr "neutral")) l) = true.
Proof.
  induction 1 as [|f l Hf _ IH]; [reflexivity|]. cbn [map forallb].
  now rewrite (proj1 (recorded_feedback_fields f Hf)), IH.
Qed.

Lemma feedback_delays_numbers l :
  Forall recorded_feedback l ->
  Forall is_number (CrossSessionLearner.feedback_delays l).
Proof.
  intros Hl. unfold CrossSessionLearner.feedback_delays. apply filter_numbers.
  induction Hl as [|f l Hf _ IH]; [constructor|]. cbn [map].
  constructor; [exact (proj2 (recorded_feedback_fields f Hf)) | exact IH].
Qed.

Lemma feedback_of_recorded p :
  Forall recorded_feedback (feedback_history p) ->
  is_Some (CrossSessionLearner._analyze_feedback_patterns p).
Proof.
  intros Hf. unfold CrossSessionLearner._analyze_feedback_patterns. cbv zeta.
  destruct (feedback_history p) as [|f l] eqn:E; [now eexists|].
  rewrite (feedback_types_hashable _ Hf). cbn [negb].
  pose proof (feedback_delays_numbers _ Hf) as Hd.
  unfold CrossSessionLearner._classify_feedback_engagement.
  destruct (nums_numbers _ Hd) as [qs ->].
  destruct (CrossSessionLearner.feedback_delays (f :: l)) as [|d ds] eqn:Ed.
  - now eexists.
  - destruct (np_mean_numbers _ Hd) as [m ->]. now eexists.
Qed.

(** The four analyses return, and the result of [analyze_user_patterns] is
    built from what they return. *)
Lemma analysis_of_recorded `{External} cache user_id
    (profiles : gmap string UserProfile) now p :
  profiles !! user_id = Some p ->
  Forall timed_session (session_history p) ->
  Forall recorded_feedback (feedback_history p) ->
  session_history p <> [] ->
  exists t e c f,
    CrossSessionLearner._analyze_timing_patterns p now = Some t /\
    CrossSessionLearner._analyze_engagement_patterns p = Some e /\
    CrossSessionLearner._analyze_communication_patterns p = Some c /\
    CrossSessionLearner._analyze_feedback_patterns p = Some f /\
    let groups :=
      {| Patterns.timing := t; Patterns.engagement := e;
         Patterns.communication := c; Patterns.feedback := f |} in
    let insights := CrossSessionLearner._generate_insights t e c f in
    CrossSessionLearner.analyze_user_patterns cache user_id profiles now
    = Some (<[user_id := {| Patterns.groups := groups;
                            Patterns.cached_insights := insights;
                            Patterns.last_updated := now |}]> cache,
            Some {| Patterns.patterns := groups;
                    Patterns.insights := insights;
                    Patterns.recommendations :=
                      CrossSessionLearner._generate_recommendations insights |}).
Proof.
  intros Hp Hs Hf Hne. unfold CrossSessionLearner.analyze_user_patterns. rewrite Hp.
  destruct (session_history p) as [|s l] eqn:E; [congruence|]. rewrite <- E in Hs.
  destruct (timing_of_recorded p now Hs) as [t Ht].
  destruct (engagement_of_recorded p Hs) as [e He].
  destruct (communication_of_recorded p Hs) as [c Hc].
  destruct (feedback_of_recorded p Hf) as [f Hf'].
  exists t, e, c, f. rewrite Ht, He, Hc, Hf'. repeat split.
Qed.



(** A session event without [session_duration]: the entry holds [None]
    under ['duration'], [numpy.mean] raises in the engagement analysis, and
    the event leaves the profile without insights and the cache empty. *)
Example untimed_session_not_analysed :
  let untimed :=
    {| Session.session_id := Some "s"; Session.session_start := Some 1737365162000%Z;
       Session.session_end := None; Session.session_end_type := None;
       Session.session_duration := None; Session.engagement_time := None |} in
  let self := (create_user_profile UserProfiler.init "u" 0).1 in
  let result := @update_profile_from_session utc_host self "u" untimed 9 in
  CrossSessionLearner._analyze_engagement_patterns
    (apply_session (new_profile "u" 0) untimed 9) = None /\
  (p ← result.2; Some (length (session_history p), cross_session_insights p))
  = Some (1%nat, None) /\
  get_user_insights result.1 "u" = None.
Proof. split; [|split]; vm_compute; reflexivity. Qed.

(** ** The stored insights *)

(** The analyses read nothing of the insights a profile holds. *)
Lemma analysis_of_insights `{External} i p a :
  analysis_of p a -> analysis_of (set_cross_session_insights i p) a.
Proof. intros Ha. exact Ha. Qed.

Lemma learning_analysed `{External} self user_id now q :
  user_profiles self !! user_id = Some q ->
  profile_ok user_id q ->
  Forall timed_session (session_history q) ->
  (session_history q = [] ->
   cross_session_insights q = None /\ pattern_cache self !! user_id = None) ->
  let self' := _update_cross_session_learning self user_id now in
  exists q',
    user_profiles self' !! user_id = Some q' /\ profile_ok user_id q' /\
    Forall timed_session (session_history q') /\
    analysed q' (pattern_cache self' !! user_id).
Proof.
  intros Hq Hok Hs Hno. cbv zeta.
  destruct (session_history q) as [|s l] eqn:Es.
  - rewrite learning_without_sessions
      by (intros p Hp; rewrite Hq in Hp; now injection Hp as <-).
    exists q. split; [exact Hq|]. split; [exact Hok|]. rewrite Es.
    split; [constructor|]. unfold analysed. rewrite Es. now apply Hno.
  - rewrite <- Es in Hs.
    destruct (analysis_of_recorded (pattern_cache self) user_id (user_profiles self)
                now q Hq Hs (ok_feedback _ _ Hok))
      as (t & e & c & f & Ht & He & Hc & Hf & Ha); [congruence|].
    cbv zeta in Ha.
    unfold _update_cross_session_learning. rewrite Ha, Hq.
    cbn [user_profiles pattern_cache]. rewrite !lookup_insert_eq.
    eexists. split; [reflexivity|]. split; [now apply profile_ok_insights|].
    split; [exact Hs|]. unfold analysed.
    change (session_history (set_cross_session_insights ?i q)) with (session_history q).
    rewrite Es. eexists _, _. split; [reflexivity|]. split; [reflexivity|].
    split; [split; reflexivity|]. apply analysis_of_insights.
    unfold analysis_of.
    cbn [Patterns.patterns Patterns.insights Patterns.recommendations Patterns.timing
         Patterns.engagement Patterns.communication Patterns.feedback].
    repeat split; try assumption. now exists now.
Qed.

Lemma insights_ok_registry `{External} self : insights_ok self -> registry_ok self.
Proof.
  intros Hok key p Hp. specialize (Hok key). rewrite Hp in Hok. apply Hok.
Qed.

Lemma found_profile_analysed `{External} self user_id now :
  insights_ok self ->
  Forall timed_session (session_history (found_profile self user_id now)) /\
  (session_history (found_profile self user_id now) = [] ->
   cross_session_insights (found_profile self user_id now) = None /\
   pattern_cache self !! user_id = None).
Proof.
  intros Hok. specialize (Hok user_id). unfold found_profile.
  destruct (user_profiles self !! user_id) as [p|]; cbn.
  - destruct Hok as (_ & Hs & Ha). split; [exact Hs|].
    intros Es. unfold analysed in Ha. now rewrite Es in Ha.
  - split; [constructor|]. intros _. split; [reflexivity | exact Hok].
Qed.

(** The state after the stored profile was changed to [q] and the update
    recorded, once the cross-session learning has run. *)
Lemma recorded_learning_ok `{External} self self0 user_id q update_type data now :
  pattern_cache self0 = pattern_cache self ->
  profile_ok user_id q ->
  Forall timed_session (session_history q) ->
  (session_history q = [] ->
   cross_session_insights q = None /\ pattern_cache self !! user_id = None) ->
  let self' :=
    _update_cross_session_learning
      (_record_profile_update (store_profile self0 user_id q)
                              user_id update_type data now) user_id now in
  match user_profiles self' !! user_id with
  | Some p => profile_ok user_id p /\ Forall timed_session (session_history p) /\
              analysed p (pattern_cache self' !! user_id)
  | None => pattern_cache self' !! user_id = None
  end.
Proof.
  intros Hc Hok Hs Hno. cbv zeta.
  destruct (learning_analysed
              (_record_profile_update (store_profile self0 user_id q)
                                      user_id update_type data now) user_id now q)
    as (q' & -> & Hok' & Hs' & Ha'); try assumption.
  - rewrite recorded_lookup. now rewrite decide_True.
  - cbn [pattern_cache _record_profile_update store_profile]. now rewrite Hc.
  - split; [assumption | split; assumption].
Qed.

Lemma prompt_insights_ok `{External} self prompt_data now :
  insights_ok self ->
  let self' := update_profile_from_prompt self prompt_data now in
  match user_profiles self' !! Prompt.user_id prompt_data with
  | Some p => profile_ok (Prompt.user_id prompt_data) p /\
              Forall timed_session (session_history p) /\
              analysed p (pattern_cache self' !! Prompt.user_id prompt_data)
  | None => pattern_cache self' !! Prompt.user_id prompt_data = None
  end.
Proof.
  intros Hok. cbv zeta. unfold update_profile_from_prompt.
  pose proof (get_or_create_profile self (Prompt.user_id prompt_data) now) as G.
  pose proof (get_or_create_cache self (Prompt.user_id prompt_data) now) as C.
  destruct (get_or_create self _ now) as [self0 profile]; simpl in G, C. subst profile.
  fold (apply_prompt (found_profile self (Prompt.user_id prompt_data) now) prompt_data now).
  destruct (apply_prompt_keeps_history
              (found_profile self (Prompt.user_id prompt_data) now) prompt_data now)
    as (As & _ & Ai).
  destruct (found_profile_analysed self (Prompt.user_id prompt_data) now Hok) as [Fs Fn].
  apply recorded_learning_ok with (self := self).
  - exact C.
  - apply apply_prompt_ok, found_profile_ok, insights_ok_registry, Hok.
  - now rewrite As.
  - now rewrite As, Ai.
Qed.

Lemma feedback_insights_ok `{External} self feedback_data now :
  insights_ok self ->
  let self' := update_profile_from_feedback self feedback_data now in
  match user_profiles self' !! Feedback.user_id feedback_data with
  | Some p => profile_ok (Feedback.user_id feedback_data) p /\
              Forall timed_session (session_history p) /\
              analysed p (pattern_cache self' !! Feedback.user_id feedback_data)
  | None => pattern_cache self' !! Feedback.user_id feedback_data = None
  end.
Proof.
  intros Hok. cbv zeta. unfold update_profile_from_feedback.
  pose proof (get_or_create_profile self (Feedback.user_id feedback_data) now) as G.
  pose proof (get_or_create_cache self (Feedback.user_id feedback_data) now) as C.
  destruct (get_or_create self _ now) as [self0 profile]; simpl in G, C. subst profile.
  fold (apply_feedback (found_profile self (Feedback.user_id feedback_data) now)
                       feedback_data now).
  destruct (apply_feedback_keeps_sessions
              (found_profile self (Feedback.user_id feedback_data) now) feedback_data now)
    as (As & Ai).
  destruct (found_profile_analysed self (Feedback.user_id feedback_data) now Hok)
    as [Fs Fn].
  apply recorded_learning_ok with (self := self).
  - exact C.
  - apply apply_feedback_ok, found_profile_ok, insights_ok_registry, Hok.
  - now rewrite As.
  - now rewrite As, Ai.
Qed.

Lemma session_insights_ok `{External} self user_id session_data now :
  is_Some (Session.session_duration session_data) ->
  insights_ok self ->
  let self' := (update_profile_from_session self user_id session_data now).1 in
  match user_profiles self' !! user_id with
  | Some p => profile_ok user_id p /\ Forall timed_session (session_history p) /\
              analysed p (pattern_cache self' !! user_id)
  | None => pattern_cache self' !! user_id = None
  end.
Proof.
  intros Hd Hok. cbv zeta. pose proof (Hok user_id) as Hu.
  unfold update_profile_from_session, get_user_profile.
  destruct (user_profiles self !! user_id) as [p|] eqn:Ep; cbn [fst].
  - destruct Hu as (Hp & Hs & _).
    destruct (apply_session_fields p session_data now)
      as (_ & _ & E3 & _).
    destruct (learning_analysed
                (store_profile self user_id (apply_session p session_data now))
                user_id now (apply_session p session_data now))
      as (q' & -> & Hok' & Hs' & Ha').
    + cbn. apply lookup_insert_eq.
    + now apply apply_session_ok.
    + rewrite E3. apply Forall_app. split; [exact Hs|].
      constructor; [|constructor]. now exists session_data.
    + rewrite E3. intros E. now apply app_eq_nil in E as [_ E].
    + split; [assumption | split; assumption].
  - rewrite Ep. exact Hu.
Qed.

Lemma process_event_insights_ok `{External} self ev now :
  timed_event (ev, now) -> insights_ok self -> insights_ok (process_event self (ev, now)).
Proof.
  intros Ht Hok k. destruct (decide (k = event_user ev)) as [->|Hne].
  - unfold process_event. destruct ev as [pd|fd|u sd]; cbn [fst snd event_user].
    + now apply prompt_insights_ok.
    + now apply feedback_insights_ok.
    + now apply session_insights_ok.
  - destruct (event_same_at self ev now k Hne) as (E1 & _ & E3).
    rewrite E1, E3. apply Hok.
Qed.

Lemma init_insights_ok `{External} : insights_ok UserProfiler.init.
Proof. intros key. cbn. rewrite lookup_empty. apply lookup_empty. Qed.

Lemma process_events_insights_ok `{External} self events :
  Forall timed_event events -> insights_ok self ->
  insights_ok (process_events self events).
Proof.
  intros Ht. revert self.
  induction Ht as [|[ev now] events Hev _ IH]; intros self Hok; [exact Hok|].
  cbn. apply IH. now apply process_event_insights_ok.
Qed.

(** X16: in a profiler that started empty, after any sequence of events
    whose session-end events all carry a [session_duration], the analysis a
    profile holds is that of the profile as it is stored: its engagement,
    communication and feedback groups are what the three analyses return on
    the stored profile, its timing group is what the timing analysis returns
    on it at some instant, and its insights and recommendations are those
    generated from these groups. *)
Theorem stored_insights_current `{External} events key p a :
  Forall timed_event events ->
  user_profiles (process_events UserProfiler.init events) !! key = Some p ->
  cross_session_insights p = Some a ->
  let g := Patterns.patterns a in
  (exists now, CrossSessionLearner._analyze_timing_patterns p now
               = Some (Patterns.timing g)) /\
  CrossSessionLearner._analyze_engagement_patterns p = Some (Patterns.engagement g) /\
  CrossSessionLearner._analyze_communication_patterns p
  = Some (Patterns.communication g) /\
  CrossSessionLearner._analyze_feedback_patterns p = Some (Patterns.feedback g) /\
  Patterns.insights a
  = CrossSessionLearner._generate_insights
      (Patterns.timing g) (Patterns.engagement g)
      (Patterns.communication g) (Patterns.feedback g) /\
  Patterns.recommendations a
  = CrossSessionLearner._generate_recommendations (Patterns.insights a).
Proof.
  intros Ht Hp Hi.
  pose proof (process_events_insights_ok _ events Ht init_insights_ok key) as Hok.
  rewrite Hp in Hok. destruct Hok as (_ & _ & Ha). unfold analysed in Ha.
  destruct (session_history p) as [|s l]; [destruct Ha; congruence|].
  destruct Ha as (a' & c & Hi' & _ & _ & Ha). assert (a' = a) as -> by congruence.
  exact Ha.
Qed.

Lemma stored_insights_current_witness :
  match user_profiles
          (@process_events utc_host UserProfiler.init
             [(MessageEvent (message "Hello there" 0 1000 2000), 5%Z);
              (SessionEndEvent "u" (session_of (Some "completed") 60000), 9%Z)])
          !! "u" with
  | Some p =>
      match cross_session_insights p with
      | Some a =>
          @CrossSessionLearner._analyze_engagement_patterns p
          = Some (Patterns.engagement (Patterns.patterns a)) /\
          Patterns.recommendations a
          = CrossSessionLearner._generate_recommendations (Patterns.insights a)
      | None => False
      end
  | None => False
  end.
Proof.
  destruct (user_profiles _ !! "u") as [p|] eqn:E.
  - destruct (cross_session_insights p) as [a|] eqn:Ei.
    + destruct (@stored_insights_current utc_host
                  [(MessageEvent (message "Hello there" 0 1000 2000), 5%Z);
                   (SessionEndEvent "u" (session_of (Some "completed") 60000), 9%Z)]
                  "u" p a) as (_ & He & _ & _ & _ & Hr);
        [repeat constructor; cbn; now eexists | exact E | exact Ei |].
      split; [exact He | exact Hr].
    + vm_compute in E. injection E as <-. discriminate Ei.
  - vm_compute in E. discriminate E.
Defined.

(** X17: in a profiler that started empty, after any sequence of events
    whose session-end events all carry a [session_duration], a user has
    insights exactly when the profile has sessions: a user without a profile
    has no cached insights; a profile without sessions holds no insights and
    has none cached; a profile with sessions holds an analysis, and the
    cache holds the pattern groups and the insights of that analysis. *)
Theorem insights_follow_sessions `{External} events key :
  Forall timed_event events ->
  let self := process_events UserProfiler.init events in
  match user_profiles self !! key with
  | None => get_user_insights self key = None
  | Some p =>
      match session_history p with
      | [] => cross_session_insights p = None /\ get_user_insights self key = None
      | _ => exists a c,
               cross_session_insights p = Some a /\
               get_user_insights self key = Some c /\
               Patterns.groups c = Patterns.patterns a /\
               Patterns.cached_insights c = Patterns.insights a
      end
  end.
Proof.
  intros Ht. cbv zeta.
  pose proof (process_events_insights_ok _ events Ht init_insights_ok key) as Hok.
  unfold get_user_insights.
  destruct (user_profiles _ !! key) as [p|]; [|exact Hok].
  destruct Hok as (_ & _ & Ha). unfold analysed in Ha.
  destruct (session_history p); [exact Ha|].
  destruct Ha as (a & c & Hi & Hc & [Hg Hins] & _). now exists a, c.
Qed.

Lemma insights_follow_sessions_witness :
  let self :=
    @process_events utc_host UserProfiler.init
      [(MessageEvent (message "Hello there" 0 1000 2000), 5%Z);
       (SessionEndEvent "u" (session_of (Some "completed") 60000), 9%Z)] in
  match user_profiles self !! "u" with
  | None => get_user_insights self "u" = None
  | Some p =>
      match session_history p with
      | [] => cross_session_insights p = None /\ get_user_insights self "u" = None
      | _ => exists a c,
               cross_session_insights p = Some a /\
               get_user_insights self "u" = Some c /\
               Patterns.groups c = Patterns.patterns a /\
               Patterns.cached_insights c = Patterns.insights a
      end
  end.
Proof.
  apply (@insights_follow_sessions utc_host
           [(MessageEvent (message "Hello there" 0 1000 2000), 5%Z);
            (SessionEndEvent "u" (session_of (Some "completed") 60000), 9%Z)] "u").
  repeat constructor. cbn. now eexists.
Defined.

(** ** Insights and recommendations *)

Lemma insights_varied timing engagement communication feedback :
  Patterns.communication_consistency communication <= 0.8 ->
  let insights :=
    CrossSessionLearner._generate_insights timing engagement communication feedback in
  varied_insight ∈ insights /\ consistent_insight ∉ insights.
Proof.
  intros Hc. cbv zeta. unfold CrossSessionLearner._generate_insights. cbv zeta.
  apply ltb_ge in Hc. rewrite Hc. cbv iota. unfold varied_insight, consistent_insight.
  case_ifs; cbn [app]; (split;
    [repeat constructor
    |let Hin := fresh in
     intros Hin; repeat (apply elem_of_cons in Hin as [Hin|Hin]; [discriminate Hin|]);
     inversion Hin]).
Qed.

Lemma communication_consistency_of p c :
  CrossSessionLearner._analyze_communication_patterns p = Some c ->
  Patterns.communication_consistency c = CrossSessionLearner.consistency_score p.
Proof.
  unfold CrossSessionLearner._analyze_communication_patterns.
  destruct (CrossSessionLearner._analyze_expertise_progression p); [|discriminate].
  cbn. now intros [= <-].
Qed.

Lemma consistency_score_low key p :
  profile_ok key p -> CrossSessionLearner.consistency_score p <= 0.8.
Proof.
  intros Hok.
  rewrite (consistency_score_values p (ok_complexity _ _ Hok) (ok_detail _ _ Hok)).
  destruct (String.eqb _ _); lra.
Qed.

Lemma analysis_insights_varied `{External} cache cache' key
    (profiles : gmap string UserProfile) now p a :
  profiles !! key = Some p -> profile_ok key p ->
  CrossSessionLearner.analyze_user_patterns cache key profiles now = Some (cache', Some a) ->
  varied_insight ∈ Patterns.insights a /\ consistent_insight ∉ Patterns.insights a.
Proof.
  intros Hp Hok. unfold CrossSessionLearner.analyze_user_patterns. rewrite Hp.
  destruct (session_history p); [discriminate|].
  destruct (CrossSessionLearner._analyze_timing_patterns p now) as [t|]; [|discriminate].
  destruct (CrossSessionLearner._analyze_engagement_patterns p) as [e|]; [|discriminate].
  destruct (CrossSessionLearner._analyze_communication_patterns p) as [c|] eqn:Ec;
    [|discriminate].
  destruct (CrossSessionLearner._analyze_feedback_patterns p) as [f|]; [|discriminate].
  cbn [mbind option_bind]. intros [= _ <-]. cbn [Patterns.insights].
  apply insights_varied. rewrite (communication_consistency_of p c Ec).
  now apply consistency_score_low with key.
Qed.

(** The cross-session learning keeps the analysis a profile holds, or
    replaces it by a new one; an analysis that raises changes nothing. *)
Lemma learning_varied `{External} self user_id now :
  (forall q, user_profiles self !! user_id = Some q -> profile_ok user_id q) ->
  insights_varied_ok self ->
  insights_varied_ok (_update_cross_session_learning self user_id now).
Proof.
  intros Hq Hok. unfold _update_cross_session_learning.
  destruct (CrossSessionLearner.analyze_user_patterns _ _ _ _) as [[cache [a|]]|] eqn:Ea;
    [|exact Hok..].
  destruct (user_profiles self !! user_id) as [q|] eqn:Eq; [|exact Hok].
  intros key p a' Hp Hi. cbn [user_profiles] in Hp.
  destruct (decide (key = user_id)) as [->|Hne].
  - rewrite lookup_insert_eq in Hp. injection Hp as <-. cbn in Hi. injection Hi as <-.
    exact (analysis_insights_varied _ _ user_id _ now q a Eq (Hq q eq_refl) Ea).
  - rewrite lookup_insert_ne in Hp by congruence. exact (Hok key p a' Hp Hi).
Qed.

(** Storing at [user_id] a profile whose analysis, if any, is one that
    [user_id] held. *)
Lemma store_varied self self0 user_id q update_type data now :
  insights_varied_ok self ->
  (forall k, k <> user_id -> user_profiles self0 !! k = user_profiles self !! k) ->
  cross_session_insights q = cross_session_insights (found_profile self user_id now) ->
  insights_varied_ok
    (_record_profile_update (store_profile self0 user_id q) user_id update_type data now).
Proof.
  intros Hok Hk Hi key p a Hp Ha. rewrite recorded_lookup in Hp.
  destruct (decide (user_id = key)) as [<-|Hne].
  - injection Hp as <-. rewrite Hi in Ha. unfold found_profile in Ha.
    destruct (user_profiles self !! user_id) as [p0|] eqn:E0; cbn in Ha;
      [exact (Hok user_id p0 a E0 Ha) | discriminate Ha].
  - rewrite Hk in Hp by congruence. exact (Hok key p a Hp Ha).
Qed.

Lemma process_event_varied `{External} self ev now :
  registry_ok self -> insights_varied_ok self ->
  insights_varied_ok (process_event self (ev, now)).
Proof.
  intros Hreg Hok. unfold process_event. destruct ev as [pd|fd|u sd]; cbn [fst snd].
  - unfold update_profile_from_prompt.
    pose proof (get_or_create_profile self (Prompt.user_id pd) now) as G.
    pose proof (get_or_create_lookup self (Prompt.user_id pd) now) as L.
    destruct (get_or_create self _ now) as [self0 profile]; simpl in G, L. subst profile.
    fold (apply_prompt (found_profile self (Prompt.user_id pd) now) pd now).
    destruct (apply_prompt_keeps_history
                (found_profile self (Prompt.user_id pd) now) pd now) as (_ & _ & Ai).
    apply learning_varied.
    + intros q. rewrite recorded_lookup, decide_True by reflexivity. intros [= <-].
      now apply apply_prompt_ok, found_profile_ok.
    + now apply store_varied with (self := self) (now := now).
  - unfold update_profile_from_feedback.
    pose proof (get_or_create_profile self (Feedback.user_id fd) now) as G.
    pose proof (get_or_create_lookup self (Feedback.user_id fd) now) as L.
    destruct (get_or_create self _ now) as [self0 profile]; simpl in G, L. subst profile.
    fold (apply_feedback (found_profile self (Feedback.user_id fd) now) fd now).
    destruct (apply_feedback_keeps_sessions
                (found_profile self (Feedback.user_id fd) now) fd now) as (_ & Ai).
    apply learning_varied.
    + intros q. rewrite recorded_lookup, decide_True by reflexivity. intros [= <-].
      now apply apply_feedback_ok, found_profile_ok.
    + now apply store_varied with (self := self) (now := now).
  - unfold update_profile_from_session, get_user_profile.
    destruct (user_profiles self !! u) as [p|] eqn:Ep; cbn [fst]; [|exact Hok].
    destruct (apply_session_fields p sd now) as (_ & _ & _ & _ & _ & _ & _ & _ & E9 & _).
    apply learning_varied.
    + intros q. cbn. rewrite lookup_insert_eq. intros [= <-].
      apply apply_session_ok. now apply Hreg.
    + intros key q a Hq Ha. cbn in Hq.
      destruct (decide (key = u)) as [->|Hne].
      * rewrite lookup_insert_eq in Hq. injection Hq as <-. rewrite E9 in Ha.
        exact (Hok u p a Ep Ha).
      * rewrite lookup_insert_ne in Hq by congruence. exact (Hok key q a Hq Ha).
Qed.

Lemma process_events_varied `{External} self events :
  registry_ok self -> insights_varied_ok self ->
  insights_varied_ok (process_events self events).
Proof.
  revert self. induction events as [|[ev now] events IH]; intros self Hreg Hok;
    [exact Hok|].
  cbn. apply IH; [now apply process_event_ok | now apply process_event_varied].
Qed.

Lemma init_varied : insights_varied_ok UserProfiler.init.
Proof. intros key p a Hp. cbn in Hp. rewrite lookup_empty in Hp. discriminate Hp. Qed.

(** X18: in a profiler that started empty, after any sequence of events
    every analysis a profile holds carries the insight "User shows varied
    communication preferences" and never "User has consistent communication
    preferences": the consistency score of a stored profile is at most 0.4
    and the insight asks for more than 0.8. *)
Theorem stored_insights_varied `{External} events key p a :
  user_profiles (process_events UserProfiler.init events) !! key = Some p ->
  cross_session_insights p = Some a ->
  varied_insight ∈ Patterns.insights a /\ consistent_insight ∉ Patterns.insights a.
Proof.
  intros Hp Hi.
  exact (process_events_varied _ events init_registry_ok init_varied key p a Hp Hi).
Qed.

Lemma stored_insights_varied_witness :
  match user_profiles
          (@process_events utc_host UserProfiler.init
             [(MessageEvent (message "Hello there" 0 1000 2000), 5%Z);
              (SessionEndEvent "u" (session_of (Some "completed") 60000), 9%Z)])
          !! "u" with
  | Some p =>
      match cross_session_insights p with
      | Some a =>
          varied_insight ∈ Patterns.insights a /\
          consistent_insight ∉ Patterns.insights a
      | None => False
      end
  | None => False
  end.
Proof.
  destruct (user_profiles _ !! "u") as [p|] eqn:E.
  - destruct (cross_session_insights p) as [a|] eqn:Ei.
    + exact (@stored_insights_varied utc_host _ "u" p a E Ei).
    + vm_compute in E. injection E as <-. discriminate Ei.
  - vm_compute in E. discriminate E.
Defined.

(** X19: the recommendations for the insights the analysis generates are
    the one that follows the session frequency and then the one that
    follows the feedback ratios, each if there is one: the insights on the
    engagement trend and on the communication preferences bring no
    recommendation. *)
Theorem recommendations_for_generated_insights
    timing engagement communication feedback :
  CrossSessionLearner._generate_recommendations
    (CrossSessionLearner._generate_insights timing engagement communication feedback)
  = app (frequency_recommendation timing) (satisfaction_recommendation feedback).
Proof.
  unfold CrossSessionLearner._generate_insights, frequency_recommendation,
    satisfaction_recommendation. cbv zeta.
  case_ifs; vm_compute; reflexivity.
Qed.

(** ** The scores of the analysis *)

Lemma ratio_in_unit n m : (n <= m)%nat -> (0 < m)%nat -> in_unit (Py.of_nat n / Py.of_nat m).
Proof.
  intros Hle Hm. split; [apply ratio_nonneg|].
  apply Qle_shift_div_r.
  - unfold Py.of_nat, Qlt. simpl. lia.
  - unfold Py.of_nat, Qle. simpl. lia.
Qed.

Lemma completion_rate_in_unit sessions :
  in_unit (CrossSessionLearner._calculate_completion_rate sessions).
Proof.
  unfold CrossSessionLearner._calculate_completion_rate.
  destruct sessions as [|s l]; [split; lra|].
  apply ratio_in_unit; [apply List.filter_length_le | cbn; lia].
Qed.

Lemma adaptability_in_range p :
  0.5 <= CrossSessionLearner._calculate_adaptability_score p /\
  CrossSessionLearner._calculate_adaptability_score p <= 1.
Proof.
  unfold CrossSessionLearner._calculate_adaptability_score. cbv zeta.
  split; [|apply min_le_l].
  apply min_glb; [lra|].
  assert (Hs : 0 <= Py.min 0.2 (Py.of_nat (length (session_history p)) * 0.02)).
  { apply min_glb; [lra|]. pose proof (of_nat_nonneg (length (session_history p))). nra. }
  assert (Hf : 0 <= Py.of_nat (CrossSessionLearner.count_positive (feedback_history p))
                    / Py.of_nat (length (feedback_history p)) * 0.3).
  { pose proof (ratio_nonneg (CrossSessionLearner.count_positive (feedback_history p))
                             (length (feedback_history p))). nra. }
  destruct (feedback_history p) as [|f l] eqn:Ef.
  - destruct (1 <? _)%nat; lra.
  - destruct (0 <? _)%nat; destruct (1 <? _)%nat; lra.
Qed.

Lemma abs_in_unit a b : in_unit a -> in_unit b -> in_unit (1 - Py.abs (a - b)).
Proof.
  unfold in_unit, Py.abs. intros [] []. destruct (Py.ltb (a - b) 0) eqn:E.
  - apply ltb_lt in E. split; lra.
  - apply ltb_ge in E. split; lra.
Qed.

Lemma feedback_ratios_of p f :
  CrossSessionLearner._analyze_feedback_patterns p = Some (Some f) ->
  in_unit (Patterns.positive_ratio f) /\ in_unit (Patterns.negative_ratio f) /\
  in_unit (Patterns.feedback_consistency f).
Proof.
  unfold CrossSessionLearner._analyze_feedback_patterns. cbv zeta.
  destruct (feedback_history p) as [|e l] eqn:Ef; [discriminate|]. cbv iota.
  assert (Hpos : (0 < length (e :: l))%nat) by (cbn; lia).
  revert Hpos. generalize (e :: l). intros fh Hpos.
  destruct (negb _); [discriminate|].
  destruct (match CrossSessionLearner.feedback_delays fh with
            | [] => Some 0 | _ :: _ => _ end); [|discriminate].
  destruct (CrossSessionLearner._classify_feedback_engagement fh); [|discriminate].
  cbn [mbind option_bind]. intros [= <-].
  cbn [Patterns.positive_ratio Patterns.negative_ratio Patterns.feedback_consistency].
  set (types := map (fun f => get_or f "type" (VStr "neutral")) fh).
  assert (Hlen : length fh = length types) by (symmetry; apply length_map).
  rewrite Hlen in *.
  pose proof (List.filter_length_le (fun v => eq_str v "positive") types) as Hla.
  pose proof (List.filter_length_le (fun v => eq_str v "negative") types) as Hlb.
  set (a := length (List.filter (fun v => eq_str v "positive") types)) in *.
  set (b := length (List.filter (fun v => eq_str v "negative") types)) in *.
  assert (Ha : in_unit (Py.of_nat a / Py.of_nat (length types)))
    by (apply ratio_in_unit; lia).
  assert (Hb : in_unit (Py.of_nat b / Py.of_nat (length types)))
    by (apply ratio_in_unit; lia).
  split; [exact Ha|]. split; [exact Hb|]. now apply abs_in_unit.
Qed.

(** X20: whatever the histories hold, the completion rate lies in [0, 1]
    and the adaptability score in [0.5, 1]; and when the feedback analysis
    returns patterns, the positive ratio, the negative ratio and the
    feedback consistency lie in [0, 1]. *)
Theorem analysis_scores_in_range p :
  in_unit (CrossSessionLearner._calculate_completion_rate (session_history p)) /\
  0.5 <= CrossSessionLearner._calculate_adaptability_score p /\
  CrossSessionLearner._calculate_adaptability_score p <= 1 /\
  match CrossSessionLearner._analyze_feedback_patterns p with
  | Some (Some f) =>
      in_unit (Patterns.positive_ratio f) /\ in_unit (Patterns.negative_ratio f) /\
      in_unit (Patterns.feedback_consistency f)
  | _ => True
  end.
Proof.
  split; [apply completion_rate_in_unit|].
  split; [apply adaptability_in_range|]. split; [apply adaptability_in_range|].
  destruct (CrossSessionLearner._analyze_feedback_patterns p) as [[f|]|] eqn:E; [|exact I..].
  now apply feedback_ratios_of with p.
Qed.

(** Three positive and one negative feedback event: the analysis of the
    eight recorded entries gives the ratios 3/4 and 1/4 and the consistency
    1/2. *)
Example feedback_patterns_of_four_events :
  let p := apply_feedback (apply_feedback (apply_feedback (apply_feedback
             (new_profile "u" 0) (positive_feedback "u") 1) (positive_feedback "u") 2)
             (negative_feedback "u") 3) (positive_feedback "u") 4 in
  (f ← default None (CrossSessionLearner._analyze_feedback_patterns p);
   Some (Patterns.total_feedback f, Qred (Patterns.positive_ratio f),
         Qred (Patterns.negative_ratio f), Qred (Patterns.feedback_consistency f)))
  = Some (8%nat, 3 # 4, 1 # 4, 1 # 2).
Proof. vm_compute. reflexivity. Qed.

(** ** Sessions of equal duration *)

Lemma sum_constant c (qs : list Q) :
  Forall (fun q => q = c) qs -> Py.sum qs == Py.of_nat (length qs) * c.
Proof.
  induction 1 as [|q qs -> _ IH]; [reflexivity|].
  cbn [Py.sum fold_right length]. fold (Py.sum qs). rewrite IH.
  unfold Py.of_nat. rewrite Nat2Z.inj_succ, <- Z.add_1_r, inject_Z_plus. ring.
Qed.

Lemma np_mean_constant d (l : list PyVal) :
  l <> [] -> Forall (fun v => v = of_Z d) l ->
  exists m, np_mean l = Some m /\ m == inject_Z d.
Proof.
  intros Hne Hl.
  assert (Hn : exists qs, nums l = Some qs /\ length qs = length l /\
                          Forall (fun q => q = inject_Z d) qs).
  { clear Hne. unfold nums. induction Hl as [|v l -> _ (qs & E & Hlen & Hqs)].
    - exists []. repeat split. constructor.
    - exists (inject_Z d :: qs). cbn. rewrite E. cbn.
      repeat split; [now rewrite Hlen | now constructor]. }
  destruct Hn as (qs & E & Hlen & Hqs). unfold np_mean. rewrite E. cbn.
  destruct qs as [|q qs']; [destruct l; [congruence | discriminate]|].
  eexists. split; [reflexivity|]. cbn [Py.mean default from_option id].
  pose proof (sum_constant _ _ Hqs) as Hs. cbv beta. rewrite Hs.
  assert (Hp : 0 < Py.of_nat (length (q :: qs')))
    by (unfold Py.of_nat, Qlt; simpl; lia).
  field. lra.
Qed.

Lemma sessions_lasting_timed d sessions :
  sessions_lasting d sessions -> Forall timed_session sessions.
Proof.
  intros Hs. eapply Forall_impl; [exact Hs|]. intros s (sd & -> & Hd).
  exists sd. split; [reflexivity|]. now exists d.
Qed.

Lemma durations_constant d sessions :
  sessions_lasting d sessions ->
  Forall (fun v => v = of_Z d) (CrossSessionLearner.durations_of sessions).
Proof.
  unfold CrossSessionLearner.durations_of.
  induction 1 as [|s l (sd & -> & Hd) _ IH]; [constructor|]. cbn [map].
  constructor; [now rewrite session_entry_duration, Hd | exact IH].
Qed.

Lemma halves_constant d sessions :
  (2 <= length sessions)%nat -> sessions_lasting d sessions ->
  exists early late,
    np_mean (CrossSessionLearner.durations_of (take (length sessions / 2) sessions))
    = Some early /\
    np_mean (CrossSessionLearner.durations_of (drop (length sessions / 2) sessions))
    = Some late /\
    early == inject_Z d /\ late == inject_Z d.
Proof.
  intros Hlen Hs.
  assert (Hh : (1 <= length sessions / 2 < length sessions)%nat).
  { split; [apply (Nat.div_le_lower_bound _ 2 1); lia
           | apply Nat.div_lt; lia]. }
  destruct (np_mean_constant d
              (CrossSessionLearner.durations_of (take (length sessions / 2) sessions)))
    as (early & E1 & Q1).
  - intros E. apply (f_equal length) in E.
    unfold CrossSessionLearner.durations_of in E.
    rewrite length_map, length_take in E. change (@length PyVal []) with 0%nat in E. lia.
  - apply durations_constant, Forall_take, Hs.
  - destruct (np_mean_constant d
                (CrossSessionLearner.durations_of (drop (length sessions / 2) sessions)))
      as (late & E2 & Q2).
    + intros E. apply (f_equal length) in E.
      unfold CrossSessionLearner.durations_of in E.
      rewrite length_map, length_drop in E. change (@length PyVal []) with 0%nat in E.
      lia.
    + apply durations_constant, Forall_drop, Hs.
    + now exists early, late.
Qed.

(** X21: when the recorded sessions of a profile, two or more, all lasted
    the same time, the engagement trend is "decreasing": the trend is
    "increasing" only when the later half lasted longer on average, and any
    other case, equality included, counts as a decrease. With a duration
    that is not negative the expertise progression of the same profile is
    "stable". *)
Theorem equal_sessions_trend p d :
  (2 <= length (session_history p))%nat ->
  sessions_lasting d (session_history p) ->
  (exists e, CrossSessionLearner._analyze_engagement_patterns p = Some (Some e) /\
             Patterns.engagement_trend e = "decreasing") /\
  ((0 <= d)%Z ->
   exists x, CrossSessionLearner._analyze_expertise_progression p = Some x /\
             Patterns.progression x = "stable").
Proof.
  intros Hlen Hs.
  destruct (halves_constant d _ Hlen Hs) as (early & late & E1 & E2 & Q1 & Q2).
  split.
  - pose proof (engagement_of_recorded p (sessions_lasting_timed _ _ Hs)) as [r Hr].
    revert Hr. unfold CrossSessionLearner._analyze_engagement_patterns. cbv zeta.
    destruct (session_history p) as [|s l] eqn:Es; [cbn in Hlen; lia|].
    destruct (match List.filter _ (s :: l) with [] => Some 0 | _ :: _ => _ end) as [recent|];
      [|discriminate].
    cbn [mbind option_bind].
    replace (1 <? length (s :: l))%nat with true by (symmetry; apply Nat.ltb_lt; lia).
    rewrite E1, E2. cbn [mbind option_bind].
    replace (Py.ltb early late) with false by (symmetry; apply ltb_ge; lra).
    intros _. eexists. split; reflexivity.
  - intros Hd. assert (Hd' : 0 <= inject_Z d) by (unfold Qle; simpl; lia).
    unfold CrossSessionLearner._analyze_expertise_progression. cbv zeta.
    replace (length (session_history p) <? 2)%nat with false
      by (symmetry; apply Nat.ltb_ge; lia).
    rewrite E1, E2. cbn [mbind option_bind].
    replace (Py.ltb (early * 1.2) late) with false by (symmetry; apply ltb_ge; lra).
    replace (Py.ltb late (early * 0.8)) with false by (symmetry; apply ltb_ge; lra).
    eexists. split; reflexivity.
Qed.

Lemma equal_sessions_trend_witness :
  let p :=
    apply_session
      (apply_session (new_profile "u" 0) (session_of (Some "completed") 60000) 5)
      (session_of (Some "completed") 60000) 9 in
  (exists e, CrossSessionLearner._analyze_engagement_patterns p = Some (Some e) /\
             Patterns.engagement_trend e = "decreasing") /\
  (exists x, CrossSessionLearner._analyze_expertise_progression p = Some x /\
             Patterns.progression x = "stable").
Proof.
  destruct (equal_sessions_trend
              (apply_session
                 (apply_session (new_profile "u" 0) (session_of (Some "completed") 60000) 5)
                 (session_of (Some "completed") 60000) 9) 60000%Z) as [Ht Hp].
  - simpl. lia.
  - repeat constructor; eexists; split; reflexivity.
  - split; [exact Ht | apply Hp; lia].
Defined.

(** Two sessions of the negative duration -5: the trend is "decreasing" and
    the progression "improving". *)
Example negative_sessions_trend :
  let p :=
    apply_session (apply_session (new_profile "u" 0) (session_of None (-5)) 5)
                  (session_of None (-5)) 9 in
  (e ← default None (CrossSessionLearner._analyze_engagement_patterns p);
   x ← CrossSessionLearner._analyze_expertise_progression p;
   Some (Patterns.engagement_trend e, Patterns.progression x))
  = Some ("decreasing", "improving").
Proof. vm_compute. reflexivity. Qed.

(** ** Times of day *)

Lemma counted_sessions_insert k n (m : gmap string nat) :
  m !! k = None -> counted_sessions (<[k := n]> m) = (n + counted_sessions m)%nat.
Proof.
  intros Hk. unfold counted_sessions.
  rewrite (map_fold_insert_L (fun _ n total => (n + total)%nat) 0%nat k n m);
    [reflexivity | intros; lia | exact Hk].
Qed.

Lemma counted_sessions_step k (m : gmap string nat) :
  counted_sessions (<[k := S (default 0%nat (m !! k))]> m) = S (counted_sessions m).
Proof.
  destruct (m !! k) as [n|] eqn:E; cbn.
  - rewrite <- (insert_delete_id m k n E) at 2.
    rewrite <- insert_delete_eq.
    rewrite !counted_sessions_insert by apply lookup_delete_eq. reflexivity.
  - now rewrite counted_sessions_insert.
Qed.

Lemma time_bucket_name hour : CrossSessionLearner.time_bucket hour ∈ times_of_day.
Proof.
  unfold CrossSessionLearner.time_bucket, times_of_day. case_ifs; repeat constructor.
Qed.

Lemma time_step_counts `{External} time_patterns session n :
  (forall k, is_Some (time_patterns !! k) -> k ∈ times_of_day) ->
  (counted_sessions time_patterns <= n)%nat ->
  let time_patterns' := CrossSessionLearner.time_step time_patterns session in
  (forall k, is_Some (time_patterns' !! k) -> k ∈ times_of_day) /\
  (counted_sessions time_patterns' <= S n)%nat.
Proof.
  intros Hk Hn. cbv zeta. unfold CrossSessionLearner.time_step.
  destruct (truthy _); [|split; [exact Hk | lia]].
  destruct (num _); [|split; [exact Hk | lia]].
  destruct (local_hour _) as [hour|]; [|split; [exact Hk | lia]].
  split.
  - intros k. rewrite lookup_insert_is_Some. intros [<- | [_ Hs]];
      [apply time_bucket_name | now apply Hk].
  - rewrite counted_sessions_step. lia.
Qed.

Lemma time_loop_counts `{External} sessions time_patterns n :
  (forall k, is_Some (time_patterns !! k) -> k ∈ times_of_day) ->
  (counted_sessions time_patterns <= n)%nat ->
  let time_patterns' := fold_left CrossSessionLearner.time_step sessions time_patterns in
  (forall k, is_Some (time_patterns' !! k) -> k ∈ times_of_day) /\
  (counted_sessions time_patterns' <= n + length sessions)%nat.
Proof.
  revert time_patterns n. induction sessions as [|s l IH]; intros m n Hk Hn; cbv zeta.
  - cbn. split; [exact Hk | lia].
  - cbn [fold_left length].
    destruct (time_step_counts m s n Hk Hn) as [Hk' Hn'].
    destruct (IH _ (S n) Hk' Hn') as [Hk'' Hn'']. split; [exact Hk''|]. lia.
Qed.

(** X22: the table of time preferences of a timing analysis has no key
    besides morning, afternoon, evening and night, and its counts add up to
    at most the number of sessions: a session without a start time, or whose
    start time the platform cannot convert, is counted nowhere. *)
Theorem time_preferences_counts `{External} p now :
  match CrossSessionLearner._analyze_timing_patterns p now with
  | Some (Some t) =>
      (forall k, is_Some (Patterns.time_preferences t !! k) -> k ∈ times_of_day) /\
      (counted_sessions (Patterns.time_preferences t) <= Patterns.total_sessions t)%nat /\
      Patterns.total_sessions t = length (session_history p)
  | _ => True
  end.
Proof.
  unfold CrossSessionLearner._analyze_timing_patterns. cbv zeta.
  destruct (session_history p) as [|s l] eqn:Es; [exact I|]. cbv iota.
  generalize (s :: l). intros sessions.
  destruct (match List.filter truthy _ with [] => Some 0 | _ :: _ => _ end); [|exact I].
  cbn [mbind option_bind]. destruct (nums _); [|exact I].
  cbn [mbind option_bind Patterns.time_preferences Patterns.total_sessions].
  destruct (time_loop_counts sessions ∅ 0) as [Hk Hn].
  - intros k [x Hx]. rewrite lookup_empty in Hx. discriminate Hx.
  - unfold counted_sessions. now rewrite map_fold_empty.
  - repeat split; [exact Hk | exact Hn].
Qed.

(** A session that started at 09:26 UTC and one without a start time: one
    morning session is counted, of two sessions. *)
Example time_preferences_of_two_sessions :
  let started := session_of (Some "completed") 60000 in
  let unstarted :=
    {| Session.session_id := Some "s"; Session.session_start := None;
       Session.session_end := None; Session.session_end_type := None;
       Session.session_duration := Some 60000%Z; Session.engagement_time := None |} in
  let p := apply_session (apply_session (new_profile "u" 0) started 5) unstarted 9 in
  (t ← default None (@CrossSessionLearner._analyze_timing_patterns utc_host p 9);
   Some (map_to_list (Patterns.time_preferences t), Patterns.total_sessions t))
  = Some ([("morning", 1%nat)], 2%nat).
Proof. vm_compute. reflexivity. Qed.
